(** * Airbnb_Dashboard.py: the data loader and the filter pipeline

    A shallow embedding of the parts of [Airbnb_Dashboard.py] that compute:
    [load_data], the sidebar widgets that produce the filter selections, the
    filter statements that build [filtered], and the grouped aggregates of
    the pages.  Charts, layout and narrative text are not modelled.

    Conventions.
    - A pandas cell is a [cell]: missing ([NaN]), a number or a string.
      Numbers are exact rationals: every finite int64 and float64 is one, and
      the comparisons the script performs are exact on them.  Booleans are
      not cells: a column pandas reads as [bool] is outside the model (the
      script compares the flag [host_is_big] with 0 and 1 and looks the
      labels 0 and 1 up, as for a column of numbers).  Rounding (only in
      the means) and infinities are not modelled.
    - A row is a finite map from column name to cell; a column the row has
      no entry for reads as [NaN], as [read_csv] pads short records.
    - Exceptions are values of [exn]; code that may raise returns a
      [result]. *)

From Stdlib Require Import QArith.
From stdpp Require Import gmap strings list sorting.

Local Close Scope Q_scope.
Local Open Scope Z_scope.
Local Open Scope string_scope.
Local Open Scope list_scope.

(** ** Exceptions *)

Inductive exn :=
  | KeyError (key : string)
  | NameError (name : string)
  | TypeError
  | ValueError
  | FileNotFoundError (path : string)
  | BadZipFile
  | StreamlitAPIException.

Inductive result (A : Type) :=
  | Ok (a : A)
  | Raise (e : exn).
Arguments Ok {A} a.
Arguments Raise {A} e.

#[global] Instance result_ret : MRet result := λ A a, Ok a.
#[global] Instance result_bind : MBind result := λ A B f m,
  match m with Ok a => f a | Raise e => Raise e end.

Definition succeeds {A} (m : result A) : Prop := ∃ a, m = Ok a.

(** ** Cells, Series and DataFrames *)

Module Pandas.

Inductive cell :=
  | NaN
  | Num (q : Q)
  | Str (s : string).

Definition isna (v : cell) : bool :=
  match v with NaN => true | _ => false end.

(** A Series is the list of its values, [list cell]: the index labels play
    no part in what the script computes.  A row is a [gmap string cell]. *)

Record DataFrame := mkDataFrame {
  columns : list string;
  rows : list (gmap string cell)
}.

Definition cell_at (name : string) (r : gmap string cell) : cell :=
  default NaN (r !! name).

(** [name in df.columns] *)
Definition has_column (name : string) (t : DataFrame) : bool :=
  bool_decide (name ∈ columns t).

(** [df[name]] *)
Definition getitem (t : DataFrame) (name : string) : result (list cell) :=
  if has_column name t then Ok (map (cell_at name) (rows t))
  else Raise (KeyError name).

(** Membership as [Series.isin] decides it: numbers by value, strings by
    content, and a missing value matches a missing value. *)
Definition isin_eqb (v w : cell) : bool :=
  match v, w with
  | NaN, NaN => true
  | Num p, Num q => Qeq_bool p q
  | Str s, Str t => bool_decide (s = t)
  | _, _ => false
  end.

Definition isin (s : list cell) (values : list cell) : list bool :=
  map (λ v, existsb (isin_eqb v) values) s.

(** Elementwise [==] with a scalar: a missing value equals nothing. *)
Definition eq_scalar (v w : cell) : bool :=
  match v, w with
  | Num p, Num q => Qeq_bool p q
  | Str s, Str t => bool_decide (s = t)
  | _, _ => false
  end.

Definition series_eq (s : list cell) (w : cell) : list bool :=
  map (λ v, eq_scalar v w) s.

(** Elementwise [>=] and [<=] with an int: false on a missing value, and
    a string cannot be ordered against an int. *)
Definition ge_scalar (v : cell) (k : Z) : result bool :=
  match v with
  | NaN => Ok false
  | Num q => Ok (Qle_bool (inject_Z k) q)
  | Str _ => Raise TypeError
  end.

Definition le_scalar (v : cell) (k : Z) : result bool :=
  match v with
  | NaN => Ok false
  | Num q => Ok (Qle_bool q (inject_Z k))
  | Str _ => Raise TypeError
  end.

Fixpoint series_cmp (cmp : cell → Z → result bool) (s : list cell) (k : Z)
  : result (list bool) :=
  match s with
  | [] => Ok []
  | v :: s' => b ← cmp v k; bs ← series_cmp cmp s' k; Ok (b :: bs)
  end.

Definition series_ge := series_cmp ge_scalar.
Definition series_le := series_cmp le_scalar.

(** [m1 & m2] on boolean Series of one frame. *)
Definition mask_and (m1 m2 : list bool) : list bool := zip_with andb m1 m2.

(** The rows a boolean mask keeps. *)
Fixpoint select {A} (mask : list bool) (xs : list A) : list A :=
  match mask, xs with
  | b :: mask', x :: xs' =>
      if b then x :: select mask' xs' else select mask' xs'
  | _, _ => []
  end.

(** [df[mask]]: a new frame with the same columns; pandas refuses a mask of
    the wrong length. *)
Definition boolean_index (t : DataFrame) (mask : list bool) : result DataFrame :=
  if bool_decide (length mask = length (rows t))
  then Ok (mkDataFrame (columns t) (select mask (rows t)))
  else Raise ValueError.

(** [s.dropna()] and [s.unique()] (first occurrences, in order). *)
Definition dropna (s : list cell) : list cell :=
  List.filter (λ v, negb (isna v)) s.

Fixpoint unique (s : list cell) : list cell :=
  match s with
  | [] => []
  | v :: s' => v :: List.filter (λ w, negb (isin_eqb w v)) (unique s')
  end.

(** [s.value_counts()]: one entry per distinct non-missing value, with the
    number of cells holding it.  A Series result is the list of its
    (label, value) entries; the order pandas presents them in (by count,
    or by key for a group-by) is not modelled. *)
Definition value_counts (s : list cell) : list (cell * nat) :=
  map (λ k, (k, length (List.filter (isin_eqb k) s))) (unique (dropna s)).

(** The non-missing numbers of a Series; a string cannot be averaged. *)
Fixpoint numbers (s : list cell) : result (list Q) :=
  match s with
  | [] => Ok []
  | NaN :: s' => numbers s'
  | Num q :: s' => qs ← numbers s'; Ok (q :: qs)
  | Str _ :: _ => Raise TypeError
  end.

(** [s.mean()]: missing values are skipped, and the mean of nothing is
    missing. *)
Definition mean (s : list cell) : result cell :=
  qs ← numbers s;
  Ok (match qs with
      | [] => NaN
      | _ => Num (Qdiv (foldr Qplus (inject_Z 0) qs)
                       (inject_Z (Z.of_nat (length qs))))
      end).

(** [df.groupby(by)[col].mean()]: one entry per distinct non-missing key. *)
Definition groupby_mean (t : DataFrame) (by_ col : string)
  : result (list (cell * cell)) :=
  keys ← getitem t by_;
  vals ← getitem t col;
  mapM (λ k, m ← mean (select (map (isin_eqb k) keys) vals); Ok (k, m))
       (unique (dropna keys)).

(** [s.get(key, default)]: the entry whose label has the value of [key],
    the default when no label has.  The labels are those of a Series
    grouped by a column of numbers or strings; a number key is looked up
    among the labels, never read as a position. *)
Definition series_get {V} (s : list (cell * V)) (key : cell) (dflt : V) : V :=
  match List.find (λ e, isin_eqb e.1 key) s with
  | Some e => e.2
  | None => dflt
  end.

End Pandas.

(** ** The file system [load_data] reads *)

Module Files.
Import Pandas.

(** What [pd.read_csv] makes of a file's bytes: the table they parse to, or
    nothing when they are not CSV text. *)
Inductive blob :=
  | Csv (t : DataFrame)
  | Opaque.

(** A file is plain bytes or a zip archive with named members. *)
Inductive file :=
  | Plain (b : blob)
  | Zip (members : list (string * blob)).

(** [os.path.exists(path)] *)
Definition path_exists (fs : gmap string file) (path : string) : bool :=
  bool_decide (is_Some (fs !! path)).

(** [zipfile.ZipFile(path).extractall()]: every member is written to the
    working directory, a later member over an earlier one of the same name. *)
Definition extractall (fs : gmap string file) (path : string)
  : result (gmap string file) :=
  match fs !! path with
  | None => Raise (FileNotFoundError path)
  | Some (Plain _) => Raise BadZipFile
  | Some (Zip members) =>
      Ok (foldl (λ acc m, <[m.1 := Plain m.2]> acc) fs members)
  end.

(** [pd.read_csv(path)] *)
Definition read_csv (fs : gmap string file) (path : string) : result DataFrame :=
  match fs !! path with
  | None => Raise (FileNotFoundError path)
  | Some (Plain (Csv t)) => Ok t
  | Some _ => Raise ValueError
  end.

End Files.

(** ** The script *)

Module Dashboard.
Import Pandas Files.

Definition zip_path : string := "Airbnb_Open_Data_Final_features.csv.zip".
Definition csv_path : string := "Airbnb_Open_Data_Final_features.csv".

(** [df.columns.str.contains("^Unnamed")]: the pattern is anchored, so it is
    found exactly in the names that start with [Unnamed]. *)
Definition contains_Unnamed (name : string) : bool :=
  String.prefix "Unnamed" name.

(** [df.loc[:, mask]] for a mask computed from each column's name. *)
Definition loc_columns (keep : string → bool) (t : DataFrame) : DataFrame :=
  mkDataFrame (List.filter keep (columns t))
              (map (filter (λ kv : string * cell, keep kv.1 = true)) (rows t)).

(** Lines 26-28: the archive, when there is one, is unpacked in place. *)
Definition unpack_archive (fs : gmap string file) : result (gmap string file) :=
  if path_exists fs zip_path then extractall fs zip_path else Ok fs.

(** [load_data()]; returns the table and the file system it leaves behind.
    The [st.cache_data] memoisation is not modelled. *)
Definition load_data (fs : gmap string file)
  : result (DataFrame * gmap string file) :=
  fs1 ← unpack_archive fs;
  df ← read_csv fs1 csv_path;
  Ok (loc_columns (λ c, negb (contains_Unnamed c)) df, fs1).

(** *** Sidebar widgets

    A widget returns what the user picked among the options it was given;
    the user is a pair of functions from the widget's label and options to
    the pick.  Streamlit guarantees that the pick is among the options. *)
Record Widgets := mkWidgets {
  multiselect : string → list cell → list cell → list cell;
  selectbox : string → list cell → cell
}.

Definition picks_among_options (w : Widgets) : Prop :=
  (∀ label options dflt v,
     v ∈ multiselect w label options dflt → v ∈ options) ∧
  (∀ label options, options ≠ [] → selectbox w label options ∈ options).

(** The filter selections, named as the script's variables. *)
Record FilterSpec := mkFilterSpec {
  ng : list cell;
  rt : list cell;
  co : list cell;
  ag : cell;
  host_type : cell;
  price_range : Z * Z;
  year_range : Z * Z;
  min_nights : Z * Z
}.

Definition host_type_options : list cell :=
  [Str "All"; Str "Small Hosts (≤3 listings)"; Str "Big Hosts (>3 listings)"].

(** [df[name].dropna().unique().tolist()] *)
Definition category_options (df : DataFrame) (name : string)
  : result (list cell) :=
  c ← getitem df name; Ok (unique (dropna c)).

(** Lines 41-74.  The pair of ints each range slider of lines 77-84
    returns is taken as given here ([pr], [yr], [mn]); the sliders
    themselves are in [Sliders] below. *)
Definition sidebar (w : Widgets) (pr yr mn : Z * Z) (df : DataFrame)
  : result FilterSpec :=
  o1 ← category_options df "neighbourhood group";
  o2 ← category_options df "room type";
  o3 ← category_options df "country";
  ag ← (if has_column "availability_group" df
        then o ← category_options df "availability_group";
             Ok (selectbox w "Availability Group" (Str "All" :: o))
        else Ok (Str "All"));
  let host_type :=
    if has_column "host_is_big" df
    then selectbox w "Host Type" host_type_options
    else Str "All" in
  Ok {| ng := multiselect w "Neighbourhood Group" o1 o1;
        rt := multiselect w "Room Type" o2 o2;
        co := multiselect w "Country" o3 o3;
        ag := ag;
        host_type := host_type;
        price_range := pr;
        year_range := yr;
        min_nights := mn |}.

(** *** The filter statements (lines 89-112)

    Each statement [filtered = filtered[mask]] computes a boolean mask from
    the current [filtered] and rebinds the name to a new frame. *)

(** The nine-fold conjunction of lines 92-100, operands evaluated left to
    right. *)
Definition main_mask (s : FilterSpec) (filtered : DataFrame)
  : result (list bool) :=
  c1 ← getitem filtered "neighbourhood group";
  let m1 := isin c1 (ng s) in
  c2 ← getitem filtered "room type";
  let m2 := mask_and m1 (isin c2 (rt s)) in
  c3 ← getitem filtered "country";
  let m3 := mask_and m2 (isin c3 (co s)) in
  c4 ← getitem filtered "price";
  b4 ← series_ge c4 (price_range s).1;
  let m4 := mask_and m3 b4 in
  c5 ← getitem filtered "price";
  b5 ← series_le c5 (price_range s).2;
  let m5 := mask_and m4 b5 in
  c6 ← getitem filtered "Construction year";
  b6 ← series_ge c6 (year_range s).1;
  let m6 := mask_and m5 b6 in
  c7 ← getitem filtered "Construction year";
  b7 ← series_le c7 (year_range s).2;
  let m7 := mask_and m6 b7 in
  c8 ← getitem filtered "minimum nights";
  b8 ← series_ge c8 (min_nights s).1;
  let m8 := mask_and m7 b8 in
  c9 ← getitem filtered "minimum nights";
  b9 ← series_le c9 (min_nights s).2;
  Ok (mask_and m8 b9).

(** [filtered["availability_group"] == ag] *)
Definition ag_mask (s : FilterSpec) (filtered : DataFrame)
  : result (list bool) :=
  c ← getitem filtered "availability_group"; Ok (series_eq c (ag s)).

(** [filtered["host_is_big"] == k] *)
Definition host_mask (k : Z) (filtered : DataFrame) : result (list bool) :=
  c ← getitem filtered "host_is_big"; Ok (series_eq c (Num (inject_Z k))).

(** [x != "All"] *)
Definition not_All (x : cell) : bool := negb (eq_scalar x (Str "All")).

(** ["Small" in x]; only a string can be searched. *)
Definition Small_in (x : cell) : result bool :=
  match x with
  | Str h => Ok (bool_decide (is_Some (String.index 0 "Small" h)))
  | _ => Raise TypeError
  end.

(** The interpreter state: a heap of frames (a new frame is allocated at
    the end and none is ever overwritten), the module's global names and
    [st.session_state], both binding a name to a heap address. *)
Record store := mkStore {
  heap : list DataFrame;
  globals : gmap string nat;
  session_state : gmap string nat
}.

Definition prog (A : Type) : Type := store → result (A * store).

#[global] Instance prog_ret : MRet prog := λ A a σ, Ok (a, σ).
#[global] Instance prog_bind : MBind prog := λ A B f m σ,
  match m σ with Ok (a, σ') => f a σ' | Raise e => Raise e end.

Definition lift {A} (m : result A) : prog A :=
  λ σ, match m with Ok a => Ok (a, σ) | Raise e => Raise e end.

Definition load_name (x : string) : prog nat :=
  λ σ, match globals σ !! x with
       | Some l => Ok (l, σ)
       | None => Raise (NameError x)
       end.

Definition store_name (x : string) (l : nat) : prog unit :=
  λ σ, Ok ((), mkStore (heap σ) (<[x := l]> (globals σ)) (session_state σ)).

Definition deref (l : nat) : prog DataFrame :=
  λ σ, match heap σ !! l with
       | Some t => Ok (t, σ)
       | None => Raise (NameError "")
       end.

Definition alloc (t : DataFrame) : prog nat :=
  λ σ, Ok (length (heap σ),
           mkStore (heap σ ++ [t]) (globals σ) (session_state σ)).

Definition set_session (key : string) (l : nat) : prog unit :=
  λ σ, Ok ((), mkStore (heap σ) (globals σ) (<[key := l]> (session_state σ))).

(** [filtered = df.copy()] *)
Definition copy_df : prog unit :=
  l ← load_name "df"; t ← deref l; l' ← alloc t; store_name "filtered" l'.

(** [t[mask]] for a mask computed from [t]. *)
Definition filter_by (mask : DataFrame → result (list bool)) (t : DataFrame)
  : result DataFrame :=
  m ← mask t; boolean_index t m.

(** [filtered = filtered[mask]] *)
Definition index_filtered (mask : DataFrame → result (list bool)) : prog unit :=
  l ← load_name "filtered";
  t ← deref l;
  t' ← lift (filter_by mask t);
  l' ← alloc t';
  store_name "filtered" l'.

Definition skip : prog unit := mret ().

(** Lines 103-104. *)
Definition filter_availability (s : FilterSpec) : prog unit :=
  if not_All (ag s) then index_filtered (ag_mask s) else skip.

(** Lines 106-110. *)
Definition filter_host_type (s : FilterSpec) : prog unit :=
  if not_All (host_type s)
  then lift (Small_in (host_type s)) ≫= λ small : bool,
       if small then index_filtered (host_mask 0)
       else index_filtered (host_mask 1)
  else skip.

(** Lines 89-112. *)
Definition apply_filters (s : FilterSpec) : prog unit :=
  copy_df;;
  index_filtered (main_mask s);;
  filter_availability s;;
  filter_host_type s;;
  l ← load_name "filtered";
  set_session "df" l.

(** The store in which [df = load_data()] has just run. *)
Definition loaded (df : DataFrame) : store :=
  mkStore [df] {["df" := 0%nat]} ∅.

(** The table the pages read back from [st.session_state["df"]]. *)
Definition session_df (σ : store) : result DataFrame :=
  match session_state σ !! "df" with
  | Some l => match heap σ !! l with
              | Some t => Ok t
              | None => Raise (KeyError "df")
              end
  | None => Raise (KeyError "df")
  end.

(** The filter pipeline as a function of the loaded table and the
    selections. *)
Definition filtered_of (df : DataFrame) (s : FilterSpec) : result DataFrame :=
  match apply_filters s (loaded df) with
  | Ok (_, σ) => session_df σ
  | Raise e => Raise e
  end.

(** *** Page aggregates *)

(** [df2[name].value_counts()] (Market Supply, Host Dynamics). *)
Definition column_counts (df2 : DataFrame) (name : string)
  : result (list (cell * nat)) :=
  c ← getitem df2 name; Ok (value_counts c).

(** Host Dynamics, "Host Type Distribution": the two bars, label and
    height (lines 402-407), [counts.get(0, 0)] and [counts.get(1, 0)]: the
    counts under the labels 0 and 1 of a flag column of numbers. *)
Definition host_type_distribution (df2 : DataFrame)
  : result (list (string * nat)) :=
  counts ← column_counts df2 "host_is_big";
  Ok [("Small Hosts (≤3)", series_get counts (Num (inject_Z 0)) 0%nat);
      ("Big Hosts (>3)", series_get counts (Num (inject_Z 1)) 0%nat)].

(** Host Dynamics, "Average Price by Host Type" (lines 416-421),
    [avg.get(0, 0)] and [avg.get(1, 0)]. *)
Definition average_price_by_host_type (df2 : DataFrame)
  : result (list (string * cell)) :=
  avg ← groupby_mean df2 "host_is_big" "price";
  Ok [("Small Hosts", series_get avg (Num (inject_Z 0)) (Num (inject_Z 0)));
      ("Big Hosts", series_get avg (Num (inject_Z 1)) (Num (inject_Z 0)))].

End Dashboard.

(** ** The contract of the filter pipeline, in the specification's words *)

Module Contract.
Import Pandas Files Dashboard.

(** Two cells hold the same value. *)
Definition same_value (v w : cell) : Prop :=
  match v, w with
  | NaN, NaN => True
  | Num p, Num q => Qeq p q
  | Str s, Str t => s = t
  | _, _ => False
  end.

(** "IN set": the value is one of the permitted ones. *)
Definition in_set (v : cell) (permitted : list cell) : Prop :=
  ∃ w, w ∈ permitted ∧ same_value v w.

(** Inclusive range: a number between the two bounds, bounds included. *)
Definition in_range (v : cell) (range : Z * Z) : Prop :=
  ∃ q, v = Num q ∧ Qle (inject_Z range.1) q ∧ Qle q (inject_Z range.2).

(** The value lies on a bound of the range. *)
Definition on_bound (v : cell) (range : Z * Z) : Prop :=
  ∃ q, v = Num q ∧ (Qeq q (inject_Z range.1) ∨ Qeq q (inject_Z range.2)).

(** Equality constraint: a present value equal to the chosen one. *)
Definition equal_to (v chosen : cell) : Prop :=
  match v, chosen with
  | Num p, Num q => Qeq p q
  | Str s, Str t => s = t
  | _, _ => False
  end.

Definition sat_categories (s : FilterSpec) (r : gmap string cell) : Prop :=
  in_set (cell_at "neighbourhood group" r) (ng s) ∧
  in_set (cell_at "room type" r) (rt s) ∧
  in_set (cell_at "country" r) (co s).

Definition sat_price (s : FilterSpec) (r : gmap string cell) : Prop :=
  in_range (cell_at "price" r) (price_range s).

Definition sat_year (s : FilterSpec) (r : gmap string cell) : Prop :=
  in_range (cell_at "Construction year" r) (year_range s).

Definition sat_nights (s : FilterSpec) (r : gmap string cell) : Prop :=
  in_range (cell_at "minimum nights" r) (min_nights s).

(** The availability bucket, unless the choice is the sentinel. *)
Definition sat_availability (s : FilterSpec) (r : gmap string cell) : Prop :=
  ag s ≠ Str "All" → equal_to (cell_at "availability_group" r) (ag s).

(** The host-size flag for a choice given as any text, unless it is the
    sentinel: 0 when the text mentions the small hosts, 1 otherwise.
    [host_size_constraint] below states the constraint for the three
    choices the sidebar offers. *)
Definition sat_host (s : FilterSpec) (r : gmap string cell) : Prop :=
  host_type s ≠ Str "All" →
  ∃ small, Small_in (host_type s) = Ok small ∧
    equal_to (cell_at "host_is_big" r)
             (Num (inject_Z (if small then 0 else 1))).

(** The conjunction of all constraints. *)
Definition satisfies (s : FilterSpec) (r : gmap string cell) : Prop :=
  sat_categories s r ∧ sat_price s r ∧ sat_year s r ∧ sat_nights s r ∧
  sat_availability s r ∧ sat_host s r.

(** The host-size constraint for the three choices the sidebar offers: the
    sentinel constrains nothing, the small hosts (at most three listings)
    are the rows whose flag equals 0, the big hosts (more than three) the
    rows whose flag equals 1. *)
Definition host_size_constraint (choice : cell) (r : gmap string cell) : Prop :=
  choice = Str "All" ∨
  (choice = Str "Small Hosts (≤3 listings)" ∧
   equal_to (cell_at "host_is_big" r) (Num (inject_Z 0))) ∨
  (choice = Str "Big Hosts (>3 listings)" ∧
   equal_to (cell_at "host_is_big" r) (Num (inject_Z 1))).

(** The conjunction of all constraints of a selection made in the
    sidebar. *)
Definition meets_every_constraint (s : FilterSpec) (r : gmap string cell)
  : Prop :=
  sat_categories s r ∧ sat_price s r ∧ sat_year s r ∧ sat_nights s r ∧
  sat_availability s r ∧ host_size_constraint (host_type s) r.

(** A cell that can be ordered against an int. *)
Definition orderable (v : cell) : bool :=
  match v with Str _ => false | _ => true end.

Definition required_columns : list string :=
  ["neighbourhood group"; "room type"; "country";
   "price"; "Construction year"; "minimum nights"].

Definition numeric_columns : list string :=
  ["price"; "Construction year"; "minimum nights"].

(** The table has the six filtered columns, and the three ranged ones hold
    numbers or missing values: the tables on which lines 77-101 do not
    raise. *)
Definition schema_ok (df : DataFrame) : Prop :=
  Forall (λ c, has_column c df = true) required_columns ∧
  Forall (λ c, Forall (λ r, orderable (cell_at c r) = true) (rows df))
         numeric_columns.

(** The flag column holds numbers or missing values, as the lookups of the
    labels 0 and 1 on the Host Dynamics page expect. *)
Definition host_flags_numeric (df : DataFrame) : Prop :=
  Forall (λ r, orderable (cell_at "host_is_big" r) = true) (rows df).

(** The selections the sidebar can produce for [df]: a specific
    availability bucket or host type is only ever offered when its column
    exists, and the host type is one of the widget's strings. *)
Definition selection_ok (df : DataFrame) (s : FilterSpec) : Prop :=
  (not_All (ag s) = true → has_column "availability_group" df = true) ∧
  (not_All (host_type s) = true →
     has_column "host_is_big" df = true ∧ ∃ h, host_type s = Str h).

(** The multiselect picks hold no missing value, as the options they are
    picked from hold none. *)
Definition picks_not_missing (s : FilterSpec) : Prop :=
  (NaN ∉ ng s) ∧ (NaN ∉ rt s) ∧ (NaN ∉ co s).

(** The filter statements as one function of the table. *)
Definition availability_stage (s : FilterSpec) (t : DataFrame) : result DataFrame :=
  if not_All (ag s) then filter_by (ag_mask s) t else Ok t.

Definition host_stage (s : FilterSpec) (t : DataFrame) : result DataFrame :=
  if not_All (host_type s)
  then small ← Small_in (host_type s);
       filter_by (host_mask (if small : bool then 0 else 1)) t
  else Ok t.

Definition pipeline (s : FilterSpec) (df : DataFrame) : result DataFrame :=
  t1 ← filter_by (main_mask s) df;
  t2 ← availability_stage s t1;
  host_stage s t2.

(** Row-wise readings of the masks. *)
Definition geb (k : Z) (v : cell) : bool :=
  match v with Num q => Qle_bool (inject_Z k) q | _ => false end.

Definition leb (k : Z) (v : cell) : bool :=
  match v with Num q => Qle_bool q (inject_Z k) | _ => false end.

Definition member (name : string) (permitted : list cell)
  (r : gmap string cell) : bool :=
  existsb (isin_eqb (cell_at name r)) permitted.

Definition main_passes (s : FilterSpec) (r : gmap string cell) : bool :=
  member "neighbourhood group" (ng s) r &&
  member "room type" (rt s) r &&
  member "country" (co s) r &&
  geb (price_range s).1 (cell_at "price" r) &&
  leb (price_range s).2 (cell_at "price" r) &&
  geb (year_range s).1 (cell_at "Construction year" r) &&
  leb (year_range s).2 (cell_at "Construction year" r) &&
  geb (min_nights s).1 (cell_at "minimum nights" r) &&
  leb (min_nights s).2 (cell_at "minimum nights" r).

Definition availability_passes (s : FilterSpec) (r : gmap string cell) : bool :=
  if not_All (ag s)
  then eq_scalar (cell_at "availability_group" r) (ag s)
  else true.

Definition host_passes (s : FilterSpec) (r : gmap string cell) : bool :=
  if not_All (host_type s)
  then match Small_in (host_type s) with
       | Ok small =>
           eq_scalar (cell_at "host_is_big" r)
                     (Num (inject_Z (if small then 0 else 1)))
       | Raise _ => false
       end
  else true.

Definition passes (s : FilterSpec) (r : gmap string cell) : bool :=
  main_passes s r && availability_passes s r && host_passes s r.

(** The name starts with the given text. *)
Definition begins_with (p name : string) : Prop :=
  ∃ rest, name = p +:+ rest.

(** Reading the store: the frame a global name denotes, and what a
    statement that only rebinds [filtered] leaves in place. *)
Definition bound (σ : store) (x : string) (t : DataFrame) : Prop :=
  ∃ l, globals σ !! x = Some l ∧ heap σ !! l = Some t.

Definition preserves (σ σ' : store) : Prop :=
  heap σ `prefix_of` heap σ' ∧
  (∀ x, x ≠ "filtered" → globals σ' !! x = globals σ !! x) ∧
  session_state σ' = session_state σ.

(** The statement [p] rebinds [filtered] to the frame [f] computes from the
    current one, raises when [f] does, and touches nothing else. *)
Definition implements (p : prog unit) (f : DataFrame → result DataFrame) : Prop :=
  ∀ σ t, bound σ "filtered" t →
    match f t with
    | Ok t' => ∃ σ', p σ = Ok ((), σ') ∧ bound σ' "filtered" t' ∧ preserves σ σ'
    | Raise e => p σ = Raise e
    end.

End Contract.

(** ** Sample tables and selections *)

Module Samples.
Import Pandas Files Dashboard Contract.

Definition num (k : Z) : cell := Num (inject_Z k).

Definition listing (group room country price year nights bucket big : cell)
  : gmap string cell :=
  {[ "neighbourhood group" := group; "room type" := room;
     "country" := country; "price" := price;
     "Construction year" := year; "minimum nights" := nights;
     "availability_group" := bucket; "host_is_big" := big ]}.

Definition listing_columns : list string :=
  ["neighbourhood group"; "room type"; "country"; "price";
   "Construction year"; "minimum nights"; "availability_group"; "host_is_big"].

Definition home_50 : gmap string cell :=
  listing (Str "Bronx") (Str "Entire home") (Str "United States")
          (num 50) (num 2005) (num 2) (Str "Low") (num 0).
Definition room_50 : gmap string cell :=
  listing (Str "Bronx") (Str "Private room") (Str "United States")
          (num 50) (num 2010) (num 1) (Str "High") (num 1).
Definition home_60 : gmap string cell :=
  listing (Str "Queens") (Str "Entire home") (Str "United States")
          (num 60) (num 2012) (num 3) (Str "Low") (num 1).
Definition home_no_group : gmap string cell :=
  listing NaN (Str "Entire home") (Str "United States")
          (num 50) (num 2008) (num 2) (Str "Low") (num 1).
Definition home_no_price : gmap string cell :=
  listing (Str "Queens") (Str "Entire home") (Str "United States")
          NaN (num 2008) (num 2) (Str "High") (num 1).

Definition listings : DataFrame :=
  mkDataFrame listing_columns
    [home_50; room_50; home_60; home_no_group; home_no_price].

(** The same listings without the two derived columns. *)
Definition bare_listings : DataFrame :=
  mkDataFrame required_columns (rows listings).

(** Price range (50, 50) and room type {"Entire home"}, everything else
    wide open. *)
Definition homes_at_50 : FilterSpec :=
  {| ng := [Str "Bronx"; Str "Queens"];
     rt := [Str "Entire home"];
     co := [Str "United States"];
     ag := Str "All";
     host_type := Str "All";
     price_range := (50, 50);
     year_range := (2000, 2020);
     min_nights := (1, 30) |}.

(** No room type selected. *)
Definition no_room_type : FilterSpec :=
  {| ng := [Str "Bronx"; Str "Queens"];
     rt := [];
     co := [Str "United States"];
     ag := Str "Low";
     host_type := Str "Big Hosts (>3 listings)";
     price_range := (50, 60);
     year_range := (2000, 2020);
     min_nights := (1, 30) |}.

(** Low availability, big hosts. *)
Definition low_big : FilterSpec :=
  {| ng := [Str "Bronx"; Str "Queens"];
     rt := [Str "Entire home"; Str "Private room"];
     co := [Str "United States"];
     ag := Str "Low";
     host_type := Str "Big Hosts (>3 listings)";
     price_range := (50, 60);
     year_range := (2000, 2020);
     min_nights := (1, 30) |}.

(** A user who keeps every option of a multiselect selected and the first
    option of a selectbox: the widgets' defaults in this script. *)
Definition untouched : Widgets :=
  {| multiselect := λ _ options _, options;
     selectbox := λ _ options, List.hd (Str "All") options |}.

(** A user who picks the last option of every selectbox. *)
Definition picks_last : Widgets :=
  {| multiselect := λ _ options _, options;
     selectbox := λ _ options, List.last options (Str "All") |}.

(** What [untouched] selects on [listings], and [picks_last] on
    [bare_listings], with the sliders at (50, 60), (2000, 2020), (1, 30). *)
Definition default_selection : FilterSpec :=
  {| ng := [Str "Bronx"; Str "Queens"];
     rt := [Str "Entire home"; Str "Private room"];
     co := [Str "United States"];
     ag := Str "All";
     host_type := Str "All";
     price_range := (50, 60);
     year_range := (2000, 2020);
     min_nights := (1, 30) |}.

(** A CSV export with an index artifact column. *)
Definition export : DataFrame :=
  mkDataFrame ["Unnamed: 0"; "NAME"; "price"]
    [ {[ "Unnamed: 0" := num 0; "NAME" := Str "Loft"; "price" := num 50 ]};
      {[ "Unnamed: 0" := num 1; "NAME" := Str "Studio"; "price" := num 60 ]} ].

Definition disk_with_csv : gmap string file :=
  {[ csv_path := Plain (Csv export) ]}.

Definition disk_with_zip : gmap string file :=
  {[ zip_path := Zip [(csv_path, Csv export)] ]}.

(** Small hosts, everything else wide open. *)
Definition small_hosts : FilterSpec :=
  {| ng := [Str "Bronx"; Str "Queens"];
     rt := [Str "Entire home"; Str "Private room"];
     co := [Str "United States"];
     ag := Str "All";
     host_type := Str "Small Hosts (≤3 listings)";
     price_range := (50, 60);
     year_range := (2000, 2020);
     min_nights := (1, 30) |}.

(** What filtering [listings] by [low_big] leaves: big hosts only. *)
Definition big_hosts_only : DataFrame :=
  mkDataFrame listing_columns [home_60].

End Samples.

(** Discharging the side conditions on a concrete table and selection. *)
Ltac schema_by_computation :=
  split; repeat constructor.

Ltac selection_by_computation :=
  split; intros Hpick;
  [ first [discriminate Hpick | reflexivity]
  | first [discriminate Hpick | split; [reflexivity | eexists; reflexivity]] ].

(** ** The range sliders (lines 77-84) *)

Module Sliders.
Import Pandas Files Dashboard Contract.

(** [int(x)] of a number: truncation toward zero. *)
Definition int_of (q : Q) : Z := Z.quot (Qnum q) (Zpos (Qden q)).

Definition qmin (p q : Q) : Q := if Qle_bool p q then p else q.
Definition qmax (p q : Q) : Q := if Qle_bool p q then q else p.

(** [s.min()] and [s.max()] of a numeric column: missing values are
    skipped, and the extreme of nothing is missing ([None]).  A column
    holding a string is not numeric; the script raises on it, at line 77
    or at the comparison of line 95, and the model raises here. *)
Definition series_extreme (pick : Q → Q → Q) (s : list cell)
  : result (option Q) :=
  qs ← numbers s;
  Ok (match qs with
      | [] => None
      | q :: qs' => Some (foldl pick q qs')
      end).

Definition series_min := series_extreme qmin.
Definition series_max := series_extreme qmax.

(** [int(x)] of what [min()] or [max()] returned: a missing value cannot
    be converted. *)
Definition int_extreme (x : option Q) : result Z :=
  match x with
  | Some q => Ok (int_of q)
  | None => Raise ValueError
  end.

(** [int(df[name].min()), int(df[name].max())] *)
Definition slider_bounds (df : DataFrame) (name : string) : result (Z * Z) :=
  c ← getitem df name;
  lo ← series_min c ≫= int_extreme;
  c' ← getitem df name;
  hi ← series_max c' ≫= int_extreme;
  Ok (lo, hi).

(** The user of a range slider: the pair set, given the slider's label, its
    two bounds and its default pair. *)
Definition Slider : Type := string → Z → Z → Z * Z → Z * Z.

(** The largest int the browser's numbers hold exactly, 2^53 - 1. *)
Definition max_safe_int : Z := 2 ^ 53 - 1.

(** Streamlit builds an int slider only when its lower bound is below its
    upper bound and both are ints the browser holds. *)
Definition slider_accepted (lo hi : Z) : bool :=
  bool_decide (lo < hi)%Z &&
  bool_decide (- max_safe_int ≤ lo)%Z && bool_decide (hi ≤ max_safe_int)%Z.

(** [st.sidebar.slider(label, lo, hi, dflt)]: the pair the user set, or
    StreamlitAPIException when the slider cannot be built. *)
Definition st_slider (sl : Slider) (label : string) (lo hi : Z)
    (dflt : Z * Z) : result (Z * Z) :=
  if slider_accepted lo hi then Ok (sl label lo hi dflt)
  else Raise StreamlitAPIException.

(** Streamlit keeps the pair ordered and within the (ordered) bounds. *)
Definition slides_within_bounds (sl : Slider) : Prop :=
  ∀ label lo hi dflt, (lo ≤ hi)%Z →
    (lo ≤ (sl label lo hi dflt).1)%Z ∧
    ((sl label lo hi dflt).1 ≤ (sl label lo hi dflt).2)%Z ∧
    ((sl label lo hi dflt).2 ≤ hi)%Z.

(** Lines 77-84. *)
Definition slider_ranges (sl : Slider) (df : DataFrame)
  : result ((Z * Z) * (Z * Z) * (Z * Z)) :=
  b1 ← slider_bounds df "price";
  price_range ← st_slider sl "Price Range" b1.1 b1.2 b1;
  b2 ← slider_bounds df "Construction year";
  year_range ← st_slider sl "Construction Year Range" b2.1 b2.2 b2;
  b3 ← slider_bounds df "minimum nights";
  min_nights ← st_slider sl "Minimum Nights" b3.1 b3.2 b3;
  Ok (price_range, year_range, min_nights).

(** Lines 41-84: the selections of lines 41-74, then the three ranges. *)
Definition sidebar_with_sliders (w : Widgets) (sl : Slider) (df : DataFrame)
  : result FilterSpec :=
  s ← sidebar w (0, 0) (0, 0) (0, 0) df;
  ranges ← slider_ranges sl df;
  Ok {| ng := ng s; rt := rt s; co := co s;
        ag := ag s; host_type := host_type s;
        price_range := ranges.1.1;
        year_range := ranges.1.2;
        min_nights := ranges.2 |}.

(** Lines 33-112: load, sidebar, filter statements. *)
Definition session_table (w : Widgets) (sl : Slider) (fs : gmap string file)
  : result DataFrame :=
  ld ← load_data fs;
  s ← sidebar_with_sliders w sl ld.1;
  filtered_of ld.1 s.

(** A whole number, or a missing value. *)
Definition whole (v : cell) : Prop :=
  match v with
  | NaN => True
  | Num q => Qeq q (inject_Z (int_of q))
  | Str _ => False
  end.

(** The user leaves every widget as it first shows: multiselects and
    sliders at their default, selectboxes at their first option. *)
Definition leaves_defaults (w : Widgets) (sl : Slider) : Prop :=
  (∀ label options dflt, multiselect w label options dflt = dflt) ∧
  (∀ label o options, selectbox w label (o :: options) = o) ∧
  (∀ label lo hi dflt, sl label lo hi dflt = dflt).

(** The row has a value in each of the six filtered columns. *)
Definition complete (r : gmap string cell) : bool :=
  forallb (λ c, negb (isna (cell_at c r))) required_columns.

(** The table has the six filtered columns, and the three ranged ones
    hold whole numbers or missing values. *)
Definition whole_columns (df : DataFrame) : Prop :=
  Forall (λ c, has_column c df = true) required_columns ∧
  Forall (λ c, Forall (λ r, whole (cell_at c r)) (rows df)) numeric_columns.

(** The numbers a Series holds. *)
Definition the_numbers (s : list cell) : list Q :=
  omap (λ v, match v with Num q => Some q | _ => None end) s.

End Sliders.

(** ** The pages (lines 134-507): the values they hand to the charts *)

Module Pages.
Import Pandas Files Dashboard Contract.

(** [s.nunique()] *)
Definition nunique (s : list cell) : nat := length (unique (dropna s)).

(** Page 1, the eight metrics before formatting (lines 141-152). *)
Record KPIs := mkKPIs {
  listing_count : nat;
  unique_hosts : nat;
  average_price : cell;
  average_rating : cell;
  avg_min_nights : cell;
  avg_occupancy : cell;
  avg_popularity : cell;
  countries : nat
}.

Definition column_mean (df2 : DataFrame) (name : string) : result cell :=
  c ← getitem df2 name; mean c.

Definition dashboard_page (df2 : DataFrame) : result KPIs :=
  let count := length (rows df2) in
  names ← getitem df2 "NAME";
  price ← column_mean df2 "price";
  rating ← column_mean df2 "review rate number";
  nights ← column_mean df2 "minimum nights";
  occupancy ← column_mean df2 "occupancy_rate";
  popularity ← column_mean df2 "popularity_score";
  country ← getitem df2 "country";
  Ok {| listing_count := count;
        unique_hosts := nunique names;
        average_price := price;
        average_rating := rating;
        avg_min_nights := nights;
        avg_occupancy := occupancy;
        avg_popularity := popularity;
        countries := nunique country |}.

(** Page 2: a bar chart is drawn only [if not counts.empty]. *)
Definition bars_if_any {V} (counts : list (cell * V)) : option (list (cell * V)) :=
  match counts with
  | [] => None
  | _ => Some counts
  end.

Definition listings_per (df2 : DataFrame) (name : string)
  : result (option (list (cell * nat))) :=
  counts ← column_counts df2 name; Ok (bars_if_any counts).

(** Page 3, "Price by Room Type" (lines 253-254): one price Series per
    value of [df2["room type"].unique()], missing value included, and the
    labels. *)
Definition price_by_room_type (df2 : DataFrame)
  : result (list (list cell) * list cell) :=
  c ← getitem df2 "room type";
  grouped ← mapM (λ x, c' ← getitem df2 "room type";
                       t ← boolean_index df2 (series_eq c' x);
                       getitem t "price")
                 (unique c);
  c'' ← getitem df2 "room type";
  Ok (grouped, unique c'').

(** Page 4, "Average Price by Availability Group" (lines 341-343): skipped
    when the column is absent. *)
Definition average_price_by_availability (df2 : DataFrame)
  : result (option (list (cell * cell))) :=
  if has_column "availability_group" df2
  then avg ← groupby_mean df2 "availability_group" "price"; Ok (Some avg)
  else Ok None.

(** [df.dropna(subset=names)] *)
Definition dropna_subset (names : list string) (t : DataFrame)
  : result DataFrame :=
  match List.find (λ c, negb (has_column c t)) names with
  | Some c => Raise (KeyError c)
  | None =>
      Ok (mkDataFrame (columns t)
            (List.filter (λ r, forallb (λ c, negb (isna (cell_at c r))) names)
                         (rows t)))
  end.

(** [px.scatter_geo(data, lat=.., lon=.., color=.., hover_name=..)]: the
    rows it plots; every named column must be one of the frame's. *)
Definition scatter_geo (data : DataFrame) (lat lon color hover_name : string)
  : result (list (gmap string cell)) :=
  if forallb (λ c, has_column c data) [lat; lon; color; hover_name]
  then Ok (rows data)
  else Raise ValueError.

(** Page 8 (lines 494-507): the plotted rows, or nothing when the notice
    is shown instead. *)
Definition geo_page (df2 : DataFrame)
  : result (option (list (gmap string cell))) :=
  if has_column "lat" df2 && has_column "long" df2
  then data ← dropna_subset ["lat"; "long"] df2;
       points ← scatter_geo data "lat" "long" "price" "NAME";
       Ok (Some points)
  else Ok None.

(** The columns page 1 reads, and the metrics of a table without rows. *)
Definition kpi_columns : list string :=
  ["NAME"; "price"; "review rate number"; "minimum nights";
   "occupancy_rate"; "popularity_score"; "country"].

Definition blank_kpis : KPIs :=
  {| listing_count := 0; unique_hosts := 0;
     average_price := NaN; average_rating := NaN; avg_min_nights := NaN;
     avg_occupancy := NaN; avg_popularity := NaN; countries := 0 |}.

(** The row has both coordinates. *)
Definition located (r : gmap string cell) : bool :=
  negb (isna (cell_at "lat" r)) && negb (isna (cell_at "long" r)).

End Pages.

(** ** Comparing selections *)

Module Selections.
Import Pandas Files Dashboard Contract.

(** Every value of [picks] is one of [picks']. *)
Definition picked_from (picks picks' : list cell) : Prop :=
  Forall (λ v, existsb (isin_eqb v) picks' = true) picks.

(** The range [inner] lies within [outer]. *)
Definition range_within (inner outer : Z * Z) : Prop :=
  (outer.1 ≤ inner.1)%Z ∧ (inner.2 ≤ outer.2)%Z.

(** [s] selects no more than [s']: fewer picks in each multiselect,
    narrower ranges, and the same choice wherever [s'] made one. *)
Definition narrower (s s' : FilterSpec) : Prop :=
  picked_from (ng s) (ng s') ∧
  picked_from (rt s) (rt s') ∧
  picked_from (co s) (co s') ∧
  range_within (price_range s) (price_range s') ∧
  range_within (year_range s) (year_range s') ∧
  range_within (min_nights s) (min_nights s') ∧
  (ag s' = Str "All" ∨ ag s = ag s') ∧
  (host_type s' = Str "All" ∨ host_type s = host_type s').

End Selections.

(** ** The ten most frequent neighbourhoods (lines 216-217) *)

Module TopCounts.
Import Pandas Files Dashboard Contract Pages.

Definition at_least_as_frequent (a b : cell * nat) : Prop := (b.2 ≤ a.2)%nat.

#[global] Instance at_least_as_frequent_dec (a b : cell * nat)
  : Decision (at_least_as_frequent a b) := decide (b.2 ≤ a.2)%nat.

(** [value_counts()] presents its entries by falling count; the order
    pandas gives to entries of equal count is left open: the sort is any
    function that rearranges the entries into such an order. *)
Definition sorts_by_count (sort : list (cell * nat) → list (cell * nat)) : Prop :=
  ∀ l, sort l ≡ₚ l ∧ StronglySorted at_least_as_frequent (sort l).

(** [df2["neighbourhood"].value_counts().head(10)], drawn if not empty. *)
Definition top_neighbourhoods (sort : list (cell * nat) → list (cell * nat))
    (df2 : DataFrame) : result (option (list (cell * nat))) :=
  counts ← column_counts df2 "neighbourhood";
  Ok (bars_if_any (take 10 (sort counts))).

End TopCounts.

(** ** More sample tables *)

Module MoreSamples.
Import Pandas Files Dashboard Contract Samples Sliders Pages.

(** A user who leaves the sliders at their default pair. *)
Definition slider_untouched : Slider := λ _ _ _ dflt, dflt.

(** A user who leaves multiselects at their default and selectboxes at
    their first option. *)
Definition at_defaults : Widgets :=
  {| multiselect := λ _ _ dflt, dflt;
     selectbox := λ _ options, List.hd (Str "All") options |}.

(** A user who narrows every slider to its lower bound. *)
Definition slider_at_low : Slider := λ _ lo _ _, (lo, lo).

(** A user who pulls every slider open to its bounds. *)
Definition slider_wide_open : Slider := λ _ lo hi _, (lo, hi).

(** The header of the CSV and no listing. *)
Definition no_listings : DataFrame := mkDataFrame listing_columns [].

(** A listing priced 99.5, the highest price of its table. *)
Definition loft_99_5 : gmap string cell :=
  listing (Str "Queens") (Str "Entire home") (Str "United States")
          (Num (199 # 2)%Q) (num 2012) (num 3) (Str "Low") (num 1).

Definition fractional_listings : DataFrame :=
  mkDataFrame listing_columns [home_50; room_50; loft_99_5].

(** What the untouched widgets select on [listings]. *)
Definition untouched_selection : FilterSpec :=
  {| ng := [Str "Bronx"; Str "Queens"];
     rt := [Str "Entire home"; Str "Private room"];
     co := [Str "United States"];
     ag := Str "All";
     host_type := Str "All";
     price_range := (50, 60);
     year_range := (2005, 2012);
     min_nights := (1, 3) |}.

(** What they select on [fractional_listings]. *)
Definition fractional_selection : FilterSpec :=
  {| ng := [Str "Bronx"; Str "Queens"];
     rt := [Str "Entire home"; Str "Private room"];
     co := [Str "United States"];
     ag := Str "All";
     host_type := Str "All";
     price_range := (50, 99);
     year_range := (2005, 2012);
     min_nights := (1, 3) |}.

(** A disk holding the archive and an older CSV beside it. *)
Definition older_export : DataFrame :=
  mkDataFrame ["NAME"; "price"]
    [ {[ "NAME" := Str "Loft"; "price" := num 45 ]} ].

Definition disk_with_both : gmap string file :=
  {[ csv_path := Plain (Csv older_export);
     zip_path := Zip [("notes.txt", Opaque); (csv_path, Csv export)] ]}.

(** Listings with every column the pages read. *)
Definition wide_columns : list string :=
  listing_columns ++
  ["NAME"; "review rate number"; "occupancy_rate"; "popularity_score";
   "lat"; "long"].

Definition described (name : string) (rating occupancy popularity lat long : cell)
    (r : gmap string cell) : gmap string cell :=
  <["NAME" := Str name]> (<["review rate number" := rating]>
  (<["occupancy_rate" := occupancy]> (<["popularity_score" := popularity]>
  (<["lat" := lat]> (<["long" := long]> r))))).

Definition loft : gmap string cell :=
  described "Loft" (num 4) (num 70) (num 12) (num 40) (num (-73)) home_50.
Definition studio : gmap string cell :=
  described "Studio" (num 5) (num 55) (num 9) NaN (num (-73)) room_50.
Definition villa : gmap string cell :=
  described "Villa" (num 3) (num 80) (num 20) (num 41) (num (-74)) home_60.

Definition wide_listings : DataFrame :=
  mkDataFrame wide_columns [loft; studio; villa].

(** Listings of three neighbourhoods. *)
Definition in_neighbourhood (n : string) : gmap string cell :=
  {[ "neighbourhood" := Str n ]}.

Definition neighbourhood_listings : DataFrame :=
  mkDataFrame ["neighbourhood"]
    [in_neighbourhood "Harlem"; in_neighbourhood "Astoria";
     in_neighbourhood "Harlem"; in_neighbourhood "Soho";
     in_neighbourhood "Harlem"; in_neighbourhood "Astoria"].

(** The listings as exported with an index column, on disk. *)
Definition listings_export : DataFrame :=
  mkDataFrame ("Unnamed: 0" :: listing_columns) (rows listings).

Definition disk_with_listings : gmap string file :=
  {[ csv_path := Plain (Csv listings_export) ]}.

End MoreSamples.

(** * Properties *)

Import Pandas Files Dashboard Contract.

(** ** Masks are computed row by row *)

Section Masks.

Lemma bind_Ok {A B} (m : result A) (f : A → result B) b :
  (m ≫= f) = Ok b ↔ ∃ a, m = Ok a ∧ f a = Ok b.
Proof.
  destruct m as [a|e]; simpl; split.
  - intros H. exists a. done.
  - intros (a' & [= <-] & H). done.
  - done.
  - intros (a' & [=] & _).
Qed.

Lemma select_map {A} (f : A → bool) (xs : list A) :
  select (map f xs) xs = List.filter f xs.
Proof.
  induction xs as [|x xs IH]; simpl; [done|].
  rewrite IH. done.
Qed.

Lemma mask_and_map {A} (f g : A → bool) (xs : list A) :
  mask_and (map f xs) (map g xs) = map (λ x, f x && g x) xs.
Proof.
  unfold mask_and. induction xs as [|x xs IH]; simpl; [done|].
  by rewrite IH.
Qed.

Lemma isin_map (name : string) (values : list cell) (rs : list (gmap string cell)) :
  isin (map (cell_at name) rs) values
  = map (λ r, existsb (isin_eqb (cell_at name r)) values) rs.
Proof. unfold isin. by rewrite map_map. Qed.

Lemma series_ge_map (s : list cell) (k : Z) :
  Forall (λ v, orderable v = true) s →
  series_ge s k = Ok (map (geb k) s).
Proof.
  unfold series_ge. induction 1 as [|v s Hv _ IH]; simpl; [done|].
  rewrite IH. by destruct v.
Qed.

Lemma series_le_map (s : list cell) (k : Z) :
  Forall (λ v, orderable v = true) s →
  series_le s k = Ok (map (leb k) s).
Proof.
  unfold series_le. induction 1 as [|v s Hv _ IH]; simpl; [done|].
  rewrite IH. by destruct v.
Qed.

Lemma series_cmp_orderable cmp (s : list cell) (k : Z) bs :
  (∀ v, orderable v = false → cmp v k = Raise TypeError) →
  series_cmp cmp s k = Ok bs → Forall (λ v, orderable v = true) s.
Proof.
  intros Hcmp. revert bs.
  induction s as [|v s IH]; intros bs; simpl; [by constructor|].
  intros (b & Hb & (bs' & Hbs & _)%bind_Ok)%bind_Ok.
  constructor; [|by eapply IH].
  destruct (orderable v) eqn:E; [done|].
  rewrite (Hcmp v E) in Hb. done.
Qed.

Lemma getitem_Ok (t : DataFrame) (name : string) :
  has_column name t = true →
  getitem t name = Ok (map (cell_at name) (rows t)).
Proof. unfold getitem. by intros ->. Qed.

Lemma getitem_Ok_inv (t : DataFrame) (name : string) c :
  getitem t name = Ok c →
  has_column name t = true ∧ c = map (cell_at name) (rows t).
Proof. unfold getitem. destruct (has_column name t); [|done]. by intros [= <-]. Qed.

End Masks.

(** ** The filter statements as list filters *)

Section Stages.

Implicit Types (s : FilterSpec) (t df : DataFrame) (r : gmap string cell).

Lemma boolean_index_map t (f : gmap string cell → bool) :
  boolean_index t (map f (rows t))
  = Ok (mkDataFrame (columns t) (List.filter f (rows t))).
Proof.
  unfold boolean_index. rewrite length_map, bool_decide_true by done.
  by rewrite select_map.
Qed.

Lemma schema_has_column df c :
  schema_ok df → c ∈ required_columns → has_column c df = true.
Proof. intros [H _] Hc. by eapply Forall_forall in H. Qed.

Lemma schema_orderable df c :
  schema_ok df → c ∈ numeric_columns →
  Forall (λ v, orderable v = true) (map (cell_at c) (rows df)).
Proof.
  intros [_ H] Hc. eapply Forall_forall in H; [|done].
  by apply Forall_fmap.
Qed.

Lemma main_mask_rows s t :
  schema_ok t → main_mask s t = Ok (map (main_passes s) (rows t)).
Proof.
  intros Hs. unfold main_mask.
  rewrite !getitem_Ok by (apply schema_has_column; [done|set_solver]).
  simpl.
  rewrite !series_ge_map, !series_le_map
    by (apply schema_orderable; [done|set_solver]).
  simpl. rewrite !isin_map.
  rewrite !map_map.
  by rewrite !mask_and_map.
Qed.

Lemma filter_main_rows s t :
  schema_ok t →
  filter_by (main_mask s) t
  = Ok (mkDataFrame (columns t) (List.filter (main_passes s) (rows t))).
Proof.
  intros Hs. unfold filter_by. rewrite main_mask_rows by done. simpl.
  apply boolean_index_map.
Qed.

Lemma filter_true {A} (f : A → bool) (xs : list A) :
  (∀ x, f x = true) → List.filter f xs = xs.
Proof.
  intros Hf. induction xs as [|x xs IH]; simpl; [done|].
  by rewrite Hf, IH.
Qed.

Lemma filter_andb {A} (f g : A → bool) (xs : list A) :
  List.filter g (List.filter f xs) = List.filter (λ x, f x && g x) xs.
Proof.
  induction xs as [|x xs IH]; simpl; [done|].
  destruct (f x); simpl; [|done].
  destruct (g x); by rewrite IH.
Qed.

Lemma frame_eta t : mkDataFrame (columns t) (rows t) = t.
Proof. by destruct t. Qed.

Lemma filter_by_column_eq t name w :
  has_column name t = true →
  boolean_index t (series_eq (map (cell_at name) (rows t)) w)
  = Ok (mkDataFrame (columns t)
          (List.filter (λ r, eq_scalar (cell_at name r) w) (rows t))).
Proof.
  intros _. unfold series_eq. rewrite map_map.
  apply (boolean_index_map t (λ r, eq_scalar (cell_at name r) w)).
Qed.

Lemma availability_stage_rows s t :
  (not_All (ag s) = true → has_column "availability_group" t = true) →
  availability_stage s t
  = Ok (mkDataFrame (columns t) (List.filter (availability_passes s) (rows t))).
Proof.
  intros Hc. unfold availability_stage, availability_passes.
  destruct (not_All (ag s)).
  - unfold filter_by, ag_mask. rewrite getitem_Ok by auto. simpl.
    by apply filter_by_column_eq; auto.
  - by rewrite filter_true, frame_eta.
Qed.

Lemma host_stage_rows s t :
  (not_All (host_type s) = true →
     has_column "host_is_big" t = true ∧ ∃ h, host_type s = Str h) →
  host_stage s t
  = Ok (mkDataFrame (columns t) (List.filter (host_passes s) (rows t))).
Proof.
  intros Hc. unfold host_stage, host_passes.
  destruct (not_All (host_type s)).
  - destruct Hc as [Hc [h ->]]; [done|]. simpl.
    unfold filter_by, host_mask. rewrite getitem_Ok by done. simpl.
    by apply filter_by_column_eq.
  - by rewrite filter_true, frame_eta.
Qed.

(** On a table with the filtered columns, the three statements together
    keep the rows that pass, in order, under the same columns. *)
Lemma pipeline_rows s df :
  schema_ok df → selection_ok df s →
  pipeline s df
  = Ok (mkDataFrame (columns df) (List.filter (passes s) (rows df))).
Proof.
  intros Hs [Hag Hhost]. unfold pipeline.
  rewrite filter_main_rows by done. simpl.
  rewrite availability_stage_rows by done. simpl.
  rewrite host_stage_rows by done. simpl.
  rewrite !filter_andb. do 2 f_equal.
  apply List.filter_ext. intros r. unfold passes.
  by rewrite andb_assoc.
Qed.

End Stages.

(** ** The statements on the store *)

Section Store.

Implicit Types (s : FilterSpec) (t df : DataFrame) (σ : store).

Lemma preserves_refl σ : preserves σ σ.
Proof. by split. Qed.

Lemma preserves_trans σ1 σ2 σ3 :
  preserves σ1 σ2 → preserves σ2 σ3 → preserves σ1 σ3.
Proof.
  intros (Hh1 & Hg1 & Hs1) (Hh2 & Hg2 & Hs2). split; [|split].
  - by etrans.
  - intros x Hx. by rewrite Hg2, Hg1.
  - by rewrite Hs2.
Qed.

Lemma bound_alloc σ t x :
  bound (mkStore (heap σ ++ [t]) (<[x := length (heap σ)]> (globals σ))
                 (session_state σ)) x t.
Proof.
  exists (length (heap σ)). simpl. split.
  - apply lookup_insert_eq.
  - by rewrite lookup_app_r, Nat.sub_diag by lia.
Qed.

Lemma preserves_alloc σ t :
  preserves σ (mkStore (heap σ ++ [t])
                 (<["filtered" := length (heap σ)]> (globals σ))
                 (session_state σ)).
Proof.
  split; [|split]; simpl.
  - by apply prefix_app_r.
  - intros x Hx. by rewrite lookup_insert_ne.
  - done.
Qed.

Lemma implements_index_filtered mask :
  implements (index_filtered mask) (filter_by mask).
Proof.
  intros σ t (l & Hl & Ht).
  unfold index_filtered, mbind, prog_bind, load_name, deref, lift.
  rewrite Hl, Ht.
  destruct (filter_by mask t) as [t'|e]; [|done].
  eexists. split; [reflexivity|]. split.
  - apply (bound_alloc σ t' "filtered").
  - apply (preserves_alloc σ t').
Qed.

Lemma implements_skip : implements skip Ok.
Proof.
  intros σ t Hb. exists σ. split; [done|]. split; [done|].
  apply preserves_refl.
Qed.

Lemma seq_run {A} (p : prog unit) (q : prog A) σ :
  (p;; q) σ
  = match p σ with Ok (_, σ') => q σ' | Raise e => Raise e end.
Proof. reflexivity. Qed.

Lemma implements_availability s :
  implements (filter_availability s) (availability_stage s).
Proof.
  unfold filter_availability, availability_stage.
  destruct (not_All (ag s)).
  - apply implements_index_filtered.
  - apply implements_skip.
Qed.

Lemma implements_host_type s :
  implements (filter_host_type s) (host_stage s).
Proof.
  unfold filter_host_type, host_stage.
  destruct (not_All (host_type s)); [|apply implements_skip].
  destruct (Small_in (host_type s)) as [[]|e]; simpl.
  - apply implements_index_filtered.
  - apply implements_index_filtered.
  - intros σ t Hb. done.
Qed.

Lemma copy_df_run σ l d :
  globals σ !! "df" = Some l → heap σ !! l = Some d →
  ∃ σ', copy_df σ = Ok ((), σ') ∧ bound σ' "filtered" d ∧ preserves σ σ'.
Proof.
  intros Hl Hd. unfold copy_df, mbind, prog_bind, load_name, deref.
  rewrite Hl, Hd. eexists. split; [reflexivity|]. split.
  - apply (bound_alloc σ d "filtered").
  - apply (preserves_alloc σ d).
Qed.

Lemma publish_run σ t :
  bound σ "filtered" t →
  ∃ σ', (l ← load_name "filtered"; set_session "df" l) σ = Ok ((), σ') ∧
        session_df σ' = Ok t ∧ heap σ' = heap σ ∧ globals σ' = globals σ.
Proof.
  intros (l & Hl & Ht). unfold mbind, prog_bind, load_name.
  rewrite Hl. eexists. split; [reflexivity|].
  unfold session_df. simpl. rewrite lookup_insert_eq, Ht. done.
Qed.

(** Running lines 89-112 in a store where [df] is bound: the session gets
    what [pipeline] computes, every frame already on the heap is left as it
    was, and [df] still names the same one. *)
Lemma apply_filters_run s σ l d :
  globals σ !! "df" = Some l → heap σ !! l = Some d →
  match pipeline s d with
  | Ok out => ∃ σ', apply_filters s σ = Ok ((), σ') ∧
                    session_df σ' = Ok out ∧
                    heap σ `prefix_of` heap σ' ∧
                    globals σ' !! "df" = Some l
  | Raise e => apply_filters s σ = Raise e
  end.
Proof.
  intros Hl Hd. unfold apply_filters, pipeline.
  destruct (copy_df_run σ l d Hl Hd) as (σ0 & Hrun0 & Hb0 & Hp0).
  rewrite seq_run, Hrun0.
  pose proof (implements_index_filtered (main_mask s) σ0 d Hb0) as H1.
  rewrite seq_run.
  destruct (filter_by (main_mask s) d) as [t1|e]; simpl; [|by rewrite H1].
  destruct H1 as (σ1 & -> & Hb1 & Hp1).
  pose proof (implements_availability s σ1 t1 Hb1) as H2.
  rewrite seq_run.
  destruct (availability_stage s t1) as [t2|e]; simpl; [|by rewrite H2].
  destruct H2 as (σ2 & -> & Hb2 & Hp2).
  pose proof (implements_host_type s σ2 t2 Hb2) as H3.
  rewrite seq_run.
  destruct (host_stage s t2) as [t3|e]; simpl; [|by rewrite H3].
  destruct H3 as (σ3 & -> & Hb3 & Hp3).
  destruct (publish_run σ3 t3 Hb3) as (σ4 & -> & Hs4 & Hh4 & Hg4).
  exists σ4. split; [done|]. split; [done|].
  assert (preserves σ σ3) as (Hpre & Hglob & _).
  { eapply preserves_trans; [done|]. eapply preserves_trans; [done|].
    by eapply preserves_trans. }
  split.
  - by rewrite Hh4.
  - rewrite Hg4, Hglob; done.
Qed.

(** The pipeline read off the script is [pipeline]. *)
Lemma filtered_of_pipeline df s : filtered_of df s = pipeline s df.
Proof.
  unfold filtered_of.
  pose proof (apply_filters_run s (loaded df) 0%nat df eq_refl eq_refl) as H.
  destruct (pipeline s df) as [out|e].
  - by destruct H as (σ' & -> & -> & _).
  - by rewrite H.
Qed.

End Store.

(** ** The row test decides the contract *)

Section Reflection.

Implicit Types (s : FilterSpec) (r : gmap string cell) (v w : cell).

Lemma isin_eqb_same v w : isin_eqb v w = true ↔ same_value v w.
Proof.
  destruct v as [|p|a], w as [|q|b]; simpl; try done.
  - apply Qeq_bool_iff.
  - apply bool_decide_eq_true.
Qed.

Lemma eq_scalar_equal v w : eq_scalar v w = true ↔ equal_to v w.
Proof.
  destruct v as [|p|a], w as [|q|b]; simpl; try done.
  - apply Qeq_bool_iff.
  - apply bool_decide_eq_true.
Qed.

Lemma not_All_true v : not_All v = true ↔ v ≠ Str "All".
Proof.
  unfold not_All. rewrite negb_true_iff.
  destruct v as [|p|a]; simpl; try done.
  rewrite bool_decide_eq_false. split; intros H; congruence.
Qed.

Lemma not_All_false v : not_All v = false ↔ v = Str "All".
Proof.
  unfold not_All. rewrite negb_false_iff.
  destruct v as [|p|a]; simpl; try done.
  rewrite bool_decide_eq_true. split; intros H; congruence.
Qed.

Lemma member_in_set name permitted r :
  member name permitted r = true ↔ in_set (cell_at name r) permitted.
Proof.
  unfold member, in_set. rewrite existsb_exists.
  split; intros (w & Hw & Hv); exists w.
  - split; [by apply list_elem_of_In|by apply isin_eqb_same].
  - split; [by apply list_elem_of_In|by apply isin_eqb_same].
Qed.

Lemma between_in_range lo hi v :
  geb lo v && leb hi v = true ↔ in_range v (lo, hi).
Proof.
  unfold in_range. rewrite andb_true_iff. destruct v as [|q|a]; simpl.
  - split; [by intros [? ?]|by intros (q & ? & _)].
  - rewrite !Qle_bool_iff. split.
    + intros [? ?]. by exists q.
    + by intros (q' & [= <-] & ? & ?).
  - split; [by intros [? ?]|by intros (q & ? & _)].
Qed.

Lemma main_passes_iff s r :
  main_passes s r = true ↔
  sat_categories s r ∧ sat_price s r ∧ sat_year s r ∧ sat_nights s r.
Proof.
  unfold main_passes, sat_categories, sat_price, sat_year, sat_nights.
  destruct (price_range s) as [plo phi], (year_range s) as [ylo yhi],
    (min_nights s) as [nlo nhi]. simpl.
  rewrite <- !member_in_set, <- !between_in_range.
  rewrite !andb_true_iff. tauto.
Qed.

Lemma availability_passes_iff s r :
  availability_passes s r = true ↔ sat_availability s r.
Proof.
  unfold availability_passes, sat_availability.
  destruct (not_All (ag s)) eqn:E.
  - apply not_All_true in E. rewrite eq_scalar_equal. tauto.
  - apply not_All_false in E. split; [done|]. done.
Qed.

Lemma host_passes_iff s r :
  host_passes s r = true ↔ sat_host s r.
Proof.
  unfold host_passes, sat_host.
  destruct (not_All (host_type s)) eqn:E.
  - apply not_All_true in E.
    destruct (Small_in (host_type s)) as [small|e].
    + rewrite eq_scalar_equal. split.
      * intros H _. by exists small.
      * intros H. by destruct (H E) as (small' & [= <-] & ?).
    + split; [done|]. intros H. by destruct (H E) as (? & ? & _).
  - apply not_All_false in E. split; done.
Qed.

(** On the three choices of the selectbox the script's test on the text of
    the choice is the host-size constraint. *)
Lemma host_passes_constraint s r :
  host_type s ∈ host_type_options →
  host_passes s r = true ↔ host_size_constraint (host_type s) r.
Proof.
  unfold host_type_options, host_passes, host_size_constraint.
  rewrite !elem_of_cons, elem_of_nil.
  intros [->|[->|[->|[]]]]; simpl; rewrite ?eq_scalar_equal.
  - split; [by left|done].
  - split.
    + intros H. right. left. done.
    + intros [H|[[_ H]|[H _]]]; [done|done|done].
  - split.
    + intros H. right. right. done.
    + intros [H|[[H _]|[_ H]]]; [done|done|done].
Qed.

Lemma passes_meets_every_constraint s r :
  host_type s ∈ host_type_options →
  passes s r = true ↔ meets_every_constraint s r.
Proof.
  intros Hhost. unfold passes, meets_every_constraint.
  rewrite !andb_true_iff, main_passes_iff, availability_passes_iff,
    (host_passes_constraint _ _ Hhost).
  tauto.
Qed.

Lemma passes_satisfies s r : passes s r = true ↔ satisfies s r.
Proof.
  unfold passes, satisfies.
  rewrite !andb_true_iff, main_passes_iff, availability_passes_iff,
    host_passes_iff.
  tauto.
Qed.

End Reflection.

(** ** The filter pipeline *)

Section Pipeline.

Implicit Types (s : FilterSpec) (t df out : DataFrame) (r : gmap string cell).

Lemma filtered_of_rows df s :
  schema_ok df → selection_ok df s →
  filtered_of df s
  = Ok (mkDataFrame (columns df) (List.filter (passes s) (rows df))).
Proof. intros. rewrite filtered_of_pipeline. by apply pipeline_rows. Qed.

Lemma elem_of_filter_passes s r (rs : list (gmap string cell)) :
  r ∈ List.filter (passes s) rs ↔ r ∈ rs ∧ satisfies s r.
Proof.
  rewrite !list_elem_of_In, filter_In, passes_satisfies. done.
Qed.

Lemma filter_length_le {A} (f : A → bool) (xs : list A) :
  (length (List.filter f xs) ≤ length xs)%nat.
Proof.
  induction xs as [|x xs IH]; simpl; [done|].
  destruct (f x); simpl; lia.
Qed.

Lemma filter_sublist {A} (f : A → bool) (xs : list A) :
  List.filter f xs `sublist_of` xs.
Proof.
  induction xs as [|x xs IH]; simpl; [done|].
  destruct (f x); by constructor.
Qed.

Lemma filter_none {A} (f : A → bool) (xs : list A) :
  (∀ x, f x = false) → List.filter f xs = [].
Proof.
  intros Hf. induction xs as [|x xs IH]; simpl; [done|].
  by rewrite Hf.
Qed.

Lemma filter_idem {A} (f : A → bool) (xs : list A) :
  List.filter f (List.filter f xs) = List.filter f xs.
Proof.
  rewrite filter_andb. apply List.filter_ext. intros x. by destruct (f x).
Qed.

(** Filtering rows keeps the schema. *)
Lemma schema_ok_filter df (f : gmap string cell → bool) :
  schema_ok df →
  schema_ok (mkDataFrame (columns df) (List.filter f (rows df))).
Proof.
  intros [Hc Hn]. split; [done|]. simpl.
  eapply Forall_impl; [exact Hn|]. intros c Hr. simpl in Hr.
  rewrite Forall_forall in Hr. apply Forall_forall. intros r Hin.
  apply Hr. apply list_elem_of_In, filter_In in Hin as [Hin _].
  by apply list_elem_of_In.
Qed.

Lemma getitem_Ok_has_column t name (c : list cell) :
  getitem t name = Ok c → has_column name t = true.
Proof. by intros [? _]%getitem_Ok_inv. Qed.

Lemma series_ge_Ok_orderable t name (c : list cell) (k : Z) bs :
  getitem t name = Ok c → series_ge c k = Ok bs →
  Forall (λ r, orderable (cell_at name r) = true) (rows t).
Proof.
  intros [_ ->]%getitem_Ok_inv Hcmp.
  apply series_cmp_orderable in Hcmp; [by apply Forall_fmap in Hcmp|].
  by intros [] ?.
Qed.

Lemma boolean_index_columns t m out :
  boolean_index t m = Ok out → columns out = columns t.
Proof.
  unfold boolean_index. case_bool_decide; [|done]. by intros [= <-].
Qed.

Lemma filter_by_columns mask t out :
  filter_by mask t = Ok out → columns out = columns t.
Proof.
  intros (m & _ & Hidx)%bind_Ok. by eapply boolean_index_columns.
Qed.

Lemma has_column_columns name t t' :
  columns t' = columns t → has_column name t' = has_column name t.
Proof. unfold has_column. by intros ->. Qed.

Ltac invert_binds H :=
  repeat (cbv zeta in H; apply bind_Ok in H as (? & ? & H)).

Lemma main_mask_Ok_schema s t m : main_mask s t = Ok m → schema_ok t.
Proof.
  unfold main_mask. intros H. invert_binds H.
  split; repeat constructor;
    eauto using getitem_Ok_has_column, series_ge_Ok_orderable.
Qed.

(** The side conditions are exactly the tables and selections on which
    the filter statements do not raise. *)
Lemma filtered_of_succeeds_iff df s :
  succeeds (filtered_of df s) ↔ schema_ok df ∧ selection_ok df s.
Proof.
  split.
  - intros [out Hout]. rewrite filtered_of_pipeline in Hout.
    unfold pipeline in Hout.
    apply bind_Ok in Hout as (t1 & H1 & Hout).
    apply bind_Ok in Hout as (t2 & H2 & H3).
    pose proof (filter_by_columns _ _ _ H1) as Hc1.
    apply bind_Ok in H1 as (m & Hm%main_mask_Ok_schema & _).
    split; [done|]. split.
    + intros Hpick. unfold availability_stage in H2. rewrite Hpick in H2.
      apply bind_Ok in H2 as (m2 & Hm2 & _).
      apply bind_Ok in Hm2 as (c & Hc%getitem_Ok_has_column & _).
      by rewrite (has_column_columns _ _ _ Hc1) in Hc.
    + intros Hpick. unfold host_stage in H3. rewrite Hpick in H3.
      apply bind_Ok in H3 as (small & Hsmall & H3).
      assert (columns t2 = columns df) as Hc2.
      { unfold availability_stage in H2.
        destruct (not_All (ag s)).
        - by rewrite (filter_by_columns _ _ _ H2).
        - by injection H2 as <-. }
      apply bind_Ok in H3 as (m3 & Hm3 & _).
      apply bind_Ok in Hm3 as (c & Hc%getitem_Ok_has_column & _).
      rewrite (has_column_columns _ _ _ Hc2) in Hc. split; [done|].
      destruct (host_type s); try done. by eexists.
  - intros [Hs Hsel]. eexists. by apply filtered_of_rows.
Qed.

End Pipeline.

(** ** Claims about the filter pipeline *)

Import Samples.

Example listings_schema : schema_ok listings.
Proof. schema_by_computation. Qed.

Example homes_at_50_result :
  filtered_of listings homes_at_50
  = Ok (mkDataFrame listing_columns [home_50]).
Proof. vm_compute. reflexivity. Qed.

(** Choosing the small hosts keeps the rows whose flag is 0, choosing the
    big hosts those whose flag is 1. *)
Example small_hosts_result :
  filtered_of listings small_hosts
  = Ok (mkDataFrame listing_columns [home_50]).
Proof. vm_compute. reflexivity. Qed.

Example small_hosts_flags :
  map (cell_at "host_is_big") (rows listings)
  = [num 0; num 1; num 1; num 1; num 1].
Proof. reflexivity. Qed.

Example low_big_result :
  filtered_of listings low_big
  = Ok (mkDataFrame listing_columns [home_60]).
Proof. vm_compute. reflexivity. Qed.

(** C1: on every source table and every filter specification the sidebar
    can produce (the host-size choice is one of the three the selectbox
    offers) the pipeline returns exactly the rows that satisfy the
    conjunction of all constraints: membership in each of the three
    permitted sets, the three inclusive ranges, the availability bucket
    unless the choice is the sentinel, and the host-size flag, 0 for the
    small hosts and 1 for the big hosts, unless the choice is the sentinel.
    The rows come in their order and with their multiplicity. *)
Theorem filter_returns_satisfying_rows (df : DataFrame) (s : FilterSpec) :
  schema_ok df → selection_ok df s → host_type s ∈ host_type_options →
  ∃ out, filtered_of df s = Ok out ∧
    rows out = List.filter (passes s) (rows df) ∧
    (∀ r, passes s r = true ↔ meets_every_constraint s r) ∧
    (∀ r, r ∈ rows out ↔ r ∈ rows df ∧ meets_every_constraint s r).
Proof.
  intros Hs Hsel Hhost. eexists. split; [by apply filtered_of_rows|].
  simpl. split; [done|]. split.
  - intros r. by apply passes_meets_every_constraint.
  - intros r.
    rewrite !list_elem_of_In, filter_In, <- list_elem_of_In.
    by rewrite passes_meets_every_constraint.
Qed.

Lemma filter_returns_satisfying_rows_witness :
  ∃ out, filtered_of listings small_hosts = Ok out ∧
    rows out = List.filter (passes small_hosts) (rows listings) ∧
    (∀ r, passes small_hosts r = true ↔ meets_every_constraint small_hosts r) ∧
    (∀ r, r ∈ rows out ↔ r ∈ rows listings ∧ meets_every_constraint small_hosts r).
Proof.
  apply (filter_returns_satisfying_rows listings small_hosts).
  - schema_by_computation.
  - selection_by_computation.
  - unfold host_type_options. simpl. apply elem_of_cons. right.
    apply elem_of_cons. by left.
Defined.

(** C3: an empty selection in any of the three multiselects yields a table
    with no rows, whatever the other selections are. *)
Theorem empty_multiselect_yields_no_rows (df : DataFrame) (s : FilterSpec) :
  schema_ok df → selection_ok df s →
  ng s = [] ∨ rt s = [] ∨ co s = [] →
  ∃ out, filtered_of df s = Ok out ∧ rows out = [].
Proof.
  intros Hs Hsel Hempty. eexists. split; [by apply filtered_of_rows|].
  simpl. apply filter_none. intros r.
  unfold passes, main_passes, member.
  destruct Hempty as [-> | [-> | ->]]; simpl;
    rewrite ?andb_false_r; reflexivity.
Qed.

Lemma empty_multiselect_yields_no_rows_witness :
  ∃ out, filtered_of listings no_room_type = Ok out ∧ rows out = [].
Proof.
  apply (empty_multiselect_yields_no_rows listings no_room_type).
  - schema_by_computation.
  - selection_by_computation.
  - right. left. reflexivity.
Defined.

(** C4: the filtered table never has more rows than the source table. *)
Theorem filtered_row_count_le (df : DataFrame) (s : FilterSpec) :
  schema_ok df → selection_ok df s →
  ∃ out, filtered_of df s = Ok out ∧
    (length (rows out) ≤ length (rows df))%nat.
Proof.
  intros Hs Hsel. eexists. split; [by apply filtered_of_rows|].
  simpl. apply filter_length_le.
Qed.

Lemma filtered_row_count_le_witness :
  ∃ out, filtered_of listings homes_at_50 = Ok out ∧
    (length (rows out) ≤ length (rows listings))%nat.
Proof.
  apply (filtered_row_count_le listings homes_at_50).
  - schema_by_computation.
  - selection_by_computation.
Defined.

(** C5: filtering is idempotent: the pipeline applied, with the same
    specification, to its own result returns that result. *)
Theorem filtering_idempotent (df : DataFrame) (s : FilterSpec) :
  schema_ok df → selection_ok df s →
  ∃ out, filtered_of df s = Ok out ∧ filtered_of out s = Ok out.
Proof.
  intros Hs Hsel. eexists. split; [by apply filtered_of_rows|].
  rewrite filtered_of_rows.
  - simpl. by rewrite filter_idem.
  - by apply schema_ok_filter.
  - exact Hsel.
Qed.

Lemma filtering_idempotent_witness :
  ∃ out, filtered_of listings low_big = Ok out ∧
         filtered_of out low_big = Ok out.
Proof.
  apply (filtering_idempotent listings low_big).
  - schema_by_computation.
  - selection_by_computation.
Defined.

Lemma on_bound_in_range (v : cell) (range : Z * Z) :
  (range.1 ≤ range.2)%Z → on_bound v range → in_range v range.
Proof.
  intros Hle (q & -> & Hq). exists q. split; [done|].
  rewrite Zle_Qle in Hle.
  destruct Hq as [Hq | Hq]; rewrite Hq; split;
    first [apply Qle_refl | exact Hle].
Qed.

(** C2: the three range filters are inclusive on both bounds.  A row whose
    price (construction year, minimum nights) equals the selected minimum
    or maximum, and which meets the other constraints, is retained; and no
    row failing a constraint is returned.  The ranges are ordered pairs, as
    a range slider returns them. *)
Theorem range_bounds_inclusive (df : DataFrame) (s : FilterSpec) :
  schema_ok df → selection_ok df s →
  ((price_range s).1 ≤ (price_range s).2)%Z →
  ((year_range s).1 ≤ (year_range s).2)%Z →
  ((min_nights s).1 ≤ (min_nights s).2)%Z →
  ∃ out, filtered_of df s = Ok out ∧
    (∀ r, r ∈ rows df →
       on_bound (cell_at "price" r) (price_range s) →
       sat_categories s r → sat_year s r → sat_nights s r →
       sat_availability s r → sat_host s r →
       r ∈ rows out) ∧
    (∀ r, r ∈ rows df →
       on_bound (cell_at "Construction year" r) (year_range s) →
       sat_categories s r → sat_price s r → sat_nights s r →
       sat_availability s r → sat_host s r →
       r ∈ rows out) ∧
    (∀ r, r ∈ rows df →
       on_bound (cell_at "minimum nights" r) (min_nights s) →
       sat_categories s r → sat_price s r → sat_year s r →
       sat_availability s r → sat_host s r →
       r ∈ rows out) ∧
    (∀ r, r ∈ rows out → r ∈ rows df ∧ satisfies s r).
Proof.
  intros Hs Hsel Hp Hy Hn. eexists. split; [by apply filtered_of_rows|].
  simpl. split_and!.
  - intros r Hr Hb ? ? ? ? ?. apply elem_of_filter_passes.
    split; [done|]. unfold satisfies. split_and!; try done.
    by apply on_bound_in_range.
  - intros r Hr Hb ? ? ? ? ?. apply elem_of_filter_passes.
    split; [done|]. unfold satisfies. split_and!; try done.
    by apply on_bound_in_range.
  - intros r Hr Hb ? ? ? ? ?. apply elem_of_filter_passes.
    split; [done|]. unfold satisfies. split_and!; try done.
    by apply on_bound_in_range.
  - intros r Hr. by apply elem_of_filter_passes in Hr.
Qed.

(** The example of the specification: rows with room type "Entire home"
    or "Private room" at price 50, filtered to price range (50, 50) and
    room type {"Entire home"}. *)
Lemma range_bounds_inclusive_witness :
  ∃ out, filtered_of listings homes_at_50 = Ok out ∧
    (∀ r, r ∈ rows listings →
       on_bound (cell_at "price" r) (price_range homes_at_50) →
       sat_categories homes_at_50 r → sat_year homes_at_50 r →
       sat_nights homes_at_50 r →
       sat_availability homes_at_50 r → sat_host homes_at_50 r →
       r ∈ rows out) ∧
    (∀ r, r ∈ rows listings →
       on_bound (cell_at "Construction year" r) (year_range homes_at_50) →
       sat_categories homes_at_50 r → sat_price homes_at_50 r →
       sat_nights homes_at_50 r →
       sat_availability homes_at_50 r → sat_host homes_at_50 r →
       r ∈ rows out) ∧
    (∀ r, r ∈ rows listings →
       on_bound (cell_at "minimum nights" r) (min_nights homes_at_50) →
       sat_categories homes_at_50 r → sat_price homes_at_50 r →
       sat_year homes_at_50 r →
       sat_availability homes_at_50 r → sat_host homes_at_50 r →
       r ∈ rows out) ∧
    (∀ r, r ∈ rows out → r ∈ rows listings ∧ satisfies homes_at_50 r).
Proof.
  apply (range_bounds_inclusive listings homes_at_50).
  - schema_by_computation.
  - selection_by_computation.
  - simpl. lia.
  - simpl. lia.
  - simpl. lia.
Defined.

(** C6: filtering is pure.  Running the filter statements in any store
    where [df] names the source table leaves every frame already on the
    heap, the source table among them, as it was, and [df] still names it;
    the table handed to the pages has the source's columns and its rows are
    rows of the source in the same relative order. *)
Theorem filtering_is_pure (σ : store) (l : nat) (df : DataFrame) (s : FilterSpec) :
  globals σ !! "df" = Some l → heap σ !! l = Some df →
  schema_ok df → selection_ok df s →
  ∃ σ' out, apply_filters s σ = Ok ((), σ') ∧ session_df σ' = Ok out ∧
    globals σ' !! "df" = Some l ∧ heap σ' !! l = Some df ∧
    (∀ l' t, heap σ !! l' = Some t → heap σ' !! l' = Some t) ∧
    columns out = columns df ∧
    rows out `sublist_of` rows df.
Proof.
  intros Hl Hd Hs Hsel.
  pose proof (apply_filters_run s σ l df Hl Hd) as Hrun.
  rewrite pipeline_rows in Hrun by done.
  destruct Hrun as (σ' & Hrun & Hout & [k Hheap] & Hdf).
  exists σ'. eexists. split; [exact Hrun|]. split; [exact Hout|].
  assert (∀ l' t, heap σ !! l' = Some t → heap σ' !! l' = Some t) as Hkeep.
  { intros l' t Ht. rewrite Hheap. by apply lookup_app_l_Some. }
  split_and!; simpl; auto.
  apply filter_sublist.
Qed.

Lemma filtering_is_pure_witness :
  ∃ σ' out, apply_filters low_big (loaded listings) = Ok ((), σ') ∧
    session_df σ' = Ok out ∧
    globals σ' !! "df" = Some 0%nat ∧ heap σ' !! 0%nat = Some listings ∧
    (∀ l' t, heap (loaded listings) !! l' = Some t → heap σ' !! l' = Some t) ∧
    columns out = columns listings ∧
    rows out `sublist_of` rows listings.
Proof.
  apply (filtering_is_pure (loaded listings) 0%nat listings low_big).
  - reflexivity.
  - reflexivity.
  - schema_by_computation.
  - selection_by_computation.
Defined.

(** ** The sidebar *)

Section Sidebar.

Implicit Types (w : Widgets) (s : FilterSpec) (df : DataFrame) (v : cell).

Lemma unique_subset v (l : list cell) : v ∈ unique l → v ∈ l.
Proof.
  induction l as [|x l IH]; simpl; [done|].
  intros [-> | Hv]%elem_of_cons; [by left|].
  right. apply IH.
  apply list_elem_of_In, filter_In in Hv as [Hv _].
  by apply list_elem_of_In.
Qed.

Lemma dropna_elem v (l : list cell) : v ∈ dropna l → v ∈ l ∧ v ≠ NaN.
Proof.
  unfold dropna. intros [Hv Hna]%list_elem_of_In%filter_In.
  split; [by apply list_elem_of_In|]. by intros ->.
Qed.

Lemma category_options_elem df name o v :
  category_options df name = Ok o → v ∈ o →
  v ≠ NaN ∧ ∃ r, r ∈ rows df ∧ cell_at name r = v.
Proof.
  unfold category_options.
  intros (c & [_ ->]%getitem_Ok_inv & [= <-])%bind_Ok Hv.
  apply unique_subset, dropna_elem in Hv as [Hv Hna].
  split; [done|].
  apply list_elem_of_fmap in Hv as (r & -> & Hr). by exists r.
Qed.

Lemma sidebar_inv w pr yr mn df s :
  sidebar w pr yr mn df = Ok s →
  ∃ o1 o2 o3,
    category_options df "neighbourhood group" = Ok o1 ∧
    category_options df "room type" = Ok o2 ∧
    category_options df "country" = Ok o3 ∧
    ng s = multiselect w "Neighbourhood Group" o1 o1 ∧
    rt s = multiselect w "Room Type" o2 o2 ∧
    co s = multiselect w "Country" o3 o3 ∧
    (if has_column "availability_group" df
     then ∃ o, ag s = selectbox w "Availability Group" (Str "All" :: o)
     else ag s = Str "All") ∧
    host_type s = (if has_column "host_is_big" df
                   then selectbox w "Host Type" host_type_options
                   else Str "All") ∧
    price_range s = pr ∧ year_range s = yr ∧ min_nights s = mn.
Proof.
  unfold sidebar.
  intros (o1 & Ho1 & (o2 & Ho2 & (o3 & Ho3 & (a & Ha & [= <-])%bind_Ok)
            %bind_Ok)%bind_Ok)%bind_Ok.
  exists o1, o2, o3. simpl. split_and!; try done.
  destruct (has_column "availability_group" df).
  - apply bind_Ok in Ha as (o & _ & [= <-]). by exists o.
  - by injection Ha as <-.
Qed.

(** What the sidebar hands to the filter statements is a selection the
    statements run on, and its multiselect picks hold no missing value. *)
Lemma sidebar_selection w pr yr mn df s :
  picks_among_options w → sidebar w pr yr mn df = Ok s →
  selection_ok df s ∧ picks_not_missing s.
Proof.
  intros [Hmulti Hbox] Hside.
  apply sidebar_inv in Hside
    as (o1 & o2 & o3 & Ho1 & Ho2 & Ho3 & Hng & Hrt & Hco & Hag & Hhost & _).
  split; [split|].
  - intros Hpick. destruct (has_column "availability_group" df); [done|].
    rewrite Hag in Hpick. done.
  - intros Hpick. destruct (has_column "host_is_big" df).
    + split; [done|]. rewrite Hhost.
      assert (host_type_options ≠ []) as Hne by done.
      pose proof (Hbox "Host Type" host_type_options Hne) as Hin.
      unfold host_type_options in Hin at 2.
      repeat (apply elem_of_cons in Hin as [Heq | Hin]; [by eauto|]).
      by apply elem_of_nil in Hin.
    + rewrite Hhost in Hpick. done.
  - split_and!.
    + rewrite Hng. intros Hin%Hmulti.
      by destruct (category_options_elem _ _ _ _ Ho1 Hin).
    + rewrite Hrt. intros Hin%Hmulti.
      by destruct (category_options_elem _ _ _ _ Ho2 Hin).
    + rewrite Hco. intros Hin%Hmulti.
      by destruct (category_options_elem _ _ _ _ Ho3 Hin).
Qed.

End Sidebar.

(** ** Claims about the optional filters and missing values *)

(** C7: the two optional equality filters act only when their column
    exists and the choice is not the sentinel "All".  When the column is
    absent or the choice is "All" the statement leaves the store as it is,
    and the pipeline returns what the nine-fold mask alone keeps; and for
    whatever the widgets return the pipeline does not fail. *)
Theorem optional_filters_noop (w : Widgets) (pr yr mn : Z * Z)
    (df : DataFrame) (s : FilterSpec) :
  sidebar w pr yr mn df = Ok s →
  (has_column "availability_group" df = false ∨ ag s = Str "All" →
     ∀ σ, filter_availability s σ = Ok ((), σ)) ∧
  (has_column "host_is_big" df = false ∨ host_type s = Str "All" →
     ∀ σ, filter_host_type s σ = Ok ((), σ)) ∧
  (∀ σ, filter_availability s σ ≠ Ok ((), σ) →
     has_column "availability_group" df = true ∧ ag s ≠ Str "All") ∧
  (∀ σ, filter_host_type s σ ≠ Ok ((), σ) →
     has_column "host_is_big" df = true ∧ host_type s ≠ Str "All") ∧
  (schema_ok df →
   has_column "availability_group" df = false ∨ ag s = Str "All" →
   has_column "host_is_big" df = false ∨ host_type s = Str "All" →
   ∃ out, filtered_of df s = Ok out ∧ filter_by (main_mask s) df = Ok out) ∧
  (schema_ok df → picks_among_options w →
   ∃ out, filtered_of df s = Ok out).
Proof.
  intros Hside.
  pose proof (sidebar_inv _ _ _ _ _ _ Hside)
    as (_ & _ & _ & _ & _ & _ & _ & _ & _ & Hag & Hhost & _).
  assert (has_column "availability_group" df = false ∨ ag s = Str "All" →
          not_All (ag s) = false) as Hskip_ag.
  { intros [Hno | Hall].
    - rewrite Hno in Hag. by rewrite Hag.
    - by rewrite Hall. }
  assert (has_column "host_is_big" df = false ∨ host_type s = Str "All" →
          not_All (host_type s) = false) as Hskip_host.
  { intros [Hno | Hall].
    - rewrite Hno in Hhost. by rewrite Hhost.
    - by rewrite Hall. }
  split_and!.
  - intros Hcase σ. unfold filter_availability.
    by rewrite (Hskip_ag Hcase).
  - intros Hcase σ. unfold filter_host_type.
    by rewrite (Hskip_host Hcase).
  - intros σ Hchanged.
    destruct (has_column "availability_group" df) eqn:Hcol.
    + split; [done|]. intros Hall. apply Hchanged.
      unfold filter_availability. by rewrite Hskip_ag by auto.
    + exfalso. apply Hchanged.
      unfold filter_availability. by rewrite Hskip_ag by auto.
  - intros σ Hchanged.
    destruct (has_column "host_is_big" df) eqn:Hcol.
    + split; [done|]. intros Hall. apply Hchanged.
      unfold filter_host_type. by rewrite Hskip_host by auto.
    + exfalso. apply Hchanged.
      unfold filter_host_type. by rewrite Hskip_host by auto.
  - intros Hs Hcase_ag Hcase_host.
    rewrite filtered_of_pipeline. unfold pipeline.
    rewrite filter_main_rows by done. simpl.
    unfold availability_stage, host_stage.
    rewrite (Hskip_ag Hcase_ag), (Hskip_host Hcase_host). simpl.
    by eexists.
  - intros Hs Hw.
    destruct (sidebar_selection _ _ _ _ _ _ Hw Hside) as [Hsel _].
    eexists. by apply filtered_of_rows.
Qed.

Example sidebar_on_bare_listings :
  sidebar picks_last (50, 60) (2000, 2020) (1, 30) bare_listings
  = Ok default_selection.
Proof. vm_compute. reflexivity. Qed.

Lemma optional_filters_noop_witness :
  (has_column "availability_group" bare_listings = false ∨
   ag default_selection = Str "All" →
     ∀ σ, filter_availability default_selection σ = Ok ((), σ)) ∧
  (has_column "host_is_big" bare_listings = false ∨
   host_type default_selection = Str "All" →
     ∀ σ, filter_host_type default_selection σ = Ok ((), σ)) ∧
  (∀ σ, filter_availability default_selection σ ≠ Ok ((), σ) →
     has_column "availability_group" bare_listings = true ∧
     ag default_selection ≠ Str "All") ∧
  (∀ σ, filter_host_type default_selection σ ≠ Ok ((), σ) →
     has_column "host_is_big" bare_listings = true ∧
     host_type default_selection ≠ Str "All") ∧
  (schema_ok bare_listings →
   has_column "availability_group" bare_listings = false ∨
   ag default_selection = Str "All" →
   has_column "host_is_big" bare_listings = false ∨
   host_type default_selection = Str "All" →
   ∃ out, filtered_of bare_listings default_selection = Ok out ∧
          filter_by (main_mask default_selection) bare_listings = Ok out) ∧
  (schema_ok bare_listings → picks_among_options picks_last →
   ∃ out, filtered_of bare_listings default_selection = Ok out).
Proof.
  apply (optional_filters_noop picks_last (50, 60) (2000, 2020) (1, 30)
           bare_listings default_selection).
  vm_compute. reflexivity.
Defined.

Lemma member_not_missing name (permitted : list cell) (r : gmap string cell) :
  NaN ∉ permitted → member name permitted r = true → cell_at name r ≠ NaN.
Proof.
  intros Hna (w & Hw & Hsame)%member_in_set Hmiss.
  rewrite Hmiss in Hsame. destruct w; try done.
Qed.

Lemma geb_not_missing (k : Z) (v : cell) : geb k v = true → v ≠ NaN.
Proof. by destruct v. Qed.

(** A row that passes the nine-fold mask of a selection without missing
    picks has a value in each of the six filtered columns. *)
Lemma main_passes_not_missing (s : FilterSpec) (r : gmap string cell) (c : string) :
  picks_not_missing s → main_passes s r = true →
  c ∈ required_columns → cell_at c r ≠ NaN.
Proof.
  intros (Hng & Hrt & Hco) Hpass Hc. unfold main_passes in Hpass.
  repeat (apply andb_true_iff in Hpass as [Hpass ?]).
  unfold required_columns in Hc.
  repeat (apply elem_of_cons in Hc as [-> | Hc]);
    eauto using member_not_missing, geb_not_missing.
  by apply elem_of_nil in Hc.
Qed.

(** C10: a row holding a missing value in any of the six always-filtered
    columns is never in the filtered result, for whatever the user selects
    in the sidebar (the default selection included): the multiselect
    options are built from non-missing values, and a missing value passes
    neither of the range comparisons. *)
Theorem missing_values_are_excluded (w : Widgets) (pr yr mn : Z * Z)
    (df : DataFrame) (s : FilterSpec) :
  schema_ok df → picks_among_options w →
  sidebar w pr yr mn df = Ok s →
  ∃ out, filtered_of df s = Ok out ∧
    ∀ r c, r ∈ rows df → c ∈ required_columns →
           cell_at c r = NaN → r ∉ rows out.
Proof.
  intros Hs Hw Hside.
  destruct (sidebar_selection _ _ _ _ _ _ Hw Hside) as [Hsel Hpicks].
  eexists. split; [by apply filtered_of_rows|]. simpl.
  intros r c _ Hc Hmiss [_ Hpass]%list_elem_of_In%filter_In.
  unfold passes in Hpass.
  apply andb_true_iff in Hpass as [[Hmain _]%andb_true_iff _].
  by eapply main_passes_not_missing.
Qed.

Lemma untouched_picks_among_options : picks_among_options untouched.
Proof.
  split; simpl.
  - intros _ options _ v Hv. exact Hv.
  - intros _ [|o options] Hne; [done|]. simpl. by left.
Defined.

Example sidebar_default_on_listings :
  sidebar untouched (50, 60) (2000, 2020) (1, 30) listings
  = Ok default_selection.
Proof. vm_compute. reflexivity. Qed.

Example default_selection_result :
  filtered_of listings default_selection
  = Ok (mkDataFrame listing_columns [home_50; room_50; home_60]).
Proof. vm_compute. reflexivity. Qed.

(** The options matter: [isin] matches a missing value against a missing
    value, so a selection holding one, which no multiselect can return,
    would keep the rows without a neighbourhood group. *)
Example missing_pick_keeps_missing_row :
  filtered_of listings
    {| ng := [NaN]; rt := [Str "Entire home"]; co := [Str "United States"];
       ag := Str "All"; host_type := Str "All";
       price_range := (50, 60); year_range := (2000, 2020);
       min_nights := (1, 30) |}
  = Ok (mkDataFrame listing_columns [home_no_group]).
Proof. vm_compute. reflexivity. Qed.

Lemma missing_values_are_excluded_witness :
  ∃ out, filtered_of listings default_selection = Ok out ∧
    ∀ r c, r ∈ rows listings → c ∈ required_columns →
           cell_at c r = NaN → r ∉ rows out.
Proof.
  apply (missing_values_are_excluded untouched (50, 60) (2000, 2020) (1, 30)
           listings default_selection).
  - schema_by_computation.
  - exact untouched_picks_among_options.
  - vm_compute. reflexivity.
Defined.

(** ** The data loader *)

Section Loader.

Lemma prefix_begins_with (p name : string) :
  String.prefix p name = true ↔ begins_with p name.
Proof.
  unfold begins_with. revert name.
  induction p as [|a p IH]; intros name.
  - destruct name; simpl; (split; [intros _; by eexists | done]).
  - destruct name as [|b name]; simpl.
    + split; [done|]. by intros (rest & ?).
    + destruct (Ascii.ascii_dec a b) as [<- | Hne].
      * rewrite IH. split.
        -- intros (rest & ->). by exists rest.
        -- intros (rest & [= ->]). by exists rest.
      * split; [done|]. intros (rest & Heq). by injection Heq.
Qed.

Lemma keeps_column (name : string) :
  negb (contains_Unnamed name) = true ↔ ¬ begins_with "Unnamed" name.
Proof.
  unfold contains_Unnamed. rewrite negb_true_iff, <- prefix_begins_with.
  by destruct (String.prefix "Unnamed" name).
Qed.

Lemma loc_columns_row (keep : string → bool) (r : gmap string cell) (c : string) :
  filter (λ kv : string * cell, keep kv.1 = true) r !! c
  = if keep c then r !! c else None.
Proof.
  destruct (keep c) eqn:E.
  - apply option_eq. intros v. rewrite map_lookup_filter_Some. simpl.
    split; [by intros [? _]|by intros ?].
  - apply map_lookup_filter_None. right. intros v _. simpl. by rewrite E.
Qed.

Lemma read_csv_missing (fs : gmap string file) (path : string) :
  fs !! path = None → read_csv fs path = Raise (FileNotFoundError path).
Proof. unfold read_csv. by intros ->. Qed.

Lemma unpack_without_archive (fs : gmap string file) :
  fs !! zip_path = None → unpack_archive fs = Ok fs.
Proof.
  intros Hno. unfold unpack_archive, path_exists.
  rewrite Hno. by rewrite bool_decide_false by by intros [? ?].
Qed.

End Loader.

(** C9: the loader returns the table read from the CSV without the columns
    whose name begins with "Unnamed" and with every other column, in
    order and with its cells; when there is no CSV to read (none on disk
    and none unpacked from the archive) it fails with FileNotFoundError. *)
Theorem load_data_drops_index_columns (fs fs1 : gmap string file) :
  unpack_archive fs = Ok fs1 →
  (∀ raw, fs1 !! csv_path = Some (Plain (Csv raw)) →
     ∃ df, load_data fs = Ok (df, fs1) ∧
       (∀ c, c ∈ columns df ↔ c ∈ columns raw ∧ ¬ begins_with "Unnamed" c) ∧
       columns df `sublist_of` columns raw ∧
       length (rows df) = length (rows raw) ∧
       (∀ i r, rows raw !! i = Some r →
          ∃ r', rows df !! i = Some r' ∧
            ∀ c, (begins_with "Unnamed" c → r' !! c = None) ∧
                 (¬ begins_with "Unnamed" c → r' !! c = r !! c))) ∧
  (fs1 !! csv_path = None →
     load_data fs = Raise (FileNotFoundError csv_path)) ∧
  (fs !! zip_path = None → fs1 = fs) ∧
  (fs !! zip_path = None → fs !! csv_path = None →
     load_data fs = Raise (FileNotFoundError csv_path)).
Proof.
  intros Hunpack. split_and!.
  - intros raw Hcsv. unfold load_data. rewrite Hunpack. simpl.
    unfold read_csv. rewrite Hcsv. simpl.
    eexists. split; [reflexivity|]. simpl. split_and!.
    + intros c. rewrite list_elem_of_In, filter_In, keeps_column.
      by rewrite list_elem_of_In.
    + apply filter_sublist.
    + by rewrite length_map.
    + intros i r Hr.
      exists (filter (λ kv : string * cell,
                        negb (contains_Unnamed kv.1) = true) r).
      split.
      * change (map ?f ?l) with (f <$> l).
        by rewrite list_lookup_fmap, Hr.
      * intros c.
        rewrite (loc_columns_row (λ c, negb (contains_Unnamed c))).
        simpl. split.
        -- intros Hb. destruct (negb (contains_Unnamed c)) eqn:E; [|done].
           by apply keeps_column in E.
        -- intros Hb. apply keeps_column in Hb. by rewrite Hb.
  - intros Hno. unfold load_data. rewrite Hunpack. simpl.
    by rewrite read_csv_missing.
  - intros Hno. rewrite unpack_without_archive in Hunpack by done.
    by injection Hunpack.
  - intros Hzip Hcsv. unfold load_data.
    rewrite unpack_without_archive by done. simpl.
    by rewrite read_csv_missing.
Qed.

Example load_data_from_csv :
  load_data disk_with_csv
  = Ok (mkDataFrame ["NAME"; "price"]
          [ {[ "NAME" := Str "Loft"; "price" := num 50 ]};
            {[ "NAME" := Str "Studio"; "price" := num 60 ]} ],
        disk_with_csv).
Proof. vm_compute. reflexivity. Qed.

Example load_data_no_file :
  load_data ∅ = Raise (FileNotFoundError csv_path).
Proof. reflexivity. Qed.

Example load_data_bad_archive :
  load_data {[ zip_path := Plain Opaque ]} = Raise BadZipFile.
Proof. reflexivity. Qed.

Lemma load_data_drops_index_columns_witness :
  (∀ raw, (<[csv_path := Plain (Csv export)]> disk_with_zip) !! csv_path
          = Some (Plain (Csv raw)) →
     ∃ df, load_data disk_with_zip
           = Ok (df, <[csv_path := Plain (Csv export)]> disk_with_zip) ∧
       (∀ c, c ∈ columns df ↔ c ∈ columns raw ∧ ¬ begins_with "Unnamed" c) ∧
       columns df `sublist_of` columns raw ∧
       length (rows df) = length (rows raw) ∧
       (∀ i r, rows raw !! i = Some r →
          ∃ r', rows df !! i = Some r' ∧
            ∀ c, (begins_with "Unnamed" c → r' !! c = None) ∧
                 (¬ begins_with "Unnamed" c → r' !! c = r !! c))) ∧
  ((<[csv_path := Plain (Csv export)]> disk_with_zip) !! csv_path = None →
     load_data disk_with_zip = Raise (FileNotFoundError csv_path)) ∧
  (disk_with_zip !! zip_path = None →
     <[csv_path := Plain (Csv export)]> disk_with_zip = disk_with_zip) ∧
  (disk_with_zip !! zip_path = None → disk_with_zip !! csv_path = None →
     load_data disk_with_zip = Raise (FileNotFoundError csv_path)).
Proof.
  apply (load_data_drops_index_columns disk_with_zip
           (<[csv_path := Plain (Csv export)]> disk_with_zip)).
  reflexivity.
Defined.

(** ** Grouped aggregates *)

Section Aggregates.

Implicit Types (v k : cell).

Lemma isin_eqb_refl v : v ≠ NaN → isin_eqb v v = true.
Proof.
  destruct v as [|q|a]; simpl; [done| |].
  - intros _. by apply Qeq_bool_iff.
  - intros _. by apply bool_decide_eq_true.
Qed.

Lemma value_counts_entry (c : list cell) k (n : nat) :
  (k, n) ∈ value_counts c → k ∈ c ∧ k ≠ NaN ∧ (1 ≤ n)%nat.
Proof.
  unfold value_counts.
  intros (k' & [= <- ->] & Hk)%list_elem_of_fmap.
  apply unique_subset, dropna_elem in Hk as [Hk Hna].
  split; [done|]. split; [done|].
  apply list_elem_of_In in Hk.
  destruct (List.filter (isin_eqb k) c) as [|x xs] eqn:E; simpl; [|lia].
  assert (In k (List.filter (isin_eqb k) c)) as Hin.
  { apply filter_In. split; [done|]. by apply isin_eqb_refl. }
  rewrite E in Hin. done.
Qed.

Lemma mapM_Ok_elem {A B} (f : A → result B) (l : list A) (l' : list B) y :
  mapM f l = Ok l' → y ∈ l' → ∃ x, x ∈ l ∧ f x = Ok y.
Proof.
  revert l'. induction l as [|x l IH]; intros l'; simpl.
  - intros [= <-] Hy. by apply elem_of_nil in Hy.
  - intros (y0 & Hy0 & (k & Hk & [= <-])%bind_Ok)%bind_Ok Hy.
    apply elem_of_cons in Hy as [-> | Hy].
    + exists x. split; [by left|done].
    + destruct (IH k Hk Hy) as (x' & Hx' & Hf). exists x'.
      split; [by right|done].
Qed.

Lemma groupby_mean_entry (df2 : DataFrame) (by_ col : string) avg k (m : cell) :
  groupby_mean df2 by_ col = Ok avg → (k, m) ∈ avg →
  k ≠ NaN ∧ ∃ r, r ∈ rows df2 ∧ cell_at by_ r = k.
Proof.
  unfold groupby_mean.
  intros (keys & [_ ->]%getitem_Ok_inv & (vals & _ & Hmap)%bind_Ok)%bind_Ok Hin.
  destruct (mapM_Ok_elem _ _ _ _ Hmap Hin) as (k' & Hk' & Hf).
  apply bind_Ok in Hf as (m' & _ & [= <- <-]).
  apply unique_subset, dropna_elem in Hk' as [Hk' Hna].
  split; [done|].
  apply list_elem_of_fmap in Hk' as (r & -> & Hr). by exists r.
Qed.

Lemma find_none {A} (f : A → bool) (l : list A) :
  (∀ x, x ∈ l → f x = false) → List.find f l = None.
Proof.
  induction l as [|x l IH]; simpl; [done|].
  intros Hf. rewrite (Hf x) by by left.
  apply IH. intros y Hy. apply Hf. by right.
Qed.

Lemma series_get_default {V} (s : list (cell * V)) (key : cell) (dflt : V) :
  (∀ k (x : V), (k, x) ∈ s → isin_eqb k key = false) →
  series_get s key dflt = dflt.
Proof.
  intros Hs. unfold series_get. rewrite find_none; [done|].
  intros [k x] Hin. simpl. by eapply Hs.
Qed.

Lemma isin_eqb_number k (q : Q) :
  isin_eqb k (Num q) = eq_scalar k (Num q).
Proof. by destruct k. Qed.

End Aggregates.

(** The Series a page groups the filtered table into: a count per category
    ([value_counts]) or a mean per category (group-by mean) has entries
    only for categories that occur, as a non-missing value, in at least one
    row of that table, a count being at least 1; a category no row holds
    has no entry. *)
Lemma grouped_series_entries (df2 : DataFrame) :
  (∀ name counts k n,
     column_counts df2 name = Ok counts → (k, n) ∈ counts →
     k ≠ NaN ∧ (1 ≤ n)%nat ∧ ∃ r, r ∈ rows df2 ∧ cell_at name r = k) ∧
  (∀ by_ col avg k m,
     groupby_mean df2 by_ col = Ok avg → (k, m) ∈ avg →
     k ≠ NaN ∧ ∃ r, r ∈ rows df2 ∧ cell_at by_ r = k) ∧
  (∀ name counts k,
     column_counts df2 name = Ok counts →
     (∀ r, r ∈ rows df2 → isin_eqb (cell_at name r) k = false) →
     ∀ n, (k, n) ∉ counts) ∧
  (∀ by_ col avg k,
     groupby_mean df2 by_ col = Ok avg →
     (∀ r, r ∈ rows df2 → isin_eqb (cell_at by_ r) k = false) →
     ∀ m, (k, m) ∉ avg).
Proof.
  assert (∀ name counts k n,
     column_counts df2 name = Ok counts → (k, n) ∈ counts →
     k ≠ NaN ∧ (1 ≤ n)%nat ∧ ∃ r, r ∈ rows df2 ∧ cell_at name r = k)
    as Hcounts.
  { intros name counts k n (c & [_ ->]%getitem_Ok_inv & [= <-])%bind_Ok Hin.
    apply value_counts_entry in Hin as (Hk & Hna & Hn).
    split; [done|]. split; [done|].
    apply list_elem_of_fmap in Hk as (r & -> & Hr). by exists r. }
  split_and!.
  - exact Hcounts.
  - intros by_ col avg k m. apply groupby_mean_entry.
  - intros name counts k Hc Hnone n Hin.
    destruct (Hcounts _ _ _ _ Hc Hin) as (Hna & _ & r & Hr & <-).
    specialize (Hnone r Hr). by rewrite isin_eqb_refl in Hnone.
  - intros by_ col avg k Havg Hnone m Hin.
    destruct (groupby_mean_entry _ _ _ _ _ _ Havg Hin) as (Hna & r & Hr & <-).
    specialize (Hnone r Hr). by rewrite isin_eqb_refl in Hnone.
Qed.

Example room_type_counts :
  column_counts listings "room type"
  = Ok [(Str "Entire home", 4%nat); (Str "Private room", 1%nat)].
Proof. vm_compute. reflexivity. Qed.

Example mean_price_by_group :
  groupby_mean listings "neighbourhood group" "price"
  = Ok [(Str "Bronx", Num (100 # 2)%Q); (Str "Queens", num 60)].
Proof. vm_compute. reflexivity. Qed.

(** The two Host Dynamics charts do not plot those Series as they are:
    they read the fixed categories 0 and 1 out of them with default 0, so
    both bars are always there, and a host category without rows is drawn
    with the value 0. *)
Lemma host_charts_default_bars (df2 : DataFrame) :
  (∀ bars,
     host_type_distribution df2 = Ok bars →
     map fst bars = ["Small Hosts (≤3)"; "Big Hosts (>3)"] ∧
     ((∀ r, r ∈ rows df2 →
         eq_scalar (cell_at "host_is_big" r) (num 0) = false) →
      ("Small Hosts (≤3)", 0%nat) ∈ bars) ∧
     ((∀ r, r ∈ rows df2 →
         eq_scalar (cell_at "host_is_big" r) (num 1) = false) →
      ("Big Hosts (>3)", 0%nat) ∈ bars)) ∧
  (∀ bars,
     average_price_by_host_type df2 = Ok bars →
     map fst bars = ["Small Hosts"; "Big Hosts"] ∧
     ((∀ r, r ∈ rows df2 →
         eq_scalar (cell_at "host_is_big" r) (num 0) = false) →
      ("Small Hosts", num 0) ∈ bars) ∧
     ((∀ r, r ∈ rows df2 →
         eq_scalar (cell_at "host_is_big" r) (num 1) = false) →
      ("Big Hosts", num 0) ∈ bars)).
Proof.
  split.
  - intros bars (counts & Hcounts & [= <-])%bind_Ok.
    apply bind_Ok in Hcounts as (c & [_ ->]%getitem_Ok_inv & [= <-]).
    split; [done|].
    split; intros Hnone.
    + rewrite (series_get_default _ (Num (inject_Z 0))); [by left|].
      intros k n (Hk & _)%value_counts_entry.
      apply list_elem_of_fmap in Hk as (r & -> & Hr).
      rewrite isin_eqb_number. by apply Hnone.
    + rewrite (series_get_default _ (Num (inject_Z 1))); [right; by left|].
      intros k n (Hk & _)%value_counts_entry.
      apply list_elem_of_fmap in Hk as (r & -> & Hr).
      rewrite isin_eqb_number. by apply Hnone.
  - intros bars (avg & Havg & [= <-])%bind_Ok.
    split; [done|].
    split; intros Hnone.
    + rewrite (series_get_default _ (Num (inject_Z 0))); [by left|].
      intros k m Hin.
      destruct (groupby_mean_entry _ _ _ _ _ _ Havg Hin) as (_ & r & Hr & <-).
      rewrite isin_eqb_number. by apply Hnone.
    + rewrite (series_get_default _ (Num (inject_Z 1))); [right; by left|].
      intros k m Hin.
      destruct (groupby_mean_entry _ _ _ _ _ _ Havg Hin) as (_ & r & Hr & <-).
      rewrite isin_eqb_number. by apply Hnone.
Qed.

(** C8, as the specification states it, fails on the Host Dynamics page.
    Filtering [listings] by low availability and big hosts leaves one row,
    of a big host: no row of the filtered table has the flag 0, yet each of
    the two charts has an entry for the small hosts, with the value 0. *)
Lemma host_charts_show_absent_category :
  filtered_of listings low_big = Ok big_hosts_only ∧
  map (cell_at "host_is_big") (rows big_hosts_only) = [num 1] ∧
  host_type_distribution big_hosts_only
    = Ok [("Small Hosts (≤3)", 0%nat); ("Big Hosts (>3)", 1%nat)] ∧
  average_price_by_host_type big_hosts_only
    = Ok [("Small Hosts", num 0); ("Big Hosts", num 60)].
Proof. split_and!; vm_compute; reflexivity. Qed.

(** C8, amended: every Series a page groups the filtered table into, a
    count per category ([value_counts]) or a mean per category (group-by
    mean), has entries only for categories that occur, as a non-missing
    value, in at least one row of that table, a count being at least 1,
    and a category no row holds has no entry.  The charts plot those
    Series, except the two of the Host Dynamics page: on a flag column of
    numbers these read the categories 0 and 1 out of the Series with
    default 0, so they always show both bars, and a host category without
    rows is shown with the value 0. *)
Theorem aggregates_cover_present_categories (df2 : DataFrame) :
  ((∀ name counts k n,
      column_counts df2 name = Ok counts → (k, n) ∈ counts →
      k ≠ NaN ∧ (1 ≤ n)%nat ∧ ∃ r, r ∈ rows df2 ∧ cell_at name r = k) ∧
   (∀ by_ col avg k m,
      groupby_mean df2 by_ col = Ok avg → (k, m) ∈ avg →
      k ≠ NaN ∧ ∃ r, r ∈ rows df2 ∧ cell_at by_ r = k) ∧
   (∀ name counts k,
      column_counts df2 name = Ok counts →
      (∀ r, r ∈ rows df2 → isin_eqb (cell_at name r) k = false) →
      ∀ n, (k, n) ∉ counts) ∧
   (∀ by_ col avg k,
      groupby_mean df2 by_ col = Ok avg →
      (∀ r, r ∈ rows df2 → isin_eqb (cell_at by_ r) k = false) →
      ∀ m, (k, m) ∉ avg)) ∧
  (host_flags_numeric df2 →
   (∀ bars,
      host_type_distribution df2 = Ok bars →
      map fst bars = ["Small Hosts (≤3)"; "Big Hosts (>3)"] ∧
      ((∀ r, r ∈ rows df2 →
          eq_scalar (cell_at "host_is_big" r) (num 0) = false) →
       ("Small Hosts (≤3)", 0%nat) ∈ bars) ∧
      ((∀ r, r ∈ rows df2 →
          eq_scalar (cell_at "host_is_big" r) (num 1) = false) →
       ("Big Hosts (>3)", 0%nat) ∈ bars)) ∧
   (∀ bars,
      average_price_by_host_type df2 = Ok bars →
      map fst bars = ["Small Hosts"; "Big Hosts"] ∧
      ((∀ r, r ∈ rows df2 →
          eq_scalar (cell_at "host_is_big" r) (num 0) = false) →
       ("Small Hosts", num 0) ∈ bars) ∧
      ((∀ r, r ∈ rows df2 →
          eq_scalar (cell_at "host_is_big" r) (num 1) = false) →
       ("Big Hosts", num 0) ∈ bars))).
Proof.
  split.
  - apply grouped_series_entries.
  - intros _. apply host_charts_default_bars.
Qed.

Lemma aggregates_cover_present_categories_witness :
  (∃ counts, column_counts listings "room type" = Ok counts ∧
     ∀ k n, (k, n) ∈ counts →
       k ≠ NaN ∧ (1 ≤ n)%nat ∧
       ∃ r, r ∈ rows listings ∧ cell_at "room type" r = k) ∧
  host_flags_numeric big_hosts_only ∧
  (∃ bars, host_type_distribution big_hosts_only = Ok bars ∧
     map fst bars = ["Small Hosts (≤3)"; "Big Hosts (>3)"] ∧
     ("Small Hosts (≤3)", 0%nat) ∈ bars).
Proof.
  split; [|split].
  - eexists. split; [reflexivity|].
    intros k n.
    apply (proj1 (aggregates_cover_present_categories listings)).
    reflexivity.
  - repeat constructor.
  - eexists. split; [reflexivity|].
    destruct (aggregates_cover_present_categories big_hosts_only)
      as [_ Hcharts].
    destruct Hcharts as [Hbars _]; [repeat constructor|].
    destruct (Hbars _ eq_refl) as (Hlabels & Hsmall & _).
    split; [exact Hlabels|].
    apply Hsmall. intros r Hr.
    apply elem_of_cons in Hr as [->|Hr]; [reflexivity|].
    by apply elem_of_nil in Hr.
Defined.

(** * Further properties of the script *)

Import Sliders Pages Selections TopCounts MoreSamples.

(** ** Value equality, distinct values and counting *)

Section Counting.

Implicit Types (v w k : cell) (l u : list cell).

Lemma isin_eqb_reflexive v : isin_eqb v v = true.
Proof.
  destruct v as [|q|a]; simpl; [done| |].
  - by apply Qeq_bool_iff.
  - by apply bool_decide_eq_true.
Qed.

Lemma isin_eqb_sym v w : isin_eqb v w = isin_eqb w v.
Proof.
  destruct v as [|p|a], w as [|q|b]; simpl; try done.
  - apply eq_true_iff_eq. rewrite !Qeq_bool_iff. split; intros H; by symmetry.
  - apply bool_decide_ext. split; intros H; by symmetry.
Qed.

Lemma isin_eqb_trans v w k :
  isin_eqb v w = true → isin_eqb w k = true → isin_eqb v k = true.
Proof.
  destruct v as [|p|a], w as [|q|b], k as [|r|c]; simpl; try done.
  - rewrite !Qeq_bool_iff. intros H1 H2. by rewrite H1.
  - rewrite !bool_decide_eq_true. congruence.
Qed.

(** Equal values are interchangeable in a membership test. *)
Lemma isin_eqb_congr v w k :
  isin_eqb v w = true → isin_eqb v k = isin_eqb w k.
Proof.
  intros Hvw. apply eq_true_iff_eq. split; intros H.
  - eapply isin_eqb_trans; [|done]. by rewrite isin_eqb_sym.
  - by eapply isin_eqb_trans.
Qed.

(** The number of cells of [l] holding the value [k]. *)
Lemma count_cons k v l :
  length (List.filter (isin_eqb k) (v :: l))
  = ((if isin_eqb k v then 1 else 0) + length (List.filter (isin_eqb k) l))%nat.
Proof. simpl. by destruct (isin_eqb k v). Qed.

(** [unique] keeps exactly one cell per value of the Series. *)
Lemma count_unique k l :
  length (List.filter (isin_eqb k) (unique l))
  = if existsb (isin_eqb k) l then 1%nat else 0%nat.
Proof.
  induction l as [|v l IH]; [done|].
  cbn [unique existsb]. rewrite count_cons, filter_andb.
  destruct (isin_eqb k v) eqn:Hkv; simpl.
  - rewrite filter_none; [done|].
    intros w. destruct (isin_eqb w v) eqn:Hwv; simpl; [done|].
    destruct (isin_eqb k w) eqn:Hkw; [|done].
    rewrite (isin_eqb_congr w k v) in Hwv by (by rewrite isin_eqb_sym).
    congruence.
  - rewrite <- IH. f_equal. apply List.filter_ext. intros w.
    destruct (isin_eqb k w) eqn:Hkw; [|by rewrite andb_false_r].
    rewrite andb_true_r.
    rewrite (isin_eqb_congr w k v) by (by rewrite isin_eqb_sym).
    by rewrite Hkv.
Qed.

Lemma sum_list_fmap_add {A} (f g : A → nat) (xs : list A) :
  sum_list (map (λ x, f x + g x)%nat xs)
  = (sum_list (map f xs) + sum_list (map g xs))%nat.
Proof. induction xs as [|x xs IH]; simpl; [done|]. rewrite IH. lia. Qed.

Lemma sum_list_indicator {A} (f : A → bool) (xs : list A) :
  sum_list (map (λ x, if f x then 1 else 0)%nat xs)
  = length (List.filter f xs).
Proof.
  induction xs as [|x xs IH]; simpl; [done|].
  rewrite IH. by destruct (f x).
Qed.

Lemma sum_list_le {A} (f g : A → nat) (xs : list A) :
  (∀ x, x ∈ xs → (f x ≤ g x)%nat) →
  (sum_list (map f xs) ≤ sum_list (map g xs))%nat.
Proof.
  induction xs as [|x xs IH]; simpl; [done|]. intros Hle.
  pose proof (Hle x ltac:(by left)).
  pose proof (IH (λ y Hy, Hle y ltac:(by right))). lia.
Qed.

Lemma sum_list_ext {A} (f g : A → nat) (xs : list A) :
  (∀ x, x ∈ xs → f x = g x) →
  sum_list (map f xs) = sum_list (map g xs).
Proof.
  induction xs as [|x xs IH]; simpl; [done|]. intros Heq.
  rewrite (Heq x) by by left.
  by rewrite IH by (intros y Hy; apply Heq; by right).
Qed.

Lemma sum_list_ones {A} (xs : list A) :
  sum_list (map (λ _, 1%nat) xs) = length xs.
Proof. induction xs as [|x xs IH]; simpl; [done|]. by rewrite IH. Qed.

(** Counting the pairs of equal values of two lists, by rows or by
    columns. *)
Lemma double_count u l :
  sum_list (map (λ k, length (List.filter (isin_eqb k) l)) u)
  = sum_list (map (λ x, length (List.filter (λ k, isin_eqb k x) u)) l).
Proof.
  induction l as [|x l IH]; simpl.
  - clear. induction u as [|k u IH]; simpl; [done|]. exact IH.
  - rewrite <- IH.
    rewrite <- sum_list_indicator, <- sum_list_fmap_add.
    f_equal. apply map_ext. intros k. by destruct (isin_eqb k x).
Qed.

(** The counts of the distinct values of a Series add up to its length. *)
Lemma counts_add_up l :
  sum_list (map (λ k, length (List.filter (isin_eqb k) l)) (unique l))
  = length l.
Proof.
  rewrite double_count. rewrite <- (sum_list_ones l).
  apply sum_list_ext. intros x Hx.
  rewrite (List.filter_ext _ (isin_eqb x)) by (intros k; apply isin_eqb_sym).
  rewrite count_unique.
  assert (existsb (isin_eqb x) l = true) as ->; [|done].
  apply existsb_exists. exists x.
  split; [by apply list_elem_of_In|apply isin_eqb_reflexive].
Qed.

End Counting.

(** ** Counts and distinct values on the pages *)

Section PageCounts.

Implicit Types (v w k : cell) (l u : list cell).

Lemma count_dropna k l :
  k ≠ NaN →
  length (List.filter (isin_eqb k) (dropna l))
  = length (List.filter (isin_eqb k) l).
Proof.
  intros Hk. unfold dropna. rewrite filter_andb. f_equal.
  apply List.filter_ext. intros v. destruct k, v; try done.
Qed.

Lemma length_dropna_map {A} (f : A → cell) (xs : list A) :
  length (dropna (map f xs))
  = length (List.filter (λ x, negb (isna (f x))) xs).
Proof.
  unfold dropna. induction xs as [|x xs IH]; simpl; [done|].
  destruct (isna (f x)); simpl; by rewrite IH.
Qed.

Lemma value_counts_sum (s : list cell) :
  sum_list (map snd (value_counts s)) = length (dropna s).
Proof.
  unfold value_counts. rewrite map_map. simpl.
  rewrite <- (counts_add_up (dropna s)).
  apply sum_list_ext. intros k Hk.
  apply unique_subset, dropna_elem in Hk as [_ Hk].
  by rewrite count_dropna.
Qed.

(** Distinct values that all occur in [permitted] are no more than
    [permitted] has entries. *)
Lemma unique_le_permitted l (permitted : list cell) :
  (∀ v, v ∈ l → existsb (isin_eqb v) permitted = true) →
  (length (unique l) ≤ length permitted)%nat.
Proof.
  intros Hin.
  rewrite <- (sum_list_ones (unique l)), <- (sum_list_ones permitted).
  etrans; [|etrans].
  - apply (sum_list_le _ (λ k, length (List.filter (isin_eqb k) permitted))).
    intros k Hk%unique_subset%Hin.
    apply existsb_exists in Hk as (w & Hw & Hkw).
    assert (In w (List.filter (isin_eqb k) permitted)) as Hf
      by (apply filter_In; by split).
    destruct (List.filter (isin_eqb k) permitted); [done|simpl; lia].
  - rewrite double_count. reflexivity.
  - apply sum_list_le. intros w _.
    rewrite (List.filter_ext _ (isin_eqb w)) by (intros k; apply isin_eqb_sym).
    rewrite count_unique. destruct (existsb _ _); lia.
Qed.

Lemma dropna_incl v l : v ∈ dropna l → v ∈ l.
Proof. by intros [? _]%dropna_elem. Qed.

End PageCounts.

(** X1: the heights of the bars of a "Listings per ..." chart add up to
    the number of rows that have a value in the charted column. *)
Theorem bar_heights_add_up (df2 : DataFrame) (name : string)
    (counts : list (cell * nat)) :
  column_counts df2 name = Ok counts →
  sum_list (map snd counts)
  = length (List.filter (λ r, negb (isna (cell_at name r))) (rows df2)).
Proof.
  intros (c & [_ ->]%getitem_Ok_inv & [= <-])%bind_Ok.
  by rewrite value_counts_sum, length_dropna_map.
Qed.

Lemma bar_heights_add_up_witness :
  sum_list (map snd [(Str "Bronx", 2%nat); (Str "Queens", 2%nat)])
  = length (List.filter
              (λ r, negb (isna (cell_at "neighbourhood group" r)))
              (rows listings)).
Proof.
  apply (bar_heights_add_up listings "neighbourhood group").
  vm_compute. reflexivity.
Defined.

Ltac invert_result_binds H :=
  repeat (cbv zeta in H; apply bind_Ok in H as (? & ? & H)).

Section FilteredPages.

Implicit Types (s : FilterSpec) (df out : DataFrame) (r : gmap string cell).

Lemma passes_main s r : passes s r = true → main_passes s r = true.
Proof.
  unfold passes. by intros [[? _]%andb_true_iff _]%andb_true_iff.
Qed.

Lemma main_passes_members s r :
  main_passes s r = true →
  member "neighbourhood group" (ng s) r = true ∧
  member "room type" (rt s) r = true ∧
  member "country" (co s) r = true.
Proof.
  unfold main_passes. intros H.
  repeat (apply andb_true_iff in H as [H ?]). done.
Qed.

Lemma has_column_filtered name df (f : gmap string cell → bool) :
  has_column name (mkDataFrame (columns df) (List.filter f (rows df)))
  = has_column name df.
Proof. done. Qed.

(** The distinct values a filtered column holds are among the picks. *)
Lemma nunique_filtered_le name (permitted : list cell) s df :
  (∀ r, main_passes s r = true → member name permitted r = true) →
  (nunique (map (cell_at name) (List.filter (passes s) (rows df)))
   ≤ length permitted)%nat.
Proof.
  intros Hmem. unfold nunique. apply unique_le_permitted.
  intros v Hv%dropna_incl.
  apply list_elem_of_fmap in Hv as (r & -> & Hr).
  apply list_elem_of_In, filter_In in Hr as [_ Hr].
  apply Hmem. by apply passes_main.
Qed.

End FilteredPages.

(** X2: on the filtered table the "Countries" metric of the Dashboard
    page never exceeds the number of countries picked in the sidebar, and
    the charts "Listings per Neighbourhood Group" and "Listings per Room
    Type" have no more bars than values were picked. *)
Theorem distinct_values_le_picks (df : DataFrame) (s : FilterSpec) :
  schema_ok df → selection_ok df s →
  ∃ out, filtered_of df s = Ok out ∧
    (∀ k, dashboard_page out = Ok k →
       (countries k ≤ length (co s))%nat) ∧
    (∀ counts, column_counts out "neighbourhood group" = Ok counts →
       (length counts ≤ length (ng s))%nat) ∧
    (∀ counts, column_counts out "room type" = Ok counts →
       (length counts ≤ length (rt s))%nat).
Proof.
  intros Hs Hsel. eexists. split; [by apply filtered_of_rows|].
  split_and!.
  - intros k Hk. unfold dashboard_page, column_mean in Hk.
    invert_result_binds Hk. injection Hk as <-. simpl.
    match goal with
    | H : getitem _ "country" = Ok _ |- _ =>
        apply getitem_Ok_inv in H as [_ ->]
    end.
    simpl. apply nunique_filtered_le.
    intros r Hr. by apply main_passes_members in Hr as (_ & _ & ?).
  - intros counts (c & [_ ->]%getitem_Ok_inv & [= <-])%bind_Ok.
    unfold value_counts. rewrite length_map. simpl.
    apply (nunique_filtered_le "neighbourhood group").
    intros r Hr. by apply main_passes_members in Hr as (? & _ & _).
  - intros counts (c & [_ ->]%getitem_Ok_inv & [= <-])%bind_Ok.
    unfold value_counts. rewrite length_map. simpl.
    apply (nunique_filtered_le "room type").
    intros r Hr. by apply main_passes_members in Hr as (_ & ? & _).
Qed.

Lemma distinct_values_le_picks_witness :
  ∃ out, filtered_of listings homes_at_50 = Ok out ∧
    (∀ k, dashboard_page out = Ok k →
       (countries k ≤ length (co homes_at_50))%nat) ∧
    (∀ counts, column_counts out "neighbourhood group" = Ok counts →
       (length counts ≤ length (ng homes_at_50))%nat) ∧
    (∀ counts, column_counts out "room type" = Ok counts →
       (length counts ≤ length (rt homes_at_50))%nat).
Proof.
  apply (distinct_values_le_picks listings homes_at_50).
  - schema_by_computation.
  - selection_by_computation.
Defined.

(** X3: for whatever the user selects in the sidebar, the bars of each of
    the charts "Listings per Neighbourhood Group", "Listings per Room
    Type" and "Listings per Country" add up to the number of rows of the
    filtered table, the "Listings" metric. *)
Theorem filtered_bars_add_up_to_listings (w : Widgets) (pr yr mn : Z * Z)
    (df : DataFrame) (s : FilterSpec) (name : string) :
  schema_ok df → picks_among_options w →
  sidebar w pr yr mn df = Ok s →
  name ∈ ["neighbourhood group"; "room type"; "country"] →
  ∃ out counts, filtered_of df s = Ok out ∧
    column_counts out name = Ok counts ∧
    sum_list (map snd counts) = length (rows out).
Proof.
  intros Hs Hw Hside Hname.
  destruct (sidebar_selection _ _ _ _ _ _ Hw Hside) as [Hsel Hpicks].
  assert (name ∈ required_columns) as Hreq.
  { unfold required_columns.
    rewrite !elem_of_cons in Hname. rewrite !elem_of_cons.
    rewrite elem_of_nil in Hname. tauto. }
  eexists. eexists. split; [by apply filtered_of_rows|].
  unfold column_counts. rewrite getitem_Ok
    by (rewrite has_column_filtered; by apply schema_has_column).
  simpl. split; [reflexivity|].
  rewrite value_counts_sum, length_dropna_map. f_equal.
  rewrite filter_andb. apply List.filter_ext. intros r.
  destruct (passes s r) eqn:Hp; [|done]. simpl.
  apply passes_main in Hp.
  pose proof (main_passes_not_missing s r name Hpicks Hp Hreq) as Hna.
  by destruct (cell_at name r).
Qed.

Lemma filtered_bars_add_up_to_listings_witness :
  ∃ out counts, filtered_of listings default_selection = Ok out ∧
    column_counts out "room type" = Ok counts ∧
    sum_list (map snd counts) = length (rows out).
Proof.
  apply (filtered_bars_add_up_to_listings untouched (50, 60) (2000, 2020)
           (1, 30) listings default_selection "room type").
  - schema_by_computation.
  - exact untouched_picks_among_options.
  - vm_compute. reflexivity.
  - right. left.
Defined.

(** ** The slider bounds *)

Section SliderBounds.

Implicit Types (s : list cell) (q p : Q) (qs : list Q) (df : DataFrame).

Lemma numbers_the_numbers s :
  Forall (λ v, orderable v = true) s → numbers s = Ok (the_numbers s).
Proof.
  induction 1 as [|v s Hv _ IH]; [done|].
  destruct v as [|q|a]; simpl; [done| |done].
  by rewrite IH.
Qed.

Lemma elem_of_the_numbers q s : q ∈ the_numbers s ↔ Num q ∈ s.
Proof.
  unfold the_numbers. rewrite list_elem_of_omap. split.
  - intros (v & Hv & Hq). destruct v; naive_solver.
  - intros Hq. by exists (Num q).
Qed.

Lemma the_numbers_nil s :
  Forall (λ v, v = NaN) s → the_numbers s = [].
Proof. induction 1 as [|v s -> _ IH]; [done|]. exact IH. Qed.

Lemma qmin_cases p q : (qmin p q = p ∧ Qle p q) ∨ (qmin p q = q ∧ Qle q p).
Proof.
  unfold qmin. destruct (Qle_bool p q) eqn:E.
  - left. split; [done|]. by apply Qle_bool_iff.
  - right. split; [done|].
    apply Qlt_le_weak, Qnot_le_lt. intros H%Qle_bool_iff. congruence.
Qed.

Lemma qmax_cases p q : (qmax p q = q ∧ Qle p q) ∨ (qmax p q = p ∧ Qle q p).
Proof.
  unfold qmax. destruct (Qle_bool p q) eqn:E.
  - left. split; [done|]. by apply Qle_bool_iff.
  - right. split; [done|].
    apply Qlt_le_weak, Qnot_le_lt. intros H%Qle_bool_iff. congruence.
Qed.

(** The minimum is one of the numbers and below them all. *)
Lemma foldl_qmin q qs :
  foldl qmin q qs ∈ q :: qs ∧ ∀ x, x ∈ q :: qs → Qle (foldl qmin q qs) x.
Proof.
  revert q. induction qs as [|p qs IH]; intros q; simpl.
  - split; [by left|]. intros x ->%list_elem_of_singleton. apply Qle_refl.
  - destruct (IH (qmin q p)) as [Hin Hle]. split.
    + apply elem_of_cons in Hin as [Hin | Hin]; [|by do 2 right].
      rewrite Hin. destruct (qmin_cases q p) as [[-> _] | [-> _]];
        [by left|right; by left].
    + intros x Hx.
      assert (Qle (foldl qmin (qmin q p) qs) (qmin q p)) as Hm
        by (apply Hle; by left).
      apply elem_of_cons in Hx as [-> | Hx];
        [|apply elem_of_cons in Hx as [-> | Hx]].
      * eapply Qle_trans; [exact Hm|].
        destruct (qmin_cases q p) as [[-> _] | [-> ?]];
          [apply Qle_refl|done].
      * eapply Qle_trans; [exact Hm|].
        destruct (qmin_cases q p) as [[-> ?] | [-> _]];
          [done|apply Qle_refl].
      * apply Hle. by right.
Qed.

(** The maximum is one of the numbers and above them all. *)
Lemma foldl_qmax q qs :
  foldl qmax q qs ∈ q :: qs ∧ ∀ x, x ∈ q :: qs → Qle x (foldl qmax q qs).
Proof.
  revert q. induction qs as [|p qs IH]; intros q; simpl.
  - split; [by left|]. intros x ->%list_elem_of_singleton. apply Qle_refl.
  - destruct (IH (qmax q p)) as [Hin Hle]. split.
    + apply elem_of_cons in Hin as [Hin | Hin]; [|by do 2 right].
      rewrite Hin. destruct (qmax_cases q p) as [[-> _] | [-> _]];
        [right; by left|by left].
    + intros x Hx.
      assert (Qle (qmax q p) (foldl qmax (qmax q p) qs)) as Hm
        by (apply Hle; by left).
      apply elem_of_cons in Hx as [-> | Hx];
        [|apply elem_of_cons in Hx as [-> | Hx]].
      * eapply Qle_trans; [|exact Hm].
        destruct (qmax_cases q p) as [[-> ?] | [-> _]];
          [done|apply Qle_refl].
      * eapply Qle_trans; [|exact Hm].
        destruct (qmax_cases q p) as [[-> _] | [-> ?]];
          [apply Qle_refl|done].
      * apply Hle. by right.
Qed.

End SliderBounds.

Section Truncation.

Implicit Types (p q : Q) (k : Z).

Lemma int_of_inject_Z k : int_of (inject_Z k) = k.
Proof. unfold int_of. simpl. apply Z.quot_1_r. Qed.

Lemma int_of_common p q :
  int_of p = Z.quot (Qnum p * Zpos (Qden q)) (Zpos (Qden p) * Zpos (Qden q)).
Proof. unfold int_of. by rewrite Z.quot_mul_cancel_r. Qed.

(** Truncation is monotone. *)
Lemma int_of_le p q : Qle p q → (int_of p ≤ int_of q)%Z.
Proof.
  intros Hle. rewrite (int_of_common p q), (int_of_common q p).
  rewrite (Z.mul_comm (Zpos (Qden q)) (Zpos (Qden p))).
  apply Z.quot_le_mono; [lia|]. exact Hle.
Qed.

Lemma int_of_Qeq p q : Qeq p q → int_of p = int_of q.
Proof.
  intros Heq. apply Z.le_antisymm; apply int_of_le;
    rewrite Heq; apply Qle_refl.
Qed.

(** A number equal to an int truncates to it. *)
Lemma int_of_whole q k : Qeq q (inject_Z k) → int_of q = k.
Proof. intros ->%int_of_Qeq. apply int_of_inject_Z. Qed.

End Truncation.

Section SliderBoundsSpec.

Implicit Types (s : list cell) (df : DataFrame).

Lemma numbers_Ok_inv s qs : numbers s = Ok qs → qs = the_numbers s.
Proof.
  revert qs. induction s as [|v s IH]; intros qs; simpl.
  - by intros [= <-].
  - destruct v as [|q|a]; [by apply IH| |done].
    intros (qs' & ->%IH & [= <-])%bind_Ok. done.
Qed.

Lemma series_extreme_None pick s :
  Forall (λ v, v = NaN) s → series_extreme pick s = Ok None.
Proof.
  intros Hs. unfold series_extreme.
  rewrite numbers_the_numbers; [|by eapply Forall_impl; [done|intros ? ->]].
  simpl. by rewrite the_numbers_nil.
Qed.

(** What [slider_bounds] returns: the truncated least and greatest number
    of the column. *)
Lemma slider_bounds_Ok df name lo hi :
  slider_bounds df name = Ok (lo, hi) →
  ∃ least greatest,
    lo = int_of least ∧ hi = int_of greatest ∧
    (∃ r, r ∈ rows df ∧ cell_at name r = Num least) ∧
    (∃ r, r ∈ rows df ∧ cell_at name r = Num greatest) ∧
    ∀ r q, r ∈ rows df → cell_at name r = Num q →
           Qle least q ∧ Qle q greatest.
Proof.
  unfold slider_bounds, series_min, series_max, series_extreme.
  intros (c & [_ ->]%getitem_Ok_inv & H)%bind_Ok.
  apply bind_Ok in H as (lo' & Hlo & H).
  apply bind_Ok in H as (c' & [_ ->]%getitem_Ok_inv & H).
  apply bind_Ok in H as (hi' & Hhi & [= <- <-]).
  apply bind_Ok in Hlo as (least & Hleast & Hlo).
  apply bind_Ok in Hleast as (qs1 & ->%numbers_Ok_inv & [= <-]).
  apply bind_Ok in Hhi as (greatest & Hgreatest & Hhi).
  apply bind_Ok in Hgreatest as (qs2 & ->%numbers_Ok_inv & [= <-]).
  destruct (the_numbers (map (cell_at name) (rows df))) as [|q qs] eqn:E;
    [done|].
  injection Hlo as <-. injection Hhi as <-.
  assert (∀ x, x ∈ q :: qs ↔ ∃ r, r ∈ rows df ∧ cell_at name r = Num x)
    as Hnum.
  { intros x. rewrite <- E, elem_of_the_numbers, list_elem_of_fmap.
    split; intros (r & ? & ?); by exists r. }
  destruct (foldl_qmin q qs) as [Hmin_in Hmin], (foldl_qmax q qs)
    as [Hmax_in Hmax].
  exists (foldl qmin q qs), (foldl qmax q qs).
  split_and!; try done; try by apply Hnum.
  intros r x Hr Hx.
  assert (x ∈ q :: qs) as Hin by (apply Hnum; by exists r).
  split; [by apply Hmin|by apply Hmax].
Qed.

End SliderBoundsSpec.

(** ** The sidebar with its sliders *)

Section SidebarWithSliders.

Implicit Types (w : Widgets) (sl : Slider) (s : FilterSpec) (df : DataFrame).

(** The ranges play no part in lines 41-74. *)
Lemma sidebar_ranges w pr yr mn pr' yr' mn' df s :
  sidebar w pr yr mn df = Ok s →
  sidebar w pr' yr' mn' df
  = Ok {| ng := ng s; rt := rt s; co := co s; ag := ag s;
          host_type := host_type s;
          price_range := pr'; year_range := yr'; min_nights := mn' |}.
Proof.
  unfold sidebar. intros H.
  destruct (category_options df "neighbourhood group"); [|done].
  destruct (category_options df "room type"); [|done].
  destruct (category_options df "country"); [|done].
  simpl in *.
  destruct (if has_column "availability_group" df then _ else _); [|done].
  simpl in *. by injection H as <-.
Qed.

Lemma sidebar_succeeds w pr yr mn df :
  schema_ok df → succeeds (sidebar w pr yr mn df).
Proof.
  intros Hs. unfold sidebar, category_options.
  rewrite (getitem_Ok df "neighbourhood group"),
    (getitem_Ok df "room type"), (getitem_Ok df "country")
    by (apply schema_has_column; [done|by repeat constructor]).
  simpl. destruct (has_column "availability_group" df) eqn:E.
  - rewrite getitem_Ok by done. simpl. by eexists.
  - by eexists.
Qed.

Lemma st_slider_Ok sl label lo hi dflt (p : Z * Z) :
  st_slider sl label lo hi dflt = Ok p →
  slider_accepted lo hi = true ∧ p = sl label lo hi dflt.
Proof.
  unfold st_slider. destruct (slider_accepted lo hi); [|done].
  by intros [= <-].
Qed.

Lemma st_slider_accepted sl label lo hi dflt :
  slider_accepted lo hi = true →
  st_slider sl label lo hi dflt = Ok (sl label lo hi dflt).
Proof. unfold st_slider. by intros ->. Qed.

Lemma st_slider_cases sl label lo hi dflt :
  succeeds (st_slider sl label lo hi dflt) ∨
  (slider_accepted lo hi = false ∧
   st_slider sl label lo hi dflt = Raise StreamlitAPIException).
Proof.
  unfold st_slider. destruct (slider_accepted lo hi).
  - left. by eexists.
  - by right.
Qed.

Lemma sidebar_with_sliders_inv w sl df s :
  sidebar_with_sliders w sl df = Ok s →
  ∃ b1 b2 b3,
    slider_bounds df "price" = Ok b1 ∧
    slider_bounds df "Construction year" = Ok b2 ∧
    slider_bounds df "minimum nights" = Ok b3 ∧
    price_range s = sl "Price Range" b1.1 b1.2 b1 ∧
    year_range s = sl "Construction Year Range" b2.1 b2.2 b2 ∧
    min_nights s = sl "Minimum Nights" b3.1 b3.2 b3 ∧
    sidebar w (price_range s) (year_range s) (min_nights s) df = Ok s.
Proof.
  unfold sidebar_with_sliders.
  intros (s0 & Hs0 & (ranges & Hr & [= <-])%bind_Ok)%bind_Ok.
  unfold slider_ranges in Hr.
  apply bind_Ok in Hr as (b1 & Hb1 & Hr).
  apply bind_Ok in Hr as (p1 & [_ ->]%st_slider_Ok & Hr).
  apply bind_Ok in Hr as (b2 & Hb2 & Hr).
  apply bind_Ok in Hr as (p2 & [_ ->]%st_slider_Ok & Hr).
  apply bind_Ok in Hr as (b3 & Hb3 & Hr).
  apply bind_Ok in Hr as (p3 & [_ ->]%st_slider_Ok & [= <-]).
  exists b1, b2, b3. simpl. split_and!; try done.
  by apply (sidebar_ranges _ _ _ _ _ _ _ _ _ Hs0).
Qed.

Lemma slider_bounds_no_numbers df name :
  has_column name df = true →
  Forall (λ r, cell_at name r = NaN) (rows df) →
  slider_bounds df name = Raise ValueError.
Proof.
  intros Hc Hna. unfold slider_bounds. rewrite getitem_Ok by done. simpl.
  unfold series_min. rewrite series_extreme_None; [done|].
  by apply Forall_fmap.
Qed.

(** On a table with the filtered columns the bounds are computed, or the
    conversion of a missing extreme fails. *)
Lemma slider_bounds_cases df name :
  schema_ok df → name ∈ numeric_columns →
  succeeds (slider_bounds df name) ∨
  slider_bounds df name = Raise ValueError.
Proof.
  intros Hs Hname. unfold slider_bounds, series_min, series_max, series_extreme.
  assert (name ∈ required_columns) as Hreq.
  { unfold numeric_columns, required_columns in *.
    rewrite !elem_of_cons in Hname. rewrite !elem_of_cons.
    rewrite elem_of_nil in Hname. tauto. }
  rewrite !getitem_Ok by by apply schema_has_column.
  simpl. rewrite numbers_the_numbers by by apply schema_orderable.
  simpl.
  destruct (the_numbers (map (cell_at name) (rows df))); simpl.
  - by right.
  - left. by eexists.
Qed.

End SidebarWithSliders.

(** X4: the sidebar cannot be built for a table in which one of the three
    ranged columns holds no number, a table without rows in particular,
    although the filter statements would run on such a table.  The
    conversion of the column's missing minimum to an int raises ValueError
    (line 77, 80 or 83), unless the slider of an earlier ranged column was
    refused before (StreamlitAPIException): it is ValueError when the
    column is the price, the first one, and whenever the sliders of the
    columns whose bounds can be computed are accepted. *)
Theorem sidebar_raises_without_numbers (w : Widgets) (sl : Slider)
    (df : DataFrame) (name : string) :
  schema_ok df → name ∈ numeric_columns →
  Forall (λ r, cell_at name r = NaN) (rows df) →
  (sidebar_with_sliders w sl df = Raise ValueError ∨
   sidebar_with_sliders w sl df = Raise StreamlitAPIException) ∧
  (name = "price" → sidebar_with_sliders w sl df = Raise ValueError) ∧
  ((∀ c b, c ∈ numeric_columns → slider_bounds df c = Ok b →
      slider_accepted b.1 b.2 = true) →
   sidebar_with_sliders w sl df = Raise ValueError) ∧
  (∀ s, selection_ok df s → succeeds (filtered_of df s)).
Proof.
  intros Hs Hname Hna.
  assert (slider_bounds df name = Raise ValueError) as Hraise.
  { apply slider_bounds_no_numbers; [|done].
    apply schema_has_column; [done|].
    unfold numeric_columns, required_columns in *.
    rewrite !elem_of_cons in Hname. rewrite !elem_of_cons.
    rewrite elem_of_nil in Hname. tauto. }
  assert (sidebar_with_sliders w sl df = slider_ranges sl df ≫= λ _,
            Raise ValueError) as Hside.
  { unfold sidebar_with_sliders.
    destruct (sidebar_succeeds w (0, 0) (0, 0) (0, 0) df Hs) as [s0 ->].
    simpl. destruct (slider_ranges sl df) as [ranges|e] eqn:E; [|done].
    exfalso. unfold slider_ranges in E.
    apply bind_Ok in E as (b1 & Hb1 & E).
    apply bind_Ok in E as (p1 & _ & E).
    apply bind_Ok in E as (b2 & Hb2 & E).
    apply bind_Ok in E as (p2 & _ & E).
    apply bind_Ok in E as (b3 & Hb3 & _).
    unfold numeric_columns in Hname.
    repeat (apply elem_of_cons in Hname as [-> | Hname]; [congruence|]).
    by apply elem_of_nil in Hname. }
  rewrite Hside. clear Hside.
  assert ((∀ c b, c ∈ numeric_columns → slider_bounds df c = Ok b →
             slider_accepted b.1 b.2 = true) →
          slider_ranges sl df = Raise ValueError) as Haccepted.
  { intros Hacc. unfold slider_ranges.
    destruct (slider_bounds_cases df "price" Hs ltac:(by repeat constructor))
      as [[b1 H1] | ->]; [|done].
    rewrite H1. simpl.
    rewrite st_slider_accepted
      by (apply (Hacc "price"); [by repeat constructor|done]).
    simpl.
    destruct (slider_bounds_cases df "Construction year" Hs
                ltac:(by repeat constructor)) as [[b2 H2] | ->]; [|done].
    rewrite H2. simpl.
    rewrite st_slider_accepted
      by (apply (Hacc "Construction year"); [by repeat constructor|done]).
    simpl.
    destruct (slider_bounds_cases df "minimum nights" Hs
                ltac:(by repeat constructor)) as [[b3 H3] | ->]; [|done].
    exfalso. unfold numeric_columns in Hname.
    repeat (apply elem_of_cons in Hname as [-> | Hname]; [congruence|]).
    by apply elem_of_nil in Hname. }
  split_and!.
  - unfold slider_ranges.
    destruct (slider_bounds_cases df "price" Hs ltac:(by repeat constructor))
      as [[b1 H1] | ->]; [|by left].
    rewrite H1. simpl.
    destruct (st_slider_cases sl "Price Range" b1.1 b1.2 b1)
      as [[p1 ->] | [_ ->]]; [|by right]. simpl.
    destruct (slider_bounds_cases df "Construction year" Hs
                ltac:(by repeat constructor)) as [[b2 H2] | ->]; [|by left].
    rewrite H2. simpl.
    destruct (st_slider_cases sl "Construction Year Range" b2.1 b2.2 b2)
      as [[p2 ->] | [_ ->]]; [|by right]. simpl.
    destruct (slider_bounds_cases df "minimum nights" Hs
                ltac:(by repeat constructor)) as [[b3 H3] | ->]; [|by left].
    rewrite H3. simpl.
    destruct (st_slider_cases sl "Minimum Nights" b3.1 b3.2 b3)
      as [[p3 ->] | [_ ->]]; [by left|by right].
  - intros ->. unfold slider_ranges. by rewrite Hraise.
  - intros Hacc. by rewrite (Haccepted Hacc).
  - intros s Hsel. by apply filtered_of_succeeds_iff.
Qed.

Lemma sidebar_raises_without_numbers_witness :
  (sidebar_with_sliders untouched slider_untouched no_listings
     = Raise ValueError ∨
   sidebar_with_sliders untouched slider_untouched no_listings
     = Raise StreamlitAPIException) ∧
  ("price" = "price" →
   sidebar_with_sliders untouched slider_untouched no_listings
     = Raise ValueError) ∧
  ((∀ c b, c ∈ numeric_columns → slider_bounds no_listings c = Ok b →
      slider_accepted b.1 b.2 = true) →
   sidebar_with_sliders untouched slider_untouched no_listings
     = Raise ValueError) ∧
  (∀ s, selection_ok no_listings s → succeeds (filtered_of no_listings s)).
Proof.
  apply (sidebar_raises_without_numbers untouched slider_untouched
           no_listings "price").
  - schema_by_computation.
  - by left.
  - constructor.
Defined.

Example sidebar_on_no_listings :
  sidebar_with_sliders untouched slider_untouched no_listings
  = Raise ValueError.
Proof. vm_compute. reflexivity. Qed.

(** A slider whose two bounds coincide is refused: the sidebar cannot be
    built for a table with one price. *)
Example sidebar_on_one_listing :
  slider_bounds big_hosts_only "price" = Ok (60, 60) ∧
  sidebar_with_sliders untouched slider_untouched big_hosts_only
  = Raise StreamlitAPIException.
Proof. split; vm_compute; reflexivity. Qed.

Section DefaultView.

Implicit Types (w : Widgets) (sl : Slider) (s : FilterSpec) (df : DataFrame)
  (r : gmap string cell) (v : cell).

Lemma existsb_filter_nil {A} (f : A → bool) (xs : list A) :
  existsb f xs = negb (Nat.eqb (length (List.filter f xs)) 0).
Proof.
  induction xs as [|x xs IH]; simpl; [done|].
  destruct (f x); simpl; [done|exact IH].
Qed.

(** A value is among the distinct values exactly when it is in the
    Series. *)
Lemma existsb_unique v (l : list cell) :
  existsb (isin_eqb v) (unique l) = existsb (isin_eqb v) l.
Proof.
  rewrite (existsb_filter_nil _ (unique l)), count_unique.
  by destruct (existsb (isin_eqb v) l).
Qed.

(** Every value the column holds can be picked, and a missing value
    cannot. *)
Lemma member_options name df r :
  r ∈ rows df →
  member name (unique (dropna (map (cell_at name) (rows df)))) r
  = negb (isna (cell_at name r)).
Proof.
  intros Hr. unfold member. rewrite existsb_unique.
  destruct (cell_at name r) as [|q|a] eqn:E; simpl.
  - apply not_true_is_false. intros (x & Hx & Hnan)%existsb_exists.
    apply list_elem_of_In, dropna_elem in Hx as [_ Hx]. by destruct x.
  - apply existsb_exists. exists (Num q). split.
    + apply list_elem_of_In. unfold dropna.
      apply list_elem_of_In, filter_In. split; [|done].
      apply list_elem_of_In, list_elem_of_fmap. by exists r.
    + apply isin_eqb_reflexive.
  - apply existsb_exists. exists (Str a). split.
    + apply list_elem_of_In. unfold dropna.
      apply list_elem_of_In, filter_In. split; [|done].
      apply list_elem_of_In, list_elem_of_fmap. by exists r.
    + apply isin_eqb_reflexive.
Qed.

(** Shown rows lie within the slider's pair. *)
Lemma geb_leb_in_range lo hi v :
  geb lo v = true → leb hi v = true → in_range v (lo, hi).
Proof. intros H1 H2. apply between_in_range. by rewrite H1, H2. Qed.

(** A whole number of the column lies within the bounds computed from the
    column, when the column holds whole numbers only. *)
Lemma whole_within_bounds df name lo hi r :
  slider_bounds df name = Ok (lo, hi) →
  Forall (λ r, whole (cell_at name r)) (rows df) →
  r ∈ rows df →
  geb lo (cell_at name r) = negb (isna (cell_at name r)) ∧
  leb hi (cell_at name r) = negb (isna (cell_at name r)).
Proof.
  intros Hb Hwhole Hr.
  apply slider_bounds_Ok in Hb
    as (least & greatest & -> & -> & (r1 & Hr1 & H1) & (r2 & Hr2 & H2) & Hle).
  rewrite Forall_forall in Hwhole.
  pose proof (Hwhole r1 Hr1) as Hw1. rewrite H1 in Hw1.
  pose proof (Hwhole r2 Hr2) as Hw2. rewrite H2 in Hw2.
  pose proof (Hwhole r Hr) as Hw.
  destruct (cell_at name r) as [|q|a] eqn:E; simpl in *; [done| |done].
  destruct (Hle r q Hr E) as [Hlo Hhi].
  split; apply Qle_bool_iff.
  - by rewrite <- Hw1.
  - by rewrite <- Hw2.
Qed.

Lemma whole_orderable v : whole v → orderable v = true.
Proof. by destruct v. Qed.

Lemma whole_columns_schema df : whole_columns df → schema_ok df.
Proof.
  intros [Hc Hw]. split; [done|].
  eapply Forall_impl; [exact Hw|]. intros c Hr. simpl in Hr.
  eapply Forall_impl; [exact Hr|]. intros r. apply whole_orderable.
Qed.

End DefaultView.

Section DefaultSelection.

Implicit Types (w : Widgets) (sl : Slider) (s : FilterSpec) (df : DataFrame)
  (r : gmap string cell).

Lemma category_options_inv df name o :
  category_options df name = Ok o →
  o = unique (dropna (map (cell_at name) (rows df))).
Proof.
  unfold category_options.
  by intros (c & [_ ->]%getitem_Ok_inv & [= <-])%bind_Ok.
Qed.

(** What the sidebar hands over when every widget is left as it first
    shows. *)
Lemma default_selection_fields w sl df s :
  leaves_defaults w sl → sidebar_with_sliders w sl df = Ok s →
  ng s = unique (dropna (map (cell_at "neighbourhood group") (rows df))) ∧
  rt s = unique (dropna (map (cell_at "room type") (rows df))) ∧
  co s = unique (dropna (map (cell_at "country") (rows df))) ∧
  ag s = Str "All" ∧ host_type s = Str "All" ∧
  slider_bounds df "price" = Ok (price_range s) ∧
  slider_bounds df "Construction year" = Ok (year_range s) ∧
  slider_bounds df "minimum nights" = Ok (min_nights s).
Proof.
  intros (Hmulti & Hbox & Hslide) Hside.
  apply sidebar_with_sliders_inv in Hside
    as (b1 & b2 & b3 & Hb1 & Hb2 & Hb3 & Hp & Hy & Hn & Hside).
  rewrite Hslide in Hp, Hy, Hn.
  apply sidebar_inv in Hside
    as (o1 & o2 & o3 & Ho1 & Ho2 & Ho3 & Hng & Hrt & Hco & Hag & Hhost & _).
  rewrite Hmulti in Hng, Hrt, Hco.
  apply category_options_inv in Ho1, Ho2, Ho3.
  split_and!; try congruence.
  - destruct (has_column "availability_group" df); [|done].
    destruct Hag as [o ->]. apply Hbox.
  - rewrite Hhost. destruct (has_column "host_is_big" df); [|done].
    apply Hbox.
Qed.

End DefaultSelection.

(** X5: with every widget left as it first shows, on a table whose three
    ranged columns hold whole numbers (or missing values), the dashboard
    shows exactly the rows that have a value in each of the six filtered
    columns, in their order: the default view is the table without its
    incomplete rows. *)
Theorem default_view_drops_incomplete_rows (w : Widgets) (sl : Slider)
    (df : DataFrame) (s : FilterSpec) :
  leaves_defaults w sl → whole_columns df →
  sidebar_with_sliders w sl df = Ok s →
  filtered_of df s
  = Ok (mkDataFrame (columns df) (List.filter complete (rows df))).
Proof.
  intros Hdef Hwhole Hside.
  destruct (default_selection_fields _ _ _ _ Hdef Hside)
    as (Hng & Hrt & Hco & Hag & Hhost & Hp & Hy & Hn).
  pose proof (whole_columns_schema _ Hwhole) as Hs.
  rewrite filtered_of_rows; [|done|].
  2: { split; intros Hpick; [rewrite Hag in Hpick|rewrite Hhost in Hpick];
       done. }
  do 2 f_equal. apply filter_ext_in. intros r Hr%list_elem_of_In.
  unfold passes, availability_passes, host_passes.
  rewrite Hag, Hhost. simpl. rewrite !andb_true_r.
  unfold main_passes, complete. rewrite Hng, Hrt, Hco.
  rewrite !member_options by done.
  destruct Hwhole as [_ Hwhole]. unfold numeric_columns in Hwhole.
  apply Forall_cons in Hwhole as [Hw1 Hwhole].
  apply Forall_cons in Hwhole as [Hw2 Hwhole].
  apply Forall_cons in Hwhole as [Hw3 _].
  destruct (price_range s) as [plo phi], (year_range s) as [ylo yhi],
    (min_nights s) as [nlo nhi].
  cbn [fst snd].
  destruct (whole_within_bounds _ _ _ _ r Hp Hw1 Hr) as [-> ->].
  destruct (whole_within_bounds _ _ _ _ r Hy Hw2 Hr) as [-> ->].
  destruct (whole_within_bounds _ _ _ _ r Hn Hw3 Hr) as [-> ->].
  simpl.
  destruct (isna (cell_at "neighbourhood group" r)),
    (isna (cell_at "room type" r)), (isna (cell_at "country" r)),
    (isna (cell_at "price" r)), (isna (cell_at "Construction year" r)),
    (isna (cell_at "minimum nights" r)); reflexivity.
Qed.

Example untouched_sidebar_on_listings :
  sidebar_with_sliders at_defaults slider_untouched listings
  = Ok untouched_selection.
Proof. vm_compute. reflexivity. Qed.

Lemma at_defaults_leaves_defaults : leaves_defaults at_defaults slider_untouched.
Proof. split_and!; intros; reflexivity. Defined.

Lemma listings_whole_columns : whole_columns listings.
Proof. split; repeat constructor. Defined.

Lemma default_view_drops_incomplete_rows_witness :
  filtered_of listings untouched_selection
  = Ok (mkDataFrame (columns listings) (List.filter complete (rows listings))).
Proof.
  apply (default_view_drops_incomplete_rows at_defaults slider_untouched
           listings untouched_selection).
  - exact at_defaults_leaves_defaults.
  - exact listings_whole_columns.
  - vm_compute. reflexivity.
Defined.

Section TruncatedBounds.

Implicit Types (q : Q) (v : cell).

(** Truncation of a number that is not negative does not exceed it. *)
Lemma int_of_below q : Qle (inject_Z 0) q → Qle (inject_Z (int_of q)) q.
Proof.
  destruct q as [a b]. unfold Qle, int_of. simpl. intros Ha.
  rewrite Z.mul_1_r in *.
  pose proof (Z.mul_quot_le a (Zpos b) ltac:(lia) ltac:(lia)). lia.
Qed.

Lemma in_range_widen v a b lo hi :
  (lo ≤ a)%Z → (b ≤ hi)%Z → in_range v (a, b) → in_range v (lo, hi).
Proof.
  intros Hlo Hhi (q & -> & Ha & Hb). exists q. split; [done|].
  rewrite Zle_Qle in Hlo, Hhi. simpl in *.
  split; eapply Qle_trans; eauto.
Qed.

End TruncatedBounds.

(** X6: wherever the user sets the price slider, every listing shown has
    its price between the truncated extremes [int(min)] and [int(max)]
    of the price column.  So a listing priced above [int(max)] is never
    shown; in particular the most expensive listing is never shown when
    its price is positive and not a whole number. *)
Theorem shown_prices_within_truncated_bounds (w : Widgets) (sl : Slider)
    (df : DataFrame) (s : FilterSpec) (lo hi : Z) (out : DataFrame) :
  slides_within_bounds sl →
  sidebar_with_sliders w sl df = Ok s →
  slider_bounds df "price" = Ok (lo, hi) →
  filtered_of df s = Ok out →
  (∀ r, r ∈ rows out → in_range (cell_at "price" r) (lo, hi)) ∧
  (∀ r q, r ∈ rows df → cell_at "price" r = Num q →
     Qlt (inject_Z hi) q → r ∉ rows out) ∧
  (∀ r q, r ∈ rows df → cell_at "price" r = Num q →
     (∀ r' q', r' ∈ rows df → cell_at "price" r' = Num q' → Qle q' q) →
     Qlt (inject_Z 0) q → ¬ whole (Num q) → r ∉ rows out).
Proof.
  intros Hsl Hside Hb Hout.
  pose proof (slider_bounds_Ok _ _ _ _ Hb)
    as (least & greatest & -> & -> & (r1 & Hr1 & H1) & (r2 & Hr2 & H2) & Hle).
  assert (int_of least ≤ int_of greatest)%Z as Hordered.
  { apply int_of_le. by apply (Hle r1 least). }
  assert (∀ r, r ∈ rows out →
            in_range (cell_at "price" r) (int_of least, int_of greatest))
    as Hin.
  { assert (succeeds (filtered_of df s)) as [Hs Hsel]%filtered_of_succeeds_iff
      by by eexists.
    rewrite filtered_of_rows in Hout by done. injection Hout as <-.
    intros r [_ Hsat]%elem_of_filter_passes.
    destruct Hsat as (_ & Hprice & _). unfold sat_price in Hprice.
    apply sidebar_with_sliders_inv in Hside
      as (b1 & _ & _ & Hb1 & _ & _ & Hp & _).
    rewrite Hb in Hb1. injection Hb1 as <-.
    rewrite Hp in Hprice. simpl in Hprice.
    destruct (Hsl "Price Range" (int_of least) (int_of greatest)
                (int_of least, int_of greatest) Hordered) as (Ha & _ & Hc).
    destruct (sl "Price Range" _ _ _) as [a b].
    by eapply in_range_widen. }
  assert (∀ r q, r ∈ rows df → cell_at "price" r = Num q →
            Qlt (inject_Z (int_of greatest)) q → r ∉ rows out) as Hover.
  { intros r q _ Hq Hlt Hr. destruct (Hin r Hr) as (q' & Hq' & _ & Hle').
    rewrite Hq in Hq'. injection Hq' as <-. simpl in Hle'.
    by apply Qlt_not_le in Hlt. }
  split_and!; [done|done|].
  intros r q Hr Hq Hmax Hpos Hfrac. apply (Hover r q Hr Hq).
  assert (Qeq greatest q) as Heq.
  { apply Qle_antisym; [exact (Hmax r2 greatest Hr2 H2)|].
    by apply (Hle r q). }
  rewrite (int_of_Qeq _ _ Heq).
  assert (Qle (inject_Z (int_of q)) q) as Hbelow
    by by apply int_of_below, Qlt_le_weak.
  apply Qle_lteq in Hbelow as [Hlt | Heq']; [done|].
  exfalso. apply Hfrac. simpl. by symmetry.
Qed.

Example untouched_sidebar_on_fractional_listings :
  sidebar_with_sliders at_defaults slider_untouched fractional_listings
  = Ok fractional_selection.
Proof. vm_compute. reflexivity. Qed.

Example most_expensive_listing_is_not_shown :
  filtered_of fractional_listings fractional_selection
  = Ok (mkDataFrame listing_columns [home_50; room_50]).
Proof. vm_compute. reflexivity. Qed.

Lemma slider_wide_open_within_bounds : slides_within_bounds slider_wide_open.
Proof. intros label lo hi dflt Hle. simpl. lia. Defined.

Lemma shown_prices_within_truncated_bounds_witness :
  (∀ r, r ∈ [home_50; room_50] → in_range (cell_at "price" r) (50, 99)) ∧
  (∀ r q, r ∈ rows fractional_listings → cell_at "price" r = Num q →
     Qlt (inject_Z 99) q → r ∉ [home_50; room_50]) ∧
  (∀ r q, r ∈ rows fractional_listings → cell_at "price" r = Num q →
     (∀ r' q', r' ∈ rows fractional_listings →
               cell_at "price" r' = Num q' → Qle q' q) →
     Qlt (inject_Z 0) q → ¬ whole (Num q) → r ∉ [home_50; room_50]).
Proof.
  apply (shown_prices_within_truncated_bounds at_defaults slider_wide_open
           fractional_listings fractional_selection 50 99
           (mkDataFrame listing_columns [home_50; room_50])).
  - exact slider_wide_open_within_bounds.
  - vm_compute. reflexivity.
  - vm_compute. reflexivity.
  - vm_compute. reflexivity.
Defined.

(** ** Unpacking the archive *)

Section Unpacking.

Implicit Types (fs : gmap string file) (ms : list (string * blob)) (k : string).

(** The file system after the members [ms] were written over [fs]. *)
Lemma extractall_Zip fs ms :
  fs !! zip_path = Some (Zip ms) →
  unpack_archive fs
  = Ok (foldl (λ acc m, <[m.1 := Plain m.2]> acc) fs ms).
Proof.
  intros Hzip. unfold unpack_archive, path_exists, extractall.
  rewrite Hzip. by rewrite bool_decide_true by by eexists.
Qed.

Lemma written_snoc fs ms (m : string * blob) :
  foldl (λ acc m, <[m.1 := Plain m.2]> acc) fs (ms ++ [m])
  = <[m.1 := Plain m.2]> (foldl (λ acc m, <[m.1 := Plain m.2]> acc) fs ms).
Proof. by rewrite foldl_app. Qed.

(** A path no member is named as is left alone. *)
Lemma written_other fs ms k :
  k ∉ ms.*1 →
  foldl (λ acc m, <[m.1 := Plain m.2]> acc) fs ms !! k = fs !! k.
Proof.
  induction ms as [|m ms IH] using rev_ind; [done|].
  rewrite fmap_app, not_elem_of_app. intros [Hms Hm].
  rewrite written_snoc, lookup_insert_ne; [by apply IH|].
  intros <-. apply Hm. by left.
Qed.

(** What is found at a member's path does not depend on what was there. *)
Lemma written_member fs fs' ms k :
  k ∈ ms.*1 →
  foldl (λ acc m, <[m.1 := Plain m.2]> acc) fs ms !! k
  = foldl (λ acc m, <[m.1 := Plain m.2]> acc) fs' ms !! k.
Proof.
  induction ms as [|m ms IH] using rev_ind.
  - intros H. by apply elem_of_nil in H.
  - rewrite fmap_app, elem_of_app, !written_snoc. intros Hk.
    destruct (decide (m.1 = k)) as [<- | Hne].
    + by rewrite !lookup_insert_eq.
    + rewrite !lookup_insert_ne by done. apply IH.
      destruct Hk as [Hk | Hk]; [done|].
      apply list_elem_of_singleton in Hk. congruence.
Qed.

(** Unpacking again changes nothing. *)
Lemma written_twice fs ms :
  foldl (λ acc m, <[m.1 := Plain m.2]> acc)
        (foldl (λ acc m, <[m.1 := Plain m.2]> acc) fs ms) ms
  = foldl (λ acc m, <[m.1 := Plain m.2]> acc) fs ms.
Proof.
  apply map_eq. intros k.
  destruct (decide (k ∈ ms.*1)) as [Hk | Hk].
  - by apply written_member.
  - by rewrite written_other.
Qed.

End Unpacking.

(** X7: loading twice loads the same.  When [load_data] has returned a
    table and left the file system [fs1], running it again on [fs1]
    returns the same table and leaves [fs1] as it is, provided the archive
    does not hold a member under its own name. *)
Theorem load_data_again (fs fs1 : gmap string file) (df : DataFrame) :
  load_data fs = Ok (df, fs1) →
  (∀ ms, fs !! zip_path = Some (Zip ms) → zip_path ∉ ms.*1) →
  load_data fs1 = Ok (df, fs1).
Proof.
  unfold load_data.
  intros (fs' & Hunpack & (raw & Hread & [= <- <-])%bind_Ok)%bind_Ok Hown.
  assert (unpack_archive fs' = Ok fs') as ->; [|by simpl; rewrite Hread].
  destruct (fs !! zip_path) as [[b|ms]|] eqn:Hzip.
  - unfold unpack_archive, path_exists, extractall in Hunpack.
    rewrite Hzip in Hunpack.
    by rewrite bool_decide_true in Hunpack by by eexists.
  - rewrite (extractall_Zip _ _ Hzip) in Hunpack. injection Hunpack as <-.
    rewrite (extractall_Zip _ ms).
    + by rewrite written_twice.
    + rewrite written_other; [done|]. by apply Hown.
  - rewrite unpack_without_archive in Hunpack by done.
    injection Hunpack as <-. by apply unpack_without_archive.
Qed.

Lemma load_data_again_witness :
  load_data (<[csv_path := Plain (Csv export)]> disk_with_zip)
  = Ok (mkDataFrame ["NAME"; "price"]
          [ {[ "NAME" := Str "Loft"; "price" := num 50 ]};
            {[ "NAME" := Str "Studio"; "price" := num 60 ]} ],
        <[csv_path := Plain (Csv export)]> disk_with_zip).
Proof.
  apply (load_data_again disk_with_zip).
  - vm_compute. reflexivity.
  - intros ms Hms. injection Hms as <-.
    intros Hin. apply list_elem_of_singleton in Hin. discriminate Hin.
Defined.

(** X8: the archive wins over the CSV on disk.  When the archive exists
    and the last of its members named as the CSV parses to [t], the loader
    returns [t] without its "Unnamed" columns whatever CSV the disk held,
    and leaves that member in the CSV's place. *)
Theorem archive_overrides_csv (fs : gmap string file)
    (before after : list (string * blob)) (t : DataFrame) :
  fs !! zip_path = Some (Zip (before ++ (csv_path, Csv t) :: after)) →
  csv_path ∉ after.*1 →
  ∃ fs1, load_data fs
         = Ok (loc_columns (λ c, negb (contains_Unnamed c)) t, fs1) ∧
         fs1 !! csv_path = Some (Plain (Csv t)).
Proof.
  intros Hzip Hlast. unfold load_data.
  rewrite (extractall_Zip _ _ Hzip). simpl.
  set (fs1 := foldl _ fs _).
  assert (fs1 !! csv_path = Some (Plain (Csv t))) as Hcsv.
  { unfold fs1. rewrite foldl_app. simpl.
    rewrite written_other by done. apply lookup_insert_eq. }
  exists fs1. unfold read_csv. by rewrite Hcsv.
Qed.

Lemma archive_overrides_csv_witness :
  ∃ fs1, load_data disk_with_both
         = Ok (loc_columns (λ c, negb (contains_Unnamed c)) export, fs1) ∧
         fs1 !! csv_path = Some (Plain (Csv export)).
Proof.
  apply (archive_overrides_csv disk_with_both [("notes.txt", Opaque)] []).
  - vm_compute. reflexivity.
  - intros Hin. by apply elem_of_nil in Hin.
Defined.

(** ** Pages on the filtered table *)

Section PagesOnFiltered.

Implicit Types (df out : DataFrame) (s : FilterSpec).

Lemma getitem_KeyError df name :
  has_column name df = false → getitem df name = Raise (KeyError name).
Proof. unfold getitem. by intros ->. Qed.

(** Whatever the widgets return for a table without the host column is a
    selection the filter statements run on. *)
Lemma sidebar_selection_without_host w pr yr mn df s :
  has_column "host_is_big" df = false →
  sidebar w pr yr mn df = Ok s → selection_ok df s.
Proof.
  intros Hno Hside.
  apply sidebar_inv in Hside
    as (_ & _ & _ & _ & _ & _ & _ & _ & _ & Hag & Hhost & _).
  rewrite Hno in Hhost. split.
  - intros Hpick. destruct (has_column "availability_group" df); [done|].
    by rewrite Hag in Hpick.
  - intros Hpick. by rewrite Hhost in Hpick.
Qed.

End PagesOnFiltered.

(** X9: the Host Dynamics page is not guarded as the sidebar is.  On a
    table without the column [host_is_big] the sidebar and the filter
    statements run, and then both host charts of the page raise KeyError;
    the availability chart of the Demand page, which checks for its
    column, is skipped instead. *)
Theorem host_page_raises_without_column (w : Widgets) (pr yr mn : Z * Z)
    (df : DataFrame) (s : FilterSpec) :
  schema_ok df → has_column "host_is_big" df = false →
  sidebar w pr yr mn df = Ok s →
  ∃ out, filtered_of df s = Ok out ∧
    host_type_distribution out = Raise (KeyError "host_is_big") ∧
    average_price_by_host_type out = Raise (KeyError "host_is_big") ∧
    (has_column "availability_group" df = false →
     average_price_by_availability out = Ok None).
Proof.
  intros Hs Hno Hside.
  pose proof (sidebar_selection_without_host _ _ _ _ _ _ Hno Hside) as Hsel.
  eexists. split; [by apply filtered_of_rows|]. split_and!.
  - unfold host_type_distribution, column_counts.
    by rewrite (getitem_KeyError _ "host_is_big") by exact Hno.
  - unfold average_price_by_host_type, groupby_mean.
    by rewrite (getitem_KeyError _ "host_is_big") by exact Hno.
  - intros Hav. unfold average_price_by_availability.
    rewrite has_column_filtered. by rewrite Hav.
Qed.

Lemma host_page_raises_without_column_witness :
  ∃ out, filtered_of bare_listings default_selection = Ok out ∧
    host_type_distribution out = Raise (KeyError "host_is_big") ∧
    average_price_by_host_type out = Raise (KeyError "host_is_big") ∧
    (has_column "availability_group" bare_listings = false →
     average_price_by_availability out = Ok None).
Proof.
  apply (host_page_raises_without_column picks_last (50, 60) (2000, 2020)
           (1, 30) bare_listings default_selection).
  - schema_by_computation.
  - reflexivity.
  - vm_compute. reflexivity.
Defined.

Section PageLemmas.

Implicit Types (r : gmap string cell).

Lemma mapM_Ok_map {A B} (f : A → result B) (g : A → B) (l : list A) :
  (∀ x, x ∈ l → f x = Ok (g x)) → mapM f l = Ok (map g l).
Proof.
  induction l as [|x l IH]; intros Hf; simpl; [done|].
  rewrite (Hf x) by by left. simpl.
  rewrite IH by (intros y Hy; apply Hf; by right). done.
Qed.

Lemma length_filter_map {A B} (p : B → bool) (f : A → B) (xs : list A) :
  length (List.filter p (map f xs)) = length (List.filter (λ x, p (f x)) xs).
Proof.
  induction xs as [|x xs IH]; simpl; [done|].
  destruct (p (f x)); simpl; by rewrite IH.
Qed.

Lemma eq_scalar_isin_eqb (v x : cell) :
  x ≠ NaN → eq_scalar v x = isin_eqb x v.
Proof. intros Hx. rewrite isin_eqb_sym. by destruct v, x. Qed.

(** A missing value stays among the distinct values. *)
Lemma unique_keeps_missing (l : list cell) : NaN ∈ l → NaN ∈ unique l.
Proof.
  induction l as [|v l IH]; simpl; [done|].
  intros [<- | Hin]%elem_of_cons; [by left|].
  destruct v as [|q|a]; [by left| |]; right;
    apply list_elem_of_In, filter_In;
    (split; [by apply list_elem_of_In, IH|done]).
Qed.

(** The price Series of the box plot, one per distinct room type. *)
Lemma price_by_room_type_Ok (df2 : DataFrame) :
  has_column "room type" df2 = true → has_column "price" df2 = true →
  price_by_room_type df2
  = Ok (map (λ x, map (cell_at "price")
                    (List.filter (λ r, eq_scalar (cell_at "room type" r) x)
                                 (rows df2)))
            (unique (map (cell_at "room type") (rows df2))),
        unique (map (cell_at "room type") (rows df2))).
Proof.
  intros Hroom Hprice. unfold price_by_room_type.
  rewrite !getitem_Ok by done. simpl.
  rewrite (mapM_Ok_map _
    (λ x, map (cell_at "price")
            (List.filter (λ r, eq_scalar (cell_at "room type" r) x)
                         (rows df2)))); [done|].
  intros x _. rewrite filter_by_column_eq by done. simpl.
  by rewrite getitem_Ok by done.
Qed.

End PageLemmas.

(** X11: the box plot "Price by Room Type" gets one price Series per
    label.  When no row of the table misses its room type (as on every
    filtered table) no Series is empty and together they hold one price
    cell per row; a row missing its room type adds the label NaN with an
    empty Series. *)
Theorem box_plot_groups_partition_rows (df2 : DataFrame) :
  has_column "room type" df2 = true → has_column "price" df2 = true →
  ∃ grouped labels,
    price_by_room_type df2 = Ok (grouped, labels) ∧
    length grouped = length labels ∧
    (Forall (λ r, cell_at "room type" r ≠ NaN) (rows df2) →
       Forall (λ g, g ≠ []) grouped ∧
       sum_list (map length grouped) = length (rows df2)) ∧
    ((∃ r, r ∈ rows df2 ∧ cell_at "room type" r = NaN) →
       NaN ∈ labels ∧ [] ∈ grouped).
Proof.
  intros Hroom Hprice. eexists. eexists.
  split; [by apply price_by_room_type_Ok|].
  set (c := map (cell_at "room type") (rows df2)).
  split; [by rewrite length_map|]. split.
  - intros Hall.
    assert (∀ x, x ∈ unique c → x ≠ NaN ∧ x ∈ c) as Hlabel.
    { intros x Hx%unique_subset. split; [|done]. unfold c in Hx.
      apply list_elem_of_fmap in Hx as (r & -> & Hr).
      rewrite Forall_forall in Hall. by apply Hall. }
    assert (∀ x, x ∈ unique c →
              length (map (cell_at "price")
                (List.filter (λ r, eq_scalar (cell_at "room type" r) x)
                             (rows df2)))
              = length (List.filter (isin_eqb x) c)) as Hsize.
    { intros x [Hx _]%Hlabel. rewrite length_map. unfold c.
      rewrite length_filter_map. f_equal. apply List.filter_ext.
      intros r. by apply eq_scalar_isin_eqb. }
    split.
    + apply Forall_forall. intros g (x & -> & Hx)%list_elem_of_fmap.
      intros Hnil. apply (f_equal length) in Hnil.
      rewrite (Hsize x Hx) in Hnil. destruct (Hlabel x Hx) as [_ Hin].
      assert (In x (List.filter (isin_eqb x) c)) as Hf.
      { apply filter_In. split; [by apply list_elem_of_In|].
        apply isin_eqb_reflexive. }
      by destruct (List.filter (isin_eqb x) c).
    + rewrite map_map. rewrite (sum_list_ext _ _ _ Hsize).
      rewrite counts_add_up. unfold c. by rewrite length_map.
  - intros (r & Hr & Hmiss).
    assert (NaN ∈ unique c) as Hin.
    { apply unique_keeps_missing. unfold c. rewrite <- Hmiss.
      apply list_elem_of_fmap. by exists r. }
    split; [done|].
    apply list_elem_of_fmap. exists NaN. split; [|done].
    rewrite filter_none; [done|]. intros r'.
    by destruct (cell_at "room type" r').
Qed.

Lemma box_plot_groups_partition_rows_witness :
  ∃ grouped labels,
    price_by_room_type listings = Ok (grouped, labels) ∧
    length grouped = length labels ∧
    (Forall (λ r, cell_at "room type" r ≠ NaN) (rows listings) →
       Forall (λ g, g ≠ []) grouped ∧
       sum_list (map length grouped) = length (rows listings)) ∧
    ((∃ r, r ∈ rows listings ∧ cell_at "room type" r = NaN) →
       NaN ∈ labels ∧ [] ∈ grouped).
Proof.
  apply (box_plot_groups_partition_rows listings); reflexivity.
Defined.

Section GeoPage.

Lemma dropna_subset_coordinates (df2 : DataFrame) :
  has_column "lat" df2 = true → has_column "long" df2 = true →
  dropna_subset ["lat"; "long"] df2
  = Ok (mkDataFrame (columns df2) (List.filter located (rows df2))).
Proof.
  intros Hlat Hlong. unfold dropna_subset. simpl.
  rewrite Hlat, Hlong. simpl. do 2 f_equal.
  apply List.filter_ext. intros r. unfold located. by rewrite andb_true_r.
Qed.

Lemma located_iff (r : gmap string cell) :
  located r = true ↔ cell_at "lat" r ≠ NaN ∧ cell_at "long" r ≠ NaN.
Proof.
  unfold located. rewrite andb_true_iff.
  destruct (cell_at "lat" r), (cell_at "long" r); simpl;
    (split; intros [? ?]; by split).
Qed.

(** What page 8 does, case by case. *)
Lemma geo_page_cases (df2 : DataFrame) :
  geo_page df2
  = if has_column "lat" df2 && has_column "long" df2
    then if has_column "price" df2 && has_column "NAME" df2
         then Ok (Some (List.filter located (rows df2)))
         else Raise ValueError
    else Ok None.
Proof.
  unfold geo_page.
  destruct (has_column "lat" df2) eqn:Hlat; [|done].
  destruct (has_column "long" df2) eqn:Hlong; [|done]. simpl.
  rewrite dropna_subset_coordinates by done. simpl.
  unfold scatter_geo. simpl.
  change (has_column ?c {| columns := columns df2; rows := _ |})
    with (has_column c df2).
  rewrite Hlat, Hlong. simpl. rewrite andb_true_r.
  by destruct (has_column "price" df2 && has_column "NAME" df2).
Qed.

End GeoPage.

(** X10: the map of page 8 plots exactly the rows of the table that have
    both coordinates, in the table's order.  When the column [lat] or
    [long] is absent the page shows its notice and does not raise; the
    only failure of the page is plotly's ValueError when the table lacks
    the colour column [price] or the hover column [NAME]. *)
Theorem geo_page_plots_located_rows (df2 : DataFrame) :
  (has_column "lat" df2 = false ∨ has_column "long" df2 = false →
     geo_page df2 = Ok None) ∧
  (∀ points, geo_page df2 = Ok (Some points) →
     points `sublist_of` rows df2 ∧
     ∀ r, r ∈ points ↔
          r ∈ rows df2 ∧ cell_at "lat" r ≠ NaN ∧ cell_at "long" r ≠ NaN) ∧
  (∀ e, geo_page df2 = Raise e →
     e = ValueError ∧
     (has_column "price" df2 = false ∨ has_column "NAME" df2 = false)) ∧
  (has_column "lat" df2 = true → has_column "long" df2 = true →
   has_column "price" df2 = true → has_column "NAME" df2 = true →
     ∃ points, geo_page df2 = Ok (Some points)).
Proof.
  rewrite geo_page_cases. split_and!.
  - intros [-> | ->]; [done|]. by rewrite andb_false_r.
  - intros points Hpoints.
    destruct (has_column "lat" df2 && has_column "long" df2); [|done].
    destruct (has_column "price" df2 && has_column "NAME" df2); [|done].
    injection Hpoints as <-. split; [apply filter_sublist|].
    intros r. rewrite list_elem_of_In, filter_In, located_iff.
    by rewrite list_elem_of_In.
  - intros e He.
    destruct (has_column "lat" df2 && has_column "long" df2); [|done].
    destruct (has_column "price" df2) eqn:Hp,
      (has_column "NAME" df2) eqn:Hn; simpl in He;
      try done; injection He as <-; split; auto.
  - intros -> -> -> ->. by eexists.
Qed.

Example geo_page_on_wide_listings :
  geo_page wide_listings = Ok (Some [loft; villa]).
Proof. vm_compute. reflexivity. Qed.

Example geo_page_without_coordinates :
  geo_page listings = Ok None.
Proof. reflexivity. Qed.

(** ** Narrowing and combining selections *)

Section Narrowing.

Implicit Types (s : FilterSpec) (df : DataFrame) (r : gmap string cell)
  (v : cell).

Lemma member_picked_from name (picks picks' : list cell) r :
  picked_from picks picks' →
  member name picks r = true → member name picks' r = true.
Proof.
  unfold member, picked_from. rewrite Forall_forall.
  intros Hfrom (w & Hw & Hvw)%existsb_exists.
  apply list_elem_of_In, Hfrom, existsb_exists in Hw as (w' & Hw' & Hww').
  apply existsb_exists. exists w'. split; [done|].
  by eapply isin_eqb_trans.
Qed.

Lemma geb_widen (lo lo' : Z) v :
  (lo' ≤ lo)%Z → geb lo v = true → geb lo' v = true.
Proof.
  intros Hle. destruct v as [|q|a]; simpl; try done.
  rewrite !Qle_bool_iff. intros Hq. rewrite Zle_Qle in Hle.
  by eapply Qle_trans.
Qed.

Lemma leb_widen (hi hi' : Z) v :
  (hi ≤ hi')%Z → leb hi v = true → leb hi' v = true.
Proof.
  intros Hle. destruct v as [|q|a]; simpl; try done.
  rewrite !Qle_bool_iff. intros Hq. rewrite Zle_Qle in Hle.
  by eapply Qle_trans.
Qed.

(** A row a selection keeps is kept by every wider selection. *)
Lemma passes_narrower s s' r :
  narrower s s' → passes s r = true → passes s' r = true.
Proof.
  intros (Hng & Hrt & Hco & [Hp1 Hp2] & [Hy1 Hy2] & [Hn1 Hn2] & Hag & Hhost).
  unfold passes, main_passes.
  rewrite !andb_true_iff.
  intros [[Hmain Hav] Hho].
  destruct Hmain as [[[[[[[[Ha Hb] Hc] H4] H5] H6] H7] H8] H9].
  split_and!;
    eauto using member_picked_from, geb_widen, leb_widen.
  - unfold availability_passes in *.
    destruct Hag as [-> | <-]; [done|exact Hav].
  - unfold host_passes in *.
    destruct Hhost as [-> | <-]; [done|exact Hho].
Qed.

Lemma filtered_twice df s s' :
  schema_ok df → selection_ok df s → selection_ok df s' →
  (filtered_of df s ≫= λ t, filtered_of t s')
  = Ok (mkDataFrame (columns df)
          (List.filter (λ r, passes s r && passes s' r) (rows df))).
Proof.
  intros Hs Hsel Hsel'. rewrite filtered_of_rows by done. simpl.
  rewrite filtered_of_rows;
    [simpl; by rewrite filter_andb|by apply schema_ok_filter|].
  exact Hsel'.
Qed.

End Narrowing.

(** X12: narrowing the selection only removes rows, and it does not
    matter whether one filters the source table or the table already
    filtered by the wider selection: the result is the same. *)
Theorem narrowing_filters_the_filtered (df : DataFrame) (s s' : FilterSpec) :
  schema_ok df → selection_ok df s → selection_ok df s' →
  narrower s s' →
  ∃ out out',
    filtered_of df s = Ok out ∧ filtered_of df s' = Ok out' ∧
    rows out `sublist_of` rows out' ∧
    filtered_of out' s = Ok out.
Proof.
  intros Hs Hsel Hsel' Hnarrow. eexists. eexists.
  split; [by apply filtered_of_rows|].
  split; [by apply filtered_of_rows|]. simpl.
  assert (List.filter (passes s) (List.filter (passes s') (rows df))
          = List.filter (passes s) (rows df)) as Heq.
  { rewrite filter_andb. apply List.filter_ext. intros r.
    destruct (passes s r) eqn:Hp; [|by rewrite andb_false_r].
    by rewrite (passes_narrower _ _ _ Hnarrow Hp). }
  split.
  - rewrite <- Heq. apply filter_sublist.
  - rewrite filtered_of_rows; [|by apply schema_ok_filter|exact Hsel].
    simpl. by rewrite Heq.
Qed.

Lemma narrowing_filters_the_filtered_witness :
  ∃ out out',
    filtered_of listings homes_at_50 = Ok out ∧
    filtered_of listings default_selection = Ok out' ∧
    rows out `sublist_of` rows out' ∧
    filtered_of out' homes_at_50 = Ok out.
Proof.
  apply (narrowing_filters_the_filtered listings homes_at_50 default_selection).
  - schema_by_computation.
  - selection_by_computation.
  - selection_by_computation.
  - unfold narrower, picked_from, range_within. simpl.
    split_and!; try lia; try (by left); repeat constructor.
Defined.

(** X13: two selections can be applied in either order: filtering by one
    and then by the other keeps, whichever comes first, exactly the rows
    that pass both. *)
Theorem filters_commute (df : DataFrame) (s s' : FilterSpec) :
  schema_ok df → selection_ok df s → selection_ok df s' →
  (filtered_of df s ≫= λ t, filtered_of t s')
  = (filtered_of df s' ≫= λ t, filtered_of t s) ∧
  (filtered_of df s ≫= λ t, filtered_of t s')
  = Ok (mkDataFrame (columns df)
          (List.filter (λ r, passes s r && passes s' r) (rows df))).
Proof.
  intros Hs Hsel Hsel'. rewrite !filtered_twice by done.
  split; [|done]. do 2 f_equal. apply List.filter_ext. intros r.
  apply andb_comm.
Qed.

Lemma filters_commute_witness :
  (filtered_of listings homes_at_50 ≫= λ t, filtered_of t low_big)
  = (filtered_of listings low_big ≫= λ t, filtered_of t homes_at_50) ∧
  (filtered_of listings homes_at_50 ≫= λ t, filtered_of t low_big)
  = Ok (mkDataFrame (columns listings)
          (List.filter (λ r, passes homes_at_50 r && passes low_big r)
                       (rows listings))).
Proof.
  apply (filters_commute listings homes_at_50 low_big).
  - schema_by_computation.
  - selection_by_computation.
  - selection_by_computation.
Defined.

(** ** Pages of a table without rows *)

Section BlankPages.

Implicit Types (s : FilterSpec) (df : DataFrame).

Lemma no_picks_no_rows s (rs : list (gmap string cell)) :
  ng s = [] ∨ rt s = [] ∨ co s = [] → List.filter (passes s) rs = [].
Proof.
  intros Hempty. apply filter_none. intros r.
  unfold passes, main_passes, member.
  destruct Hempty as [-> | [-> | ->]]; simpl;
    rewrite ?andb_false_r; reflexivity.
Qed.

Lemma getitem_no_rows (cols : list string) name :
  name ∈ cols → getitem (mkDataFrame cols []) name = Ok [].
Proof.
  intros Hin. unfold getitem, has_column. simpl.
  by rewrite bool_decide_true.
Qed.

Lemma has_column_elem df name : has_column name df = true ↔ name ∈ columns df.
Proof. unfold has_column. apply bool_decide_eq_true. Qed.

End BlankPages.

(** X14: when one of the three multiselects is emptied, the pages do not
    fail on the empty table they get.  The Dashboard page shows 0
    listings, 0 hosts, 0 countries and a missing value for each average;
    the "Listings per ..." charts are skipped; the host chart shows two
    bars of height 0. *)
Theorem nothing_selected_blank_pages (df : DataFrame) (s : FilterSpec) :
  schema_ok df → selection_ok df s →
  Forall (λ c, has_column c df = true) kpi_columns →
  ng s = [] ∨ rt s = [] ∨ co s = [] →
  ∃ out, filtered_of df s = Ok out ∧
    dashboard_page out = Ok blank_kpis ∧
    (∀ name, has_column name df = true → listings_per out name = Ok None) ∧
    (has_column "host_is_big" df = true →
       host_type_distribution out
       = Ok [("Small Hosts (≤3)", 0%nat); ("Big Hosts (>3)", 0%nat)]).
Proof.
  intros Hs Hsel Hkpi Hempty. eexists.
  split; [by apply filtered_of_rows|].
  rewrite no_picks_no_rows by done.
  assert (∀ c, c ∈ kpi_columns → getitem (mkDataFrame (columns df) []) c = Ok [])
    as Hget.
  { intros c Hc. apply getitem_no_rows, has_column_elem.
    rewrite Forall_forall in Hkpi. by apply Hkpi. }
  split_and!.
  - unfold dashboard_page, column_mean.
    rewrite !Hget by (unfold kpi_columns; by repeat constructor).
    reflexivity.
  - intros name Hname%has_column_elem. unfold listings_per, column_counts.
    by rewrite getitem_no_rows.
  - intros Hhost%has_column_elem.
    unfold host_type_distribution, column_counts.
    by rewrite getitem_no_rows.
Qed.

Lemma nothing_selected_blank_pages_witness :
  ∃ out, filtered_of wide_listings no_room_type = Ok out ∧
    dashboard_page out = Ok blank_kpis ∧
    (∀ name, has_column name wide_listings = true →
       listings_per out name = Ok None) ∧
    (has_column "host_is_big" wide_listings = true →
       host_type_distribution out
       = Ok [("Small Hosts (≤3)", 0%nat); ("Big Hosts (>3)", 0%nat)]).
Proof.
  apply (nothing_selected_blank_pages wide_listings no_room_type).
  - schema_by_computation.
  - selection_by_computation.
  - repeat constructor.
  - right. left. reflexivity.
Defined.

Example dashboard_page_on_wide_listings :
  dashboard_page wide_listings
  = Ok {| listing_count := 3; unique_hosts := 3;
          average_price := Num (160 # 3)%Q;
          average_rating := Num (12 # 3)%Q;
          avg_min_nights := Num (6 # 3)%Q;
          avg_occupancy := Num (205 # 3)%Q;
          avg_popularity := Num (41 # 3)%Q;
          countries := 1 |}.
Proof. vm_compute. reflexivity. Qed.

(** ** A whole run: load, sidebar, filter *)

Section WholeRun.

Lemma filtered_of_columns (df out : DataFrame) (s : FilterSpec) :
  filtered_of df s = Ok out → columns out = columns df.
Proof.
  intros Hout.
  assert (succeeds (filtered_of df s)) as [Hs Hsel]%filtered_of_succeeds_iff
    by by eexists.
  rewrite filtered_of_rows in Hout by done. by injection Hout as <-.
Qed.

Lemma load_data_columns (fs fs1 : gmap string file) (df : DataFrame) :
  load_data fs = Ok (df, fs1) →
  ∀ c, c ∈ columns df → ¬ begins_with "Unnamed" c.
Proof.
  unfold load_data.
  intros (fs' & _ & (raw & _ & [= <- _])%bind_Ok)%bind_Ok c. simpl.
  intros [_ Hkeep]%list_elem_of_In%filter_In. by apply keeps_column.
Qed.

End WholeRun.

(** X15: no index artifact reaches the pages.  Whatever the disk holds
    and the user selects, the table a run puts in the session has no
    column whose name begins with "Unnamed", and it has the six filtered
    columns. *)
Theorem session_table_columns (w : Widgets) (sl : Slider)
    (fs : gmap string file) (out : DataFrame) :
  session_table w sl fs = Ok out →
  (∀ c, c ∈ columns out → ¬ begins_with "Unnamed" c) ∧
  (∀ c, c ∈ required_columns → c ∈ columns out).
Proof.
  unfold session_table.
  intros ([df fs1] & Hload & (s & _ & Hout)%bind_Ok)%bind_Ok. simpl in Hout.
  rewrite (filtered_of_columns _ _ _ Hout). split.
  - by eapply load_data_columns.
  - intros c Hc.
    assert (succeeds (filtered_of df s)) as [Hs _]%filtered_of_succeeds_iff
      by by eexists.
    apply has_column_elem. by apply schema_has_column.
Qed.

Example session_table_of_listings :
  session_table at_defaults slider_untouched disk_with_listings
  = Ok (mkDataFrame listing_columns [home_50; room_50; home_60]).
Proof. vm_compute. reflexivity. Qed.

Lemma session_table_columns_witness :
  (∀ c, c ∈ listing_columns → ¬ begins_with "Unnamed" c) ∧
  (∀ c, c ∈ required_columns → c ∈ listing_columns).
Proof.
  apply (session_table_columns at_defaults slider_untouched
           disk_with_listings
           (mkDataFrame listing_columns [home_50; room_50; home_60])).
  vm_compute. reflexivity.
Defined.

(** ** Sidebar options and the top ten *)

(** X16: the options of a multiselect (and of the availability selectbox,
    after "All") offer every value the column holds exactly once, hold no
    missing value, and offer nothing the column does not hold. *)
Theorem options_offer_each_value_once (df : DataFrame) (name : string)
    (o : list cell) :
  category_options df name = Ok o →
  (NaN ∉ o) ∧
  (∀ v, v ∈ o → ∃ r, r ∈ rows df ∧ cell_at name r = v) ∧
  (∀ r, r ∈ rows df → cell_at name r ≠ NaN →
     length (List.filter (isin_eqb (cell_at name r)) o) = 1%nat).
Proof.
  intros Ho. split_and!.
  - intros Hin. by destruct (category_options_elem _ _ _ _ Ho Hin).
  - intros v Hin. by destruct (category_options_elem _ _ _ _ Ho Hin).
  - intros r Hr Hna. apply category_options_inv in Ho as ->.
    rewrite count_unique.
    assert (existsb (isin_eqb (cell_at name r))
              (dropna (map (cell_at name) (rows df))) = true) as ->; [|done].
    apply existsb_exists. exists (cell_at name r). split.
    + unfold dropna. apply filter_In. split.
      * apply list_elem_of_In, list_elem_of_fmap. by exists r.
      * by destruct (cell_at name r).
    + apply isin_eqb_reflexive.
Qed.

Lemma options_offer_each_value_once_witness :
  (NaN ∉ [Str "Bronx"; Str "Queens"]) ∧
  (∀ v, v ∈ [Str "Bronx"; Str "Queens"] →
     ∃ r, r ∈ rows listings ∧ cell_at "neighbourhood group" r = v) ∧
  (∀ r, r ∈ rows listings → cell_at "neighbourhood group" r ≠ NaN →
     length (List.filter (isin_eqb (cell_at "neighbourhood group" r))
                         [Str "Bronx"; Str "Queens"]) = 1%nat).
Proof.
  apply (options_offer_each_value_once listings "neighbourhood group").
  vm_compute. reflexivity.
Defined.

(** X17: the chart "Top 10 Neighbourhoods" has at most ten bars, each the
    count of a neighbourhood of the table, and no neighbourhood left out
    has more listings than one that is shown; the chart is skipped when
    the table has no neighbourhood at all. *)
Theorem top_neighbourhoods_are_the_most_frequent
    (sort : list (cell * nat) → list (cell * nat)) (df2 : DataFrame)
    (counts : list (cell * nat)) :
  sorts_by_count sort →
  column_counts df2 "neighbourhood" = Ok counts →
  ∃ bars, top_neighbourhoods sort df2 = Ok (bars_if_any bars) ∧
    length bars = (10 `min` length counts)%nat ∧
    (∀ e, e ∈ bars → e ∈ counts) ∧
    (∀ e e', e ∈ bars → e' ∈ counts → e' ∉ bars → (e'.2 ≤ e.2)%nat) ∧
    (counts = [] → bars = []).
Proof.
  intros Hsort Hcounts. destruct (Hsort counts) as [Hperm Hsorted].
  exists (take 10 (sort counts)).
  unfold top_neighbourhoods. rewrite Hcounts. simpl.
  split_and!; [done| | | |].
  - by rewrite length_take, Hperm.
  - intros e He. rewrite <- Hperm, <- (take_drop 10 (sort counts)).
    apply elem_of_app. by left.
  - intros e e' He He' Hout.
    rewrite <- Hperm, <- (take_drop 10 (sort counts)), elem_of_app in He'.
    destruct He' as [He' | He']; [done|].
    rewrite <- (take_drop 10 (sort counts)) in Hsorted.
    by apply (StronglySorted_app_1_elem_of _ _ _ e e' Hsorted).
  - intros ->. apply Permutation_nil_r in Hperm. by rewrite Hperm.
Qed.

Lemma merge_sort_sorts_by_count :
  sorts_by_count (merge_sort at_least_as_frequent).
Proof.
  intros l. split; [apply merge_sort_Permutation|].
  apply StronglySorted_merge_sort.
  - intros a b c. unfold at_least_as_frequent. lia.
  - intros a b. unfold at_least_as_frequent. lia.
Defined.

Example top_neighbourhoods_of_sample :
  top_neighbourhoods (merge_sort at_least_as_frequent) neighbourhood_listings
  = Ok (Some [(Str "Harlem", 3%nat); (Str "Astoria", 2%nat);
              (Str "Soho", 1%nat)]).
Proof. vm_compute. reflexivity. Qed.

Lemma top_neighbourhoods_are_the_most_frequent_witness :
  ∃ bars,
    top_neighbourhoods (merge_sort at_least_as_frequent) neighbourhood_listings
    = Ok (bars_if_any bars) ∧
    length bars
    = (10 `min` length [(Str "Harlem", 3%nat); (Str "Astoria", 2%nat);
                        (Str "Soho", 1%nat)])%nat ∧
    (∀ e, e ∈ bars →
       e ∈ [(Str "Harlem", 3%nat); (Str "Astoria", 2%nat);
            (Str "Soho", 1%nat)]) ∧
    (∀ e e', e ∈ bars →
       e' ∈ [(Str "Harlem", 3%nat); (Str "Astoria", 2%nat);
             (Str "Soho", 1%nat)] →
       e' ∉ bars → (e'.2 ≤ e.2)%nat) ∧
    ([(Str "Harlem", 3%nat); (Str "Astoria", 2%nat); (Str "Soho", 1%nat)]
     = [] → bars = []).
Proof.
  apply (top_neighbourhoods_are_the_most_frequent
           (merge_sort at_least_as_frequent) neighbourhood_listings).
  - exact merge_sort_sorts_by_count.
  - vm_compute. reflexivity.
Defined.

(** ** Charts after an optional filter was chosen *)

Section OneCategory.

Implicit Types (v k : cell) (l : list cell) (s : FilterSpec) (df : DataFrame).

Lemma filter_none_in {A} (f : A → bool) (xs : list A) :
  (∀ x, x ∈ xs → f x = false) → List.filter f xs = [].
Proof.
  induction xs as [|x xs IH]; simpl; [done|]. intros Hf.
  rewrite (Hf x) by by left. apply IH. intros y Hy. apply Hf. by right.
Qed.

Lemma filter_all_in {A} (f : A → bool) (xs : list A) :
  (∀ x, x ∈ xs → f x = true) → List.filter f xs = xs.
Proof.
  induction xs as [|x xs IH]; simpl; [done|]. intros Hf.
  rewrite (Hf x) by by left. f_equal. apply IH. intros y Hy. apply Hf. by right.
Qed.

(** A Series holding one value has one distinct value. *)
Lemma unique_one_value l k :
  (∀ v, v ∈ l → isin_eqb v k = true) →
  unique l = match l with [] => [] | v :: _ => [v] end.
Proof.
  induction l as [|v l IH]; [done|]. intros Hall. simpl. f_equal.
  apply filter_none_in. intros w Hw%unique_subset.
  apply negb_false_iff.
  eapply isin_eqb_trans; [apply Hall; by right|].
  rewrite isin_eqb_sym. apply Hall. by left.
Qed.

Lemma mapM_Ok_length {A B} (f : A → result B) (xs : list A) (ys : list B) :
  mapM f xs = Ok ys → length ys = length xs.
Proof.
  revert ys. induction xs as [|x xs IH]; intros ys; simpl.
  - by intros [= <-].
  - intros (y & _ & (ys' & Hys & [= <-])%bind_Ok)%bind_Ok.
    simpl. by rewrite (IH ys').
Qed.

(** The rows the host statement keeps. *)
Lemma passes_host_flag s (small : bool) (r : gmap string cell) :
  not_All (host_type s) = true → Small_in (host_type s) = Ok small →
  passes s r = true →
  eq_scalar (cell_at "host_is_big" r)
            (Num (inject_Z (if small then 0 else 1))) = true.
Proof.
  intros Hpick Hsmall. unfold passes, host_passes.
  rewrite Hpick, Hsmall. by intros [_ ?]%andb_true_iff.
Qed.

Lemma passes_availability s (r : gmap string cell) :
  not_All (ag s) = true → passes s r = true →
  eq_scalar (cell_at "availability_group" r) (ag s) = true.
Proof.
  intros Hpick. unfold passes, availability_passes. rewrite Hpick.
  by intros [[_ ?]%andb_true_iff _]%andb_true_iff.
Qed.

Lemma eq_scalar_isin v k : eq_scalar v k = true → isin_eqb v k = true.
Proof. by destruct v, k. Qed.

Lemma eq_scalar_not_missing v k : eq_scalar v k = true → v ≠ NaN.
Proof. by destruct v. Qed.

Lemma dropna_nothing l : (∀ v, v ∈ l → v ≠ NaN) → dropna l = l.
Proof.
  intros Hl. unfold dropna. induction l as [|v l IH]; simpl; [done|].
  assert (v ≠ NaN) by (apply Hl; by left). destruct v; try done;
    simpl; f_equal; apply IH; intros w Hw; apply Hl; by right.
Qed.

(** The counts of a Series holding one value: one entry, counting every
    cell. *)
Lemma value_counts_one_value l k :
  (∀ v, v ∈ l → eq_scalar v k = true) →
  value_counts l = match l with [] => [] | v :: _ => [(v, length l)] end.
Proof.
  intros Hall. unfold value_counts.
  rewrite dropna_nothing by (intros v Hv; eapply eq_scalar_not_missing; eauto).
  rewrite (unique_one_value l k) by (intros v Hv; by apply eq_scalar_isin, Hall).
  destruct l as [|v l]; [done|]. simpl. do 2 f_equal.
  rewrite isin_eqb_reflexive. simpl. f_equal.
  f_equal. apply filter_all_in. intros w Hw.
  eapply isin_eqb_trans; [apply eq_scalar_isin, Hall; by left|].
  rewrite isin_eqb_sym. apply eq_scalar_isin, Hall. by right.
Qed.

End OneCategory.

Section HostChoice.

Implicit Types (v : cell) (a b : Z).

Lemma int_flags_distinct v a b :
  a ≠ b → eq_scalar v (Num (inject_Z a)) = true →
  isin_eqb v (Num (inject_Z b)) = false.
Proof.
  intros Hne Ha. apply not_true_is_false. intros Hb.
  destruct v as [|q|c]; simpl in *; try done.
  apply Qeq_bool_iff in Ha, Hb. rewrite Ha in Hb.
  apply Hne. unfold Qeq in Hb. simpl in Hb. lia.
Qed.

Lemma series_get_single {V} v (n dflt : V) (key : cell) :
  series_get [(v, n)] key dflt = if isin_eqb v key then n else dflt.
Proof. unfold series_get. simpl. by destruct (isin_eqb v key). Qed.

End HostChoice.

(** X18: on a table whose flag column holds numbers, after "Small Hosts
    (≤3 listings)" was chosen in the sidebar the chart "Host Type
    Distribution" shows every listing of the filtered table in the bar of
    the small hosts and 0 in the other; after "Big Hosts (>3 listings)"
    every listing in the bar of the big hosts and 0 in the other. *)
Theorem host_choice_fills_one_bar (df : DataFrame) (s : FilterSpec) :
  schema_ok df → selection_ok df s → host_flags_numeric df →
  ∃ out, filtered_of df s = Ok out ∧
    (host_type s = Str "Small Hosts (≤3 listings)" →
     host_type_distribution out
     = Ok [("Small Hosts (≤3)", length (rows out));
           ("Big Hosts (>3)", 0%nat)]) ∧
    (host_type s = Str "Big Hosts (>3 listings)" →
     host_type_distribution out
     = Ok [("Small Hosts (≤3)", 0%nat);
           ("Big Hosts (>3)", length (rows out))]).
Proof.
  intros Hs Hsel _.
  eexists. split; [by apply filtered_of_rows|]. simpl.
  set (kept := List.filter (passes s) (rows df)).
  assert (∀ small : bool,
    not_All (host_type s) = true → Small_in (host_type s) = Ok small →
    host_type_distribution (mkDataFrame (columns df) kept)
    = Ok (if small
          then [("Small Hosts (≤3)", length kept); ("Big Hosts (>3)", 0%nat)]
          else [("Small Hosts (≤3)", 0%nat); ("Big Hosts (>3)", length kept)]))
    as Hbars.
  { intros small Hpick Hsmall.
    destruct (proj2 Hsel Hpick) as [Hcol _].
    unfold host_type_distribution, column_counts.
    rewrite getitem_Ok by exact Hcol. simpl.
    assert (∀ v, v ∈ map (cell_at "host_is_big") kept →
              eq_scalar v (Num (inject_Z (if small then 0 else 1))) = true)
      as Hflag.
    { intros v (r & -> & Hr)%list_elem_of_fmap.
      apply list_elem_of_In, filter_In in Hr as [_ Hr].
      by apply (passes_host_flag s). }
    rewrite (value_counts_one_value _ _ Hflag).
    destruct kept as [|r kept']; simpl; [by destruct small|].
    rewrite !series_get_single, length_map.
    pose proof (Hflag (cell_at "host_is_big" r) ltac:(by left)) as Hr.
    destruct small.
    - rewrite (eq_scalar_isin _ _ Hr).
      by rewrite (int_flags_distinct _ 0 1) by done.
    - rewrite (eq_scalar_isin _ _ Hr).
      by rewrite (int_flags_distinct _ 1 0) by done. }
  split; intros Hchoice.
  - apply (Hbars true); by rewrite Hchoice.
  - apply (Hbars false); by rewrite Hchoice.
Qed.

Lemma host_choice_fills_one_bar_witness :
  ∃ out, filtered_of listings small_hosts = Ok out ∧
    (host_type small_hosts = Str "Small Hosts (≤3 listings)" →
     host_type_distribution out
     = Ok [("Small Hosts (≤3)", length (rows out));
           ("Big Hosts (>3)", 0%nat)]) ∧
    (host_type small_hosts = Str "Big Hosts (>3 listings)" →
     host_type_distribution out
     = Ok [("Small Hosts (≤3)", 0%nat);
           ("Big Hosts (>3)", length (rows out))]).
Proof.
  apply (host_choice_fills_one_bar listings small_hosts).
  - schema_by_computation.
  - selection_by_computation.
  - repeat constructor.
Defined.

Example small_hosts_bars :
  host_type_distribution (mkDataFrame listing_columns [home_50])
  = Ok [("Small Hosts (≤3)", 1%nat); ("Big Hosts (>3)", 0%nat)].
Proof. vm_compute. reflexivity. Qed.

Example big_hosts_bars :
  host_type_distribution big_hosts_only
  = Ok [("Small Hosts (≤3)", 0%nat); ("Big Hosts (>3)", 1%nat)].
Proof. vm_compute. reflexivity. Qed.
